(** * redback / grb_bilby: ejecta relations, fit orchestration, model comparison

    A shallow embedding of
      - [redback/ejecta_relations.py]   (kilonova ejecta relations),
      - [redback/sampler.py]            (fit orchestration),
      - [grb_bilby/analysis/Analysis.py] (Bayes factors from stored results,
                                         the curves of the models),
      - [redback/redback/transient_models/afterglow_models.py]
                                        (the afterglow models),
    together with the properties stated about them.

    Numbers.  The closed-form fits use logarithms and real powers; they are
    modelled on [option R]: [Some r] is a finite real computed exactly, [None]
    stands for everything that is not a finite real (NaN, an infinity, the
    complex result of a negative base under a fractional power).  Rounding and
    overflow of binary64 are not modelled there.  Where overflow decides a
    property of the ejecta masses, the two operations of a
    Python float that raise are modelled in [PyFloat], and the ejecta masses
    over them in [EjectaRelationsPyFloat].  The orchestration and comparison
    code only compares, adds, negates and subtracts floats, so it is modelled
    on Rocq's binary64 primitive floats. *)

From Stdlib Require Import Reals Lra Lia ZArith.
From Stdlib Require Import Floats Ascii String.
From stdpp Require Import base option gmap strings.

Set Warnings "-inexact-float,-register-all".

(** ** Python exceptions and the result of a computation that may raise *)

Inductive exn : Type :=
  | TypeError (msg : string)
  | AttributeError (attr : string)
  | KeyError (key : string)
  | ValueError (msg : string)
  | IOError (msg : string)
  | ResultNotFound (filename : string)
  | OverflowError (msg : string)
  | ZeroDivisionError (msg : string).

Inductive result (A : Type) : Type :=
  | Ok (a : A)
  | Err (e : exn).
Arguments Ok {A} a.
Arguments Err {A} e.

#[global] Instance result_ret : MRet result := fun A a => Ok a.
#[global] Instance result_bind : MBind result := fun A B f m =>
  match m with
  | Ok a => f a
  | Err e => Err e
  end.

(** ** Numbers of the ejecta relations *)

Module Num.

Open Scope R_scope.

Definition num : Type := option R.

Definition fin (r : R) : num := Some r.

Definition lift1 (f : R -> R) (x : num) : num :=
  match x with
  | Some a => Some (f a)
  | None => None
  end.

Definition lift2 (f : R -> R -> R) (x y : num) : num :=
  match x, y with
  | Some a, Some b => Some (f a b)
  | _, _ => None
  end.

Definition add : num -> num -> num := lift2 Rplus.
Definition sub : num -> num -> num := lift2 Rminus.
Definition mul : num -> num -> num := lift2 Rmult.
Definition neg : num -> num := lift1 Ropp.

(** [x / y]: a zero divisor gives an infinity or a NaN (numpy's numbers) or
    [ZeroDivisionError] (a Python float), none of which is a finite real; the
    division that raises is [PyFloat.float_truediv]. *)
Definition div (x y : num) : num :=
  match x, y with
  | Some a, Some b => if Req_dec_T b 0 then None else Some (a / b)
  | _, _ => None
  end.

(** [np.log]: -inf at zero and NaN below it. *)
Definition log (x : num) : num :=
  match x with
  | Some a => if Rlt_dec 0 a then Some (ln a) else None
  | None => None
  end.

(** [np.sqrt]: NaN for a negative argument. *)
Definition sqrt (x : num) : num :=
  match x with
  | Some a => if Rle_dec 0 a then Some (R_sqrt.sqrt a) else None
  | None => None
  end.

(** [np.sign]. *)
Definition sign (x : num) : num :=
  lift1 (fun a => if Rlt_dec 0 a then 1 else if Rlt_dec a 0 then -1 else 0) x.

(** [np.maximum]: a NaN argument gives NaN. *)
Definition maximum : num -> num -> num := lift2 Rmax.

(** The power operator on finite reals:
    - a positive base: [exp (b * ln a)];
    - base zero: [0] for a positive exponent, [1] for exponent zero, and
      nothing finite for a negative exponent (an infinity for numpy's
      numbers, [ZeroDivisionError] for a Python float);
    - a negative base: the integer power when the exponent is an integer,
      and nothing real otherwise.
    The result is exact: a power too large for binary64 (an infinity for
    numpy's numbers, [OverflowError] for a Python float) is still a real
    here; the power that raises is [PyFloat.float_pow]. *)
Definition Rpow (a b : R) : option R :=
  if Rlt_dec 0 a then Some (Rpower a b)
  else if Req_dec_T a 0 then
    if Rlt_dec 0 b then Some 0
    else if Req_dec_T b 0 then Some 1
    else None
  else
    if Req_dec_T (IZR (Int_part b)) b then Some (powerRZ a (Int_part b))
    else None.

Definition pow (x y : num) : num :=
  match x, y with
  | Some a, Some b => Rpow a b
  | _, _ => None
  end.

Definition pi : num := Some PI.

End Num.

Declare Scope num_scope.
Delimit Scope num_scope with num.
Bind Scope num_scope with Num.num.
Coercion Num.fin : R >-> Num.num.

Notation "x + y" := (Num.add x y) : num_scope.
Notation "x - y" := (Num.sub x y) : num_scope.
Notation "x * y" := (Num.mul x y) : num_scope.
Notation "x / y" := (Num.div x y) : num_scope.
Notation "- x" := (Num.neg x) : num_scope.
Notation "x ** y" := (Num.pow x y) (at level 30, right associativity) : num_scope.

(** ** Python values and instances *)

Module Py.

(** The values an instance attribute of these classes can hold: a float, a
    string (the [reference] URL), or a bound method. *)
Inductive value : Type :=
  | VFloat (x : Num.num)
  | VStr (s : string)
  | VMethod (f : unit -> result value).

(** An instance is its attribute dictionary. *)
Abbreviation object := (gmap string value).

(** [self.name] for an instance attribute. *)
Definition getattr (self : object) (name : string) : result value :=
  match self !! name with
  | Some v => Ok v
  | None => Err (AttributeError name)
  end.

(** [self.name = v]. *)
Definition setattr (self : object) (name : string) (v : value) : object :=
  <[name := v]> self.

(** An attribute used as an operand of arithmetic. *)
Definition as_float (v : value) : result Num.num :=
  match v with
  | VFloat x => Ok x
  | VStr _ => Err (TypeError "unsupported operand type(s): 'str'")
  | VMethod _ => Err (TypeError "unsupported operand type(s): 'method'")
  end.

Definition attr (self : object) (name : string) : result Num.num :=
  v ← getattr self name; as_float v.

(** [self.name] where the class declares [name] with [@property]: the
    attribute access itself runs the getter and evaluates to what it returns. *)
Definition property_get (fget : object -> result Num.num) (self : object)
  : result value :=
  x ← fget self; Ok (VFloat x).

(** [self.name] where [name] is a plain method: a bound method. *)
Definition method_get (f : object -> result Num.num) (self : object)
  : result value :=
  Ok (VMethod (fun _ => x ← f self; Ok (VFloat x))).

(** The call operator [v()]. *)
Definition call (v : value) : result value :=
  match v with
  | VFloat _ => Err (TypeError "object is not callable")
  | VStr _ => Err (TypeError "object is not callable")
  | VMethod f => f tt
  end.

End Py.

(** ** redback/ejecta_relations.py

    [calc_compactness], which needs the SI constants of astropy, is modelled
    over those constants in [EjectaRelationsSI] below; nothing in the file
    calls it. *)

Module EjectaRelations.

Import Num Py.
Open Scope R_scope.
Open Scope num_scope.

(** Modelled from the spec: [redback.utils.citation_wrapper] is not among the
    sources.  The spec describes the functions it decorates ([calc_vrho],
    [calc_vz]) as pure closed forms, so the decorator records the citation and
    hands the function back unchanged. *)
Definition citation_wrapper {A : Type} (r : string) (f : A) : A := f.

Definition calc_compactness_from_lambda (lambda_1 : num) : num :=
  let c1 := 0.371 - 0.0391 * log lambda_1 + 0.001056 * log lambda_1 ** 2 in
  c1.

Definition calc_baryonic_mass_eos_insensitive (mass_g radius_14 : num) : num :=
  let mb := mass_g + radius_14 ** (-1) * mass_g ** 2 in
  mb.

Definition calc_baryonic_mass (mass compactness : num) : num :=
  let mb := mass * (1 + 0.8857853174243745 * compactness ** 1.2082383572002926) in
  mb.

Definition calc_vrho : num -> num -> num -> num -> num :=
  citation_wrapper "https://ui.adsabs.harvard.edu/abs/2017CQGra..34j5014D/abstract"
  (fun mass_1 mass_2 lambda_1 lambda_2 =>
    let a : num := -0.219479 in
    let b : num := 0.444836 in
    let c : num := -2.67385 in
    let compactness_1 := calc_compactness_from_lambda lambda_1 in
    let compactness_2 := calc_compactness_from_lambda lambda_2 in
    ((mass_1 / mass_2) * (1.0 + c * compactness_1)
     + (mass_2 / mass_1) * (1.0 + c * compactness_2)) * a + b).

Definition calc_vz : num -> num -> num -> num -> num :=
  citation_wrapper "https://ui.adsabs.harvard.edu/abs/2017CQGra..34j5014D/abstract"
  (fun mass_1 mass_2 lambda_1 lambda_2 =>
    let a : num := -0.315585 in
    let b : num := 0.63808 in
    let c : num := -1.00757 in
    let compactness_1 := calc_compactness_from_lambda lambda_1 in
    let compactness_2 := calc_compactness_from_lambda lambda_2 in
    ((mass_1 / mass_2) * (1.0 + c * compactness_1)
     + (mass_2 / mass_1) * (1.0 + c * compactness_2)) * a + b).

Module OneComponentBNSNoProjection.

Definition reference : string :=
  "https://ui.adsabs.harvard.edu/abs/2017CQGra..34j5014D/abstract".

(** [@property] *)
Definition calculate_ejecta_velocity (self : object) : result num :=
  c1 ← attr self "c1";
  c2 ← attr self "c2";
  let a : num := -0.3090 in
  let b : num := 0.657 in
  let c : num := -1.879 in
  mass_1 ← attr self "mass_1";
  mass_2 ← attr self "mass_2";
  let vej := a * (mass_1 / mass_2) * (1 + c * c1)
             + a * (mass_2 / mass_1) * (1 + c * c2) + b in
  Ok vej.

(** [@property] *)
Definition calculate_ejecta_mass (self : object) : result num :=
  c1 ← attr self "c1";
  c2 ← attr self "c2";
  let a : num := -0.0719 in
  let b : num := 0.2116 in
  let d : num := -2.42 in
  let n : num := -2.905 in
  mass_1 ← attr self "mass_1";
  mass_2 ← attr self "mass_2";
  let log10_mej :=
    a * (mass_1 * (1 - 2 * c1) / c1 + mass_2 * (1 - 2 * c2) / c2)
    + b * (mass_1 * (mass_2 / mass_1) ** n + mass_2 * (mass_1 / mass_2) ** n)
    + d in
  let mej := 10 ** log10_mej in
  Ok mej.

(** [@property] *)
Definition calculate_qej (self : object) : result num :=
  vz ← attr self "vz";
  vrho ← attr self "vrho";
  let tmp1 := 3.0 * vz + sqrt (9 * vz ** 2 + 4 * vrho ** 2) in
  let qej := ((2.0 ** (4.0 / 3.0)) * vrho ** 2
              + (2.0 * vrho ** 2 * tmp1) ** (2.0 / 3.0))
             / ((vrho ** 5.0) * tmp1) ** (1.0 / 3.0) in
  Ok qej.

(** [@property] *)
Definition calculate_phej (self : object) : result num :=
  qej ← attr self "qej";
  Ok (4.0 * qej * pi / 2.0).

(** Lines 16-24 of [__init__]: the attributes set by plain assignment. *)
Definition init_attrs (mass_1 mass_2 lambda_1 lambda_2 : num) : object :=
  let self : object := ∅ in
  let self := setattr self "mass_1" (VFloat mass_1) in
  let self := setattr self "mass_2" (VFloat mass_2) in
  let self := setattr self "lambda_1" (VFloat lambda_1) in
  let self := setattr self "lambda_2" (VFloat lambda_2) in
  let self := setattr self "c1" (VFloat (calc_compactness_from_lambda lambda_1)) in
  let self := setattr self "c2" (VFloat (calc_compactness_from_lambda lambda_2)) in
  let self := setattr self "reference" (VStr reference) in
  let self := setattr self "vrho"
                (VFloat (calc_vrho mass_1 mass_2 lambda_1 lambda_2)) in
  let self := setattr self "vz"
                (VFloat (calc_vz mass_1 mass_2 lambda_1 lambda_2)) in
  self.

(** Lines 25-28: each right-hand side is [self.<property>()], the value
    of the property followed by a call of that value. *)
Definition __init__ (mass_1 mass_2 lambda_1 lambda_2 : num) : result object :=
  let self := init_attrs mass_1 mass_2 lambda_1 lambda_2 in
  f ← property_get calculate_ejecta_mass self;
  ejecta_mass ← call f;
  let self := setattr self "ejecta_mass" ejecta_mass in
  f ← property_get calculate_ejecta_velocity self;
  ejecta_velocity ← call f;
  let self := setattr self "ejecta_velocity" ejecta_velocity in
  f ← property_get calculate_qej self;
  qej ← call f;
  let self := setattr self "qej" qej in
  f ← property_get calculate_phej self;
  phej ← call f;
  let self := setattr self "phej" phej in
  Ok self.

End OneComponentBNSNoProjection.

Module OneComponentBNSProjection.

Definition reference : string :=
  "https://ui.adsabs.harvard.edu/abs/2017CQGra..34j5014D/abstract".

(** [@property] *)
Definition calculate_ejecta_velocity (self : object) : result num :=
  vrho ← attr self "vrho";
  vz ← attr self "vz";
  let vej := (vrho ** 2.0 + vz ** 2.0) ** 0.5 in
  Ok vej.

(** [@property] *)
Definition calculate_ejecta_mass (self : object) : result num :=
  let a : num := -1.35695 in
  let b : num := 6.11252 in
  let c : num := -49.43355 in
  let d : num := 16.1144 in
  let n : num := -2.5484 in
  c1 ← attr self "c1";
  c2 ← attr self "c2";
  mass_1 ← attr self "mass_1";
  mass_2 ← attr self "mass_2";
  let mb1 := calc_baryonic_mass mass_1 c1 in
  let mb2 := calc_baryonic_mass mass_2 c2 in
  let tmp1 := ((mb1 * ((mass_2 / mass_1) ** (1.0 / 3.0)) * (1.0 - 2.0 * c1) / c1)
               + (mb2 * ((mass_1 / mass_2) ** (1.0 / 3.0)) * (1.0 - 2.0 * c2) / c2)) * a in
  let tmp2 := (mb1 * ((mass_2 / mass_1) ** n) + mb2 * ((mass_1 / mass_2) ** n)) * b in
  let tmp3 := (mb1 * (1.0 - mass_1 / mb1) + mb2 * (1.0 - mass_2 / mb2)) * c in
  let mej := maximum (tmp1 + tmp2 + tmp3 + d) 0 / 1000.0 in
  Ok mej.

(** [@property] *)
Definition calculate_qej (self : object) : result num :=
  vz ← attr self "vz";
  vrho ← attr self "vrho";
  let tmp1 := 3.0 * vz + sqrt (9 * vz ** 2 + 4 * vrho ** 2) in
  let qej := ((2.0 ** (4.0 / 3.0)) * vrho ** 2
              + (2.0 * vrho ** 2 * tmp1) ** (2.0 / 3.0))
             / ((vrho ** 5.0) * tmp1) ** (1.0 / 3.0) in
  Ok qej.

(** [@property] *)
Definition calculate_phej (self : object) : result num :=
  qej ← attr self "qej";
  Ok (4.0 * qej * pi / 2.0).

(** Lines 99-107 of [__init__]: the attributes set by plain assignment. *)
Definition init_attrs (mass_1 mass_2 lambda_1 lambda_2 : num) : object :=
  let self : object := ∅ in
  let self := setattr self "mass_1" (VFloat mass_1) in
  let self := setattr self "mass_2" (VFloat mass_2) in
  let self := setattr self "lambda_1" (VFloat lambda_1) in
  let self := setattr self "lambda_2" (VFloat lambda_2) in
  let self := setattr self "c1" (VFloat (calc_compactness_from_lambda lambda_1)) in
  let self := setattr self "c2" (VFloat (calc_compactness_from_lambda lambda_2)) in
  let self := setattr self "reference" (VStr reference) in
  let self := setattr self "vrho"
                (VFloat (calc_vrho mass_1 mass_2 lambda_1 lambda_2)) in
  let self := setattr self "vz"
                (VFloat (calc_vz mass_1 mass_2 lambda_1 lambda_2)) in
  self.

(** Lines 108-111: each right-hand side is [self.<property>()]. *)
Definition __init__ (mass_1 mass_2 lambda_1 lambda_2 : num) : result object :=
  let self := init_attrs mass_1 mass_2 lambda_1 lambda_2 in
  f ← property_get calculate_ejecta_mass self;
  ejecta_mass ← call f;
  let self := setattr self "ejecta_mass" ejecta_mass in
  f ← property_get calculate_ejecta_velocity self;
  ejecta_velocity ← call f;
  let self := setattr self "ejecta_velocity" ejecta_velocity in
  f ← property_get calculate_qej self;
  qej ← call f;
  let self := setattr self "qej" qej in
  f ← property_get calculate_phej self;
  phej ← call f;
  let self := setattr self "phej" phej in
  Ok self.

End OneComponentBNSProjection.

Module OneComponentNSBH.

Definition reference : string :=
  "https://ui.adsabs.harvard.edu/abs/2016ApJ...825...52K/abstract".

(** [@property] *)
Definition isco_radius (self : object) : result num :=
  chi ← attr self "chi_eff";
  let z1 := 1 + ((1 - chi * chi) ** (1 / 3.0))
                * (((1 + chi) ** (1 / 3.0)) + (1 - chi) ** (1 / 3.0)) in
  let z2 := (3 * chi * chi + z1 * z1) ** (1 / 2.0) in
  let risco := 3 + z2 - sign chi * ((3 - z1) * (3 + z1 + 2 * z2)) ** (1 / 2.0) in
  Ok risco.

(** [@property] *)
Definition calculate_ejecta_velocity (self : object) : result num :=
  mass_ratio ← attr self "mass_ratio";
  let vej := 1.5333330951369120e-2 * mass_ratio + 0.19066667068621043 in
  Ok vej.

(** [@property] *)
Definition calculate_ejecta_mass (self : object) : result num :=
  let a1 : num := -2.269e-3 in
  let a2 : num := 4.464e-2 in
  let a3 : num := 2.431 in
  let a4 : num := -0.4159 in
  let n1 : num := 1.352 in
  let n2 : num := 0.2497 in
  lambda_ns ← attr self "lambda_ns";
  let compactness := calc_compactness_from_lambda lambda_ns in
  mass_ns ← attr self "mass_ns";
  let baryonic_mass := calc_baryonic_mass mass_ns compactness in
  risco ← attr self "risco";
  mass_ratio ← attr self "mass_ratio";
  let tmp1 := risco * (mass_ratio ** n1) * a1 in
  let tmp2 := (mass_ratio ** n2) * (1 - 2 * compactness) * a2 / compactness in
  let tmp3 := (1 - mass_ns / baryonic_mass) * a3 + a4 in
  let mej := baryonic_mass * maximum (tmp1 + tmp2 + tmp3) 0 in
  Ok mej.

(** Lines 181-186 of [__init__]: the attributes set by plain assignment. *)
Definition init_attrs (mass_bh mass_ns chi_eff lambda_ns : num) : object :=
  let self : object := ∅ in
  let self := setattr self "mass_bh" (VFloat mass_bh) in
  let self := setattr self "mass_ns" (VFloat mass_ns) in
  let self := setattr self "mass_ratio" (VFloat (mass_bh / mass_ns)) in
  let self := setattr self "chi_eff" (VFloat chi_eff) in
  let self := setattr self "lambda_ns" (VFloat lambda_ns) in
  let self := setattr self "reference" (VStr reference) in
  self.

(** Lines 187-189: each right-hand side is [self.<property>()]. *)
Definition __init__ (mass_bh mass_ns chi_eff lambda_ns : num) : result object :=
  let self := init_attrs mass_bh mass_ns chi_eff lambda_ns in
  f ← property_get isco_radius self;
  risco ← call f;
  let self := setattr self "risco" risco in
  f ← property_get calculate_ejecta_velocity self;
  ejecta_velocity ← call f;
  let self := setattr self "ejecta_velocity" ejecta_velocity in
  f ← property_get calculate_ejecta_mass self;
  ejecta_mass ← call f;
  let self := setattr self "ejecta_mass" ejecta_mass in
  Ok self.

End OneComponentNSBH.

End EjectaRelations.

(** ** The two operations of Python's floats that raise

    [EjectaRelations] idealises every operation: no result is too large.  A
    Python [float] has two operations that raise instead: [x / y] at a zero
    divisor, and [x ** y] when the result leaves the range of binary64 or the
    base is zero under a negative exponent.  The operations of numpy's
    numbers do not raise (they give an infinity or a NaN and a warning). *)

Module PyFloat.

Import Num.
Open Scope R_scope.

(** The largest finite binary64 number, [(2 - 2^-52) 2^1023]. *)
Definition max_float : R := (2 - / 2 ^ 52) * 2 ^ 1023.

(** [float.__truediv__]. *)
Definition float_truediv (x y : num) : result num :=
  match x, y with
  | Some a, Some b =>
      if Req_dec_T b 0 then Err (ZeroDivisionError "float division by zero")
      else Ok (Some (a / b))
  | _, _ => Ok None
  end.

(** [float.__pow__]: the power of [Num.pow], which is complex for a negative
    base under an exponent that is not an integer, with the two errors. *)
Definition float_pow (x y : num) : result num :=
  match x, y with
  | Some a, Some b =>
      if Req_dec_T a 0 then
        if Rlt_dec b 0
        then Err (ZeroDivisionError "0.0 cannot be raised to a negative power")
        else Ok (Rpow a b)
      else
        match Rpow a b with
        | Some r =>
            if Rle_dec (Rabs r) max_float then Ok (Some r)
            else Err (OverflowError "(34, 'Numerical result out of range')")
        | None => Ok None
        end
  | _, _ => Ok None
  end.

End PyFloat.

(** ** redback/ejecta_relations.py: the ejecta masses, called with Python floats

    The getters [calculate_ejecta_mass] of [OneComponentBNSProjection] and of
    [OneComponentNSBH] once more, for masses given as Python floats.  The
    masses and their ratio are then Python floats, and the quotients and
    powers of lines 141-143 and 231-232 are the operations of [PyFloat], in
    the order Python evaluates them.  [c1], [c2] and the compactness come out
    of [np.log] and [risco] out of [np.sign]: they are numpy numbers, and so
    is everything computed from them, which stays as in [EjectaRelations]. *)

Module EjectaRelationsPyFloat.

Import Num Py PyFloat EjectaRelations.
Open Scope R_scope.
Open Scope num_scope.

Module OneComponentBNSProjection.

(** [@property] *)
Definition calculate_ejecta_mass (self : object) : result num :=
  let a : num := -1.35695 in
  let b : num := 6.11252 in
  let c : num := -49.43355 in
  let d : num := 16.1144 in
  let n : num := -2.5484 in
  c1 ← attr self "c1";
  c2 ← attr self "c2";
  mass_1 ← attr self "mass_1";
  mass_2 ← attr self "mass_2";
  let mb1 := calc_baryonic_mass mass_1 c1 in
  let mb2 := calc_baryonic_mass mass_2 c2 in
  q21 ← float_truediv mass_2 mass_1;
  r21 ← float_pow q21 (1.0 / 3.0);
  q12 ← float_truediv mass_1 mass_2;
  r12 ← float_pow q12 (1.0 / 3.0);
  let tmp1 := ((mb1 * r21 * (1.0 - 2.0 * c1) / c1)
               + (mb2 * r12 * (1.0 - 2.0 * c2) / c2)) * a in
  q21 ← float_truediv mass_2 mass_1;
  p21 ← float_pow q21 n;
  q12 ← float_truediv mass_1 mass_2;
  p12 ← float_pow q12 n;
  let tmp2 := (mb1 * p21 + mb2 * p12) * b in
  let tmp3 := (mb1 * (1.0 - mass_1 / mb1) + mb2 * (1.0 - mass_2 / mb2)) * c in
  let mej := maximum (tmp1 + tmp2 + tmp3 + d) 0 / 1000.0 in
  Ok mej.

End OneComponentBNSProjection.

Module OneComponentNSBH.

(** [@property] *)
Definition calculate_ejecta_mass (self : object) : result num :=
  let a1 : num := -2.269e-3 in
  let a2 : num := 4.464e-2 in
  let a3 : num := 2.431 in
  let a4 : num := -0.4159 in
  let n1 : num := 1.352 in
  let n2 : num := 0.2497 in
  lambda_ns ← attr self "lambda_ns";
  let compactness := calc_compactness_from_lambda lambda_ns in
  mass_ns ← attr self "mass_ns";
  let baryonic_mass := calc_baryonic_mass mass_ns compactness in
  risco ← attr self "risco";
  mass_ratio ← attr self "mass_ratio";
  p1 ← float_pow mass_ratio n1;
  let tmp1 := risco * p1 * a1 in
  mass_ratio ← attr self "mass_ratio";
  p2 ← float_pow mass_ratio n2;
  let tmp2 := p2 * (1 - 2 * compactness) * a2 / compactness in
  let tmp3 := (1 - mass_ns / baryonic_mass) * a3 + a4 in
  let mej := baryonic_mass * maximum (tmp1 + tmp2 + tmp3) 0 in
  Ok mej.

End OneComponentNSBH.

End EjectaRelationsPyFloat.

(** ** The environment of the fitting code: file system, result store, priors *)

Module World.

(** A light-curve model: a Python function object. *)
Record Model : Type := {
  __name__ : string;     (* [model.__name__] *)
  model_repr : string;   (* [str(model)], what an f-string interpolates *)
}.

(** [bilby.prior.Uniform(minimum, maximum, name, latex_label)] and
    [bilby.prior.Gaussian(mu, sigma, name, latex_label)]. *)
Inductive Prior : Type :=
  | Uniform (minimum maximum : float) (name latex_label : option string)
  | Gaussian (mu sigma : float) (name latex_label : option string).

(** A [PriorDict] is a dictionary from parameter names to priors.  Python
    passes it by reference: the world holds the dictionaries and the code
    holds their locations. *)
Abbreviation PriorDict := (gmap string Prior).
Abbreviation loc := positive.

(** The likelihoods, and the values passed through [**kwargs]: the flag of
    the Poisson likelihood is whatever value the caller gave. *)
Inductive Likelihood : Type :=
  | GaussianLikelihood (x y sigma : list float) (function : Model)
      (kwargs : option (gmap string string))
  | PoissonLikelihood (time counts : list float) (dt : float) (function : Model)
      (integrated_rate_function : kwarg) (kwargs : option (gmap string string))
with kwarg : Type :=
  | KwStr (s : string)
  | KwBool (b : bool)
  | KwLikelihood (l : Likelihood).

(** A value of the meta data of a fit: the name of the model, the kind of
    transient or an attribute of the transient, by its text, or the model
    keyword arguments. *)
Inductive meta_value : Type :=
  | MetaStr (s : string)
  | MetaKwargs (model_kwargs : option (gmap string string)).

(** What [bilby.run_sampler] is called with, as far as it varies from call to
    call: [plot=True], [use_ratio=False], [result_class=RedbackResult],
    [nthreads=4] and [save_bounds=False] are the same at every call site, and
    [nsteps] and [nwalkers] repeat [nlive] and [walks]. *)
Record run_sampler_args : Type := {
  rs_likelihood : Likelihood;
  rs_priors : loc;
  rs_label : string;
  rs_sampler : string;
  rs_nlive : Z;
  rs_outdir : string;
  rs_walks : Z;
  rs_resume : bool;
  rs_maxmcmc : Z;
  rs_meta_data : list (string * meta_value);
  rs_save : string;
  rs_kwargs : gmap string kwarg;
}.

(** A persisted inference result. *)
Record Result : Type := {
  res_label : string;
  res_outdir : string;
  res_meta_data : list (string * meta_value);
  log_evidence : float;
}.

Record world : Type := {
  dirs : gset string;                    (* directories that exist *)
  result_files : gmap string Result;     (* result files, by file name *)
  prior_files : gmap string PriorDict;   (* [.prior] files, by file name *)
  heap : gmap loc PriorDict;             (* live prior dictionaries *)
  log : list (list string);              (* [logger.info] calls *)
  sampler_runs : list (run_sampler_args * PriorDict);
                                         (* sampler invocations, each with the
                                            prior dictionary as it was then *)
}.

Definition set_dirs (f : gset string -> gset string) (w : world) : world :=
  {| dirs := f (dirs w); result_files := result_files w;
     prior_files := prior_files w; heap := heap w; log := log w;
     sampler_runs := sampler_runs w |}.

Definition set_result_files (f : gmap string Result -> gmap string Result)
  (w : world) : world :=
  {| dirs := dirs w; result_files := f (result_files w);
     prior_files := prior_files w; heap := heap w; log := log w;
     sampler_runs := sampler_runs w |}.

Definition set_heap (f : gmap loc PriorDict -> gmap loc PriorDict)
  (w : world) : world :=
  {| dirs := dirs w; result_files := result_files w;
     prior_files := prior_files w; heap := f (heap w); log := log w;
     sampler_runs := sampler_runs w |}.

Definition set_log (f : list (list string) -> list (list string))
  (w : world) : world :=
  {| dirs := dirs w; result_files := result_files w;
     prior_files := prior_files w; heap := heap w; log := f (log w);
     sampler_runs := sampler_runs w |}.

Definition set_sampler_runs
  (f : list (run_sampler_args * PriorDict) -> list (run_sampler_args * PriorDict))
  (w : world) : world :=
  {| dirs := dirs w; result_files := result_files w;
     prior_files := prior_files w; heap := heap w; log := log w;
     sampler_runs := f (sampler_runs w) |}.

(** Computations that read and change the world and may raise.  What was done
    before an exception stays done. *)
Definition M (A : Type) : Type := world -> result A * world.

Definition ret {A : Type} (a : A) : M A := fun w => (Ok a, w).

Definition bind {A B : Type} (m : M A) (f : A -> M B) : M B := fun w =>
  match m w with
  | (Ok a, w') => f a w'
  | (Err e, w') => (Err e, w')
  end.

Definition raise {A : Type} (e : exn) : M A := fun w => (Err e, w).

Definition get : M world := fun w => (Ok w, w).

Definition modify (f : world -> world) : M unit := fun w => (Ok tt, f w).

End World.

Declare Scope world_scope.
Delimit Scope world_scope with world.
Notation "x <- m ;; k" := (World.bind m (fun x => k))
  (at level 100, m at next level, right associativity) : world_scope.
Notation "m ;; k" := (World.bind m (fun _ => k))
  (at level 100, right associativity) : world_scope.

(** ** Paths and dictionaries of the Python standard library *)

Module PyLib.

Import World.
Open Scope world_scope.

Definition slash : ascii := "/"%char.

(** The non-empty components of a path. *)
Fixpoint split_path (cur : string) (p : string) : list string :=
  match p with
  | EmptyString => if decide (cur = "") then [] else [cur]
  | String c p' =>
      if decide (c = slash)
      then (if decide (cur = "") then [] else [cur]) ++ split_path "" p'
      else split_path (cur +:+ String c "") p'
  end.

Definition is_absolute (p : string) : bool :=
  match p with
  | String c _ => bool_decide (c = slash)
  | EmptyString => false
  end.

Fixpoint join_path (root : string) (cs : list string) : string :=
  match cs with
  | [] => root
  | [c] => root +:+ c
  | c :: cs' => join_path (root +:+ c +:+ "/") cs'
  end.

Definition root_of (p : string) : string := if is_absolute p then "/" else "".

(** A path without repeated or trailing separators. *)
Definition normpath (p : string) : string :=
  join_path (root_of p) (split_path "" p).

(** The directory a path names and every directory above it. *)
Definition with_parents (p : string) : list string :=
  let cs := split_path "" p in
  (fun n => join_path (root_of p) (take n cs)) <$> seq 1 (length cs).

(** [os.path.exists(p)]: a directory or a result file of that name. *)
Definition os_path_exists (p : string) : M bool := fun w =>
  (Ok (bool_decide (normpath p ∈ dirs w)
       || bool_decide (is_Some (result_files w !! p))), w).

(** [os.makedirs(p)] when the leaf is known not to exist, and
    [Path(p).mkdir(parents=True, exist_ok=True)]: the directory and the
    missing ones above it are created. *)
Definition os_makedirs (p : string) : M unit :=
  modify (set_dirs (fun d => d ∪ list_to_set (with_parents p))).

Definition Path_mkdir_parents_exist_ok (p : string) : M unit :=
  modify (set_dirs (fun d => d ∪ list_to_set (with_parents p))).

(** [logger.info] with its positional arguments. *)
Definition logger_info (args : list string) : M unit :=
  modify (set_log (fun l => l ++ [args])).

(** A Python [dict] with string keys, in insertion order. *)
Abbreviation dict V := (list (string * V)).

(** [d[k] = v]. *)
Fixpoint dict_set {V : Type} (k : string) (v : V) (d : dict V) : dict V :=
  match d with
  | [] => [(k, v)]
  | (k', v') :: d' =>
      if decide (k = k') then (k, v) :: d' else (k', v') :: dict_set k v d'
  end.

(** [d.update(e)]. *)
Definition dict_update {V : Type} (d e : dict V) : dict V :=
  fold_left (fun acc kv => dict_set kv.1 kv.2 acc) e d.

(** [s.lstrip("_")]. *)
Fixpoint lstrip_underscore (s : string) : string :=
  match s with
  | String c s' => if decide (c = "_"%char) then lstrip_underscore s' else s
  | EmptyString => EmptyString
  end.

(** [s.lower()] on ASCII letters. *)
Definition lower_char (c : ascii) : ascii :=
  let n := Ascii.nat_of_ascii c in
  if (65 <=? n)%nat && (n <=? 90)%nat then Ascii.ascii_of_nat (n + 32) else c.

Fixpoint lower (s : string) : string :=
  match s with
  | String c s' => String (lower_char c) (lower s')
  | EmptyString => EmptyString
  end.

End PyLib.

(** ** redback/sampler.py *)

Module Sampler.

Import World PyLib.
Open Scope world_scope.

(** A transient object, as far as the fitting code looks at it. *)
Record Transient : Type := {
  class_name : string;       (* [transient.__class__.__name__] *)
  bases : list string;       (* the classes its class inherits from *)
  name : string;
  photon_index : float;
  flux_density_data : bool;
  photometry_data : bool;
  x : list float;
  x_err : list float;
  y : list float;
  y_err : list float;
  get_filtered_data : list float * list float * list float * list float;
  bin_size : float;
  __dict__ : dict string;   (* the attributes, each value by its text *)
}.

(** [isinstance(transient, cls)]. *)
Definition isinstance (transient : Transient) (cls : string) : bool :=
  bool_decide (cls = class_name transient ∨ cls ∈ bases transient).

(** One of the five kinds of transient the dispatch of [fit_model] knows. *)
Definition recognized (transient : Transient) : bool :=
  isinstance transient "Afterglow" || isinstance transient "Kilonova"
  || isinstance transient "PromptTimeSeries" || isinstance transient "Supernova"
  || isinstance transient "TDE".

(** The [model] argument: a name or the function itself. *)
Inductive model_arg : Type :=
  | ModelName (s : string)
  | ModelFunction (m : Model).

Section Environment.

(** [os.path.dirname(__file__)]. *)
Variable dirname : string.

(** [redback.model_library.all_models_dict], which is not among the sources:
    the table of the registered light-curve models. *)
Variable all_models_dict : gmap string Model.

(** The external sampler's computation: the log-evidence it arrives at for
    the given arguments and priors, or the failure it raises. *)
Variable sampling : run_sampler_args -> PriorDict -> result float.

(** [prior[key] = value] on the dictionary [prior] refers to. *)
Definition prior_setitem (prior : option loc) (key : string) (value : Prior)
  : M unit :=
  match prior with
  | None => raise (TypeError "'NoneType' object does not support item assignment")
  | Some l => modify (set_heap (alter (insert key value) l))
  end.

(** Modelled from the spec: [bilby.prior.PriorDict(filename=...)] belongs to
    the external sampling library.  It reads the prior file into a new
    dictionary, and fails when there is no such file. *)
Definition PriorDict_from_file (filename : string) : M loc := fun w =>
  match prior_files w !! filename with
  | None => (Err (IOError filename), w)
  | Some d =>
      let l := fresh (dom (heap w)) in
      (Ok l, set_heap (insert l d) w)
  end.

(** The keywords [bilby.run_sampler] is given by name at each call site. *)
Definition run_sampler_keywords : list string :=
  ["likelihood"; "priors"; "label"; "sampler"; "nlive"; "outdir"; "plot";
   "use_ratio"; "walks"; "resume"; "maxmcmc"; "result_class"; "meta_data";
   "nthreads"; "save_bounds"; "nsteps"; "nwalkers"; "save"].

(** Modelled from the spec: [bilby.run_sampler] is the external sampler.
    Given likelihood, prior, label, output directory and the rest it returns
    a result with its log-evidence and persists it to
    [{outdir}/{label}_result.{format}]; its failures propagate.  A keyword
    given both by name and through [**kwargs] is a [TypeError] of the call. *)
Definition run_sampler (likelihood : kwarg) (priors : option loc)
  (label sampler : string) (nlive : Z) (outdir : string) (walks : Z)
  (resume : bool) (maxmcmc : Z) (meta_data : dict meta_value) (save : string)
  (kwargs : gmap string kwarg) : M Result := fun w =>
  if bool_decide (Exists (fun k => is_Some (kwargs !! k)) run_sampler_keywords)
  then (Err (TypeError "run_sampler() got multiple values for keyword argument"), w)
  else
    match likelihood, priors with
    | KwLikelihood lik, Some l =>
        match heap w !! l with
        | Some pd =>
            let a := {| rs_likelihood := lik; rs_priors := l; rs_label := label;
                        rs_sampler := sampler; rs_nlive := nlive;
                        rs_outdir := outdir; rs_walks := walks;
                        rs_resume := resume; rs_maxmcmc := maxmcmc;
                        rs_meta_data := meta_data; rs_save := save;
                        rs_kwargs := kwargs |} in
            let w := set_sampler_runs (fun rs => rs ++ [(a, pd)]) w in
            match sampling a pd with
            | Err e => (Err e, w)
            | Ok ev =>
                let r := {| res_label := label; res_outdir := outdir;
                            res_meta_data := meta_data; log_evidence := ev |} in
                (Ok r, set_result_files
                         (insert (outdir +:+ "/" +:+ label +:+ "_result." +:+ save) r)
                         w)
            end
        | None => (Err (TypeError "run_sampler(): no such prior dictionary"), w)
        end
    | _, _ => (Err (TypeError "run_sampler(): not a likelihood or no priors"), w)
    end.

(** [kwargs.get('likelihood', default)]. *)
Definition kwargs_get (kwargs : gmap string kwarg) (key : string)
  (default : kwarg) : kwarg :=
  match kwargs !! key with
  | Some v => v
  | None => default
  end.

(** [meta_data] as the three fitting functions build it. *)
Definition make_meta_data (model : Model) (transient_type : string)
  (transient : Transient) (model_kwargs : option (gmap string string))
  : dict meta_value :=
  let meta_data :=
    [("model", MetaStr (__name__ model)); ("transient_type", MetaStr transient_type)] in
  let transient_kwargs :=
    fold_left (fun acc kv => dict_set (lstrip_underscore kv.1) (MetaStr kv.2) acc)
              (__dict__ transient) [] in
  let meta_data := dict_update meta_data transient_kwargs in
  let meta_data := dict_set "model_kwargs" (MetaKwargs model_kwargs) meta_data in
  meta_data.

Definition _fit_grb (name : string) (transient : Transient) (model : Model)
  (outdir : string) (sampler : string) (nlive : Z) (prior : option loc)
  (walks : Z) (use_photon_index_prior : bool) (data_mode : string)
  (resume : bool) (save_format : string)
  (model_kwargs : option (gmap string string)) (kwargs : gmap string kwarg)
  : M Result :=
  (if use_photon_index_prior then
     if (photon_index transient <? 0)%float then
       logger_info ["photon index for GRB"; Sampler.name transient;
                    "is negative. Using default prior on alpha_1"];;
       prior_setitem prior "alpha_1"
         (Uniform (-10) (-0.5) (Some "alpha_1") (Some "$\alpha_{1}$"))
     else
       prior_setitem prior "alpha_1"
         (Gaussian (- (photon_index transient + 1)) 0.1 None (Some "$\alpha_{1}$"))
   else ret tt);;
  let outdir := outdir +:+ "/GRB" +:+ name +:+ "/" +:+ __name__ model in
  Path_mkdir_parents_exist_ok outdir;;
  let label := data_mode in
  let label := if use_photon_index_prior then label +:+ "_photon_index" else label in
  let '(x, x_err, y, y_err) :=
    if flux_density_data transient || photometry_data transient
    then get_filtered_data transient
    else (Sampler.x transient, Sampler.x_err transient,
          Sampler.y transient, Sampler.y_err transient) in
  let likelihood :=
    kwargs_get kwargs "likelihood"
      (KwLikelihood (GaussianLikelihood x y y_err model model_kwargs)) in
  let meta_data :=
    make_meta_data model (lower (class_name transient)) transient model_kwargs in
  result <- run_sampler likelihood prior label sampler nlive outdir walks resume
              (10 * walks) meta_data save_format kwargs;;
  ret result.

Definition _fit_kilonova (name : string) (transient : Transient) (model : Model)
  (outdir : string) (sampler : string) (nlive : Z) (prior : option loc)
  (walks : Z) (use_photon_index_prior : bool) (data_mode : string)
  (resume : bool) (save_format : string)
  (model_kwargs : option (gmap string string)) (kwargs : gmap string kwarg)
  : M Result :=
  let outdir := outdir +:+ "/" +:+ name +:+ "/" +:+ __name__ model in
  Path_mkdir_parents_exist_ok outdir;;
  let label := data_mode in
  let label := if use_photon_index_prior then label +:+ "_photon_index" else label in
  let '(x, x_err, y, y_err) :=
    if flux_density_data transient || photometry_data transient
    then get_filtered_data transient
    else (Sampler.x transient, Sampler.x_err transient,
          Sampler.y transient, Sampler.y_err transient) in
  let likelihood :=
    kwargs_get kwargs "likelihood"
      (KwLikelihood (GaussianLikelihood x y y_err model model_kwargs)) in
  let meta_data :=
    make_meta_data model (lower (class_name transient)) transient model_kwargs in
  result <- run_sampler likelihood prior label sampler nlive outdir walks resume
              (10 * walks) meta_data save_format kwargs;;
  ret result.

Definition _fit_prompt (name : string) (transient : Transient) (model : Model)
  (outdir : string) (integrated_rate_function : kwarg) (sampler : string)
  (nlive : Z) (prior : option loc) (walks : Z) (use_photon_index_prior : bool)
  (data_mode : string) (resume : bool) (save_format : string)
  (model_kwargs : option (gmap string string)) (kwargs : gmap string kwarg)
  : M Result :=
  let outdir := outdir +:+ "/GRB" +:+ name +:+ "/" +:+ __name__ model in
  Path_mkdir_parents_exist_ok outdir;;
  let label := data_mode in
  let label := if use_photon_index_prior then label +:+ "_photon_index" else label in
  let likelihood :=
    KwLikelihood (PoissonLikelihood (Sampler.x transient) (Sampler.y transient)
                    (bin_size transient) model integrated_rate_function model_kwargs) in
  let meta_data := make_meta_data model "prompt" transient model_kwargs in
  result <- run_sampler likelihood prior label sampler nlive outdir walks resume
              (10 * walks) meta_data save_format kwargs;;
  ret result.

(** [_fit_supernova] and [_fit_tde] take keyword arguments only and their
    body is [pass]: nothing is done and [None] is returned. *)
Definition _fit_supernova (kwargs : gmap string kwarg) : M (option Result) :=
  ret None.

Definition _fit_tde (kwargs : gmap string kwarg) : M (option Result) :=
  ret None.

Definition fit_model (name : string) (transient : Transient) (model : model_arg)
  (outdir : string) (sampler : string) (nlive : Z) (prior : option loc)
  (walks : Z) (truncate : bool) (use_photon_index_prior : bool)
  (truncate_method : string) (data_mode : string) (resume : bool)
  (save_format : string) (model_kwargs : option (gmap string string))
  (kwargs : gmap string kwarg) : M (option Result) :=
  model <- match model with
           | ModelName s =>
               match all_models_dict !! s with
               | Some m => ret m
               | None => raise (KeyError s)
               end
           | ModelFunction m => ret m
           end;;
  prior <- match prior with
           | None =>
               l <- PriorDict_from_file
                      (dirname +:+ "/Priors/" +:+ model_repr model +:+ ".prior");;
               ret (Some l)
           | Some l => ret (Some l)
           end;;
  let kwargs_truncate :=
    <["truncate_method" := KwStr truncate_method]>
      (<["truncate" := KwBool truncate]> kwargs) in
  if isinstance transient "Afterglow" then
    r <- _fit_grb name transient model outdir sampler nlive prior walks
           use_photon_index_prior data_mode resume save_format model_kwargs
           kwargs_truncate;;
    ret (Some r)
  else if isinstance transient "Kilonova" then
    r <- _fit_kilonova name transient model outdir sampler nlive prior walks
           use_photon_index_prior data_mode resume save_format model_kwargs
           kwargs_truncate;;
    ret (Some r)
  else if isinstance transient "PromptTimeSeries" then
    (* [integrated_rate_function], when it is among the keyword arguments,
       binds the parameter of that name of [_fit_prompt], whose default is
       [True], and is not among the keyword arguments [_fit_prompt] sees *)
    r <- _fit_prompt name transient model outdir
           (kwargs_get kwargs "integrated_rate_function" (KwBool true)) sampler
           nlive prior walks use_photon_index_prior data_mode resume save_format
           model_kwargs (delete "integrated_rate_function" kwargs);;
    ret (Some r)
  else if isinstance transient "Supernova" then
    _fit_supernova kwargs_truncate
  else if isinstance transient "TDE" then
    _fit_tde kwargs_truncate
  else
    raise (ValueError ("Source type " +:+ class_name transient +:+ " not known")).

End Environment.

End Sampler.

(** ** grb_bilby/analysis/Analysis.py

    Of the plotting functions of the file, [plot_models] is modelled in
    [PlotModels] below; [plot_data] and [plot_lightcurve] are not modelled. *)

Module Analysis.

Import World PyLib.
Open Scope world_scope.

(** The data object of a burst, as far as this file looks at it. *)
Record Data : Type := {
  data_name : string;
  data_path : string;
}.

(** [os.path.join(a, b)] for a relative [b]. *)
Definition os_path_join (a b : string) : string :=
  if decide (a = "") then b
  else if decide (String.substring (String.length a - 1) 1 a = "/") then a +:+ b
  else a +:+ "/" +:+ b.

(** The file [read_result] reads the result of [model] for burst [GRB] from. *)
Definition result_file (path GRB model : string) (use_photon_index_prior : bool)
  : string :=
  (path +:+ "/GRB" +:+ GRB +:+ "/" +:+ model +:+ "/")
  +:+ (if use_photon_index_prior then "photon_index_result.json"
       else "result_result.json").

(** Two worlds with the same stored results, sampler runs and priors. *)
Definition same_store (w w' : world) : Prop :=
  result_files w' = result_files w /\ sampler_runs w' = sampler_runs w
  /\ heap w' = heap w /\ prior_files w' = prior_files w.

Section Environment.

(** [os.path.dirname(__file__)]. *)
Variable dirname : string.

(** [grb_bilby.processing.GRB], which is not among the sources:
    [SGRB(name, path)] followed by [load_and_truncate_data(truncate)] gives
    the burst's data object, or fails when the data cannot be read. *)
Variable SGRB_load_and_truncate_data : string -> string -> bool -> result Data.

Definition find_path (path : string) : string :=
  if decide (path = "default")
  then os_path_join dirname "../data/GRBData"
  else path.

Definition load_data (GRB : string) (path : string) (truncate : bool) : M Data :=
  let data_dir := find_path path in
  match SGRB_load_and_truncate_data GRB data_dir truncate with
  | Ok data => ret data
  | Err e => raise e
  end.

(** Modelled from the spec: [bilby.result.read_in_result] belongs to the
    external sampling library.  It reads a persisted result by file name and
    fails with [ResultNotFound], naming the file, when there is none. *)
Definition read_in_result (filename : string) : M Result := fun w =>
  match result_files w !! filename with
  | Some r => (Ok r, w)
  | None => (Err (ResultNotFound filename), w)
  end.

Definition read_result (model GRB : string) (path : string) (truncate : bool)
  (use_photon_index_prior : bool) : M (Result * Data) :=
  let result_path := path +:+ "/GRB" +:+ GRB +:+ "/" +:+ model +:+ "/" in
  found <- os_path_exists result_path;;
  (if negb found then os_makedirs result_path else ret tt);;
  result <- (if bool_decide (use_photon_index_prior = true)
             then read_in_result (result_path +:+ "photon_index_result.json")
             else read_in_result (result_path +:+ "result_result.json"));;
  data <- load_data GRB path truncate;;
  ret (result, data).

Definition calculate_BF (model1 model2 GRB : string) (path : string)
  (use_photon_index_prior : bool) : M float :=
  r1 <- read_result model1 GRB path true use_photon_index_prior;;
  let '(model1, data) := r1 in
  r2 <- read_result model2 GRB path true use_photon_index_prior;;
  let '(model2, data) := r2 in
  let logBF := (log_evidence model1 - log_evidence model2)%float in
  ret logBF.

End Environment.

End Analysis.

(** ** The closed forms as the specification words them *)

Module Spec.

Open Scope R_scope.

(** compactness_from_tidal_deformability(lam) =
    0.371 - 0.0391 ln lam + 0.001056 (ln lam)^2 *)
Definition compactness_from_tidal_deformability (lam : R) : R :=
  0.371 - 0.0391 * ln lam + 0.001056 * (ln lam) ^ 2.

(** baryonic_mass(mass, compactness) =
    mass (1 + 0.8857853174243745 compactness^1.2082383572002926) *)
Definition baryonic_mass (mass compactness : R) : R :=
  mass * (1 + 0.8857853174243745 * Rpower compactness 1.2082383572002926).




(** The real cube root of a non-negative number. *)
Definition cbrt (x : R) : R :=
  if Req_dec_T x 0 then 0 else Rpower x (1 / 3).

(** The Bardeen-Press-Teukolsky radius of the innermost stable circular
    orbit, in units of the black-hole mass: with
      Z1 = 1 + (1 - chi^2)^(1/3) ((1 + chi)^(1/3) + (1 - chi)^(1/3)),
      Z2 = sqrt (3 chi^2 + Z1^2),
    it is 3 + Z2 - sqrt ((3 - Z1)(3 + Z1 + 2 Z2)) for a prograde orbit
    (chi >= 0) and 3 + Z2 + sqrt ((3 - Z1)(3 + Z1 + 2 Z2)) for a retrograde
    one (chi < 0). *)
Definition Z1 (chi : R) : R :=
  1 + cbrt (1 - chi ^ 2) * (cbrt (1 + chi) + cbrt (1 - chi)).

Definition Z2 (chi : R) : R :=
  R_sqrt.sqrt (3 * chi ^ 2 + Z1 chi ^ 2).

Definition bpt_isco_radius (chi : R) : R :=
  let root := R_sqrt.sqrt ((3 - Z1 chi) * (3 + Z1 chi + 2 * Z2 chi)) in
  if Rle_dec 0 chi then 3 + Z2 chi - root else 3 + Z2 chi + root.

End Spec.

(** ** Rational bounds on the exponential

    [exp y] lies between [1 + y] and [1 / (1 - y)] for [0 <= y < 1], and
    [exp (2 y) = (exp y)^2]: starting from [y = x / 2^k] and squaring [k]
    times, in fixed point with outward rounding, bounds [exp x]. *)

Module ExpBounds.

Definition scale : Z := 10 ^ 18.

Fixpoint square_up (k : nat) (v : Z) : Z :=
  match k with
  | O => v
  | S k' => square_up k' (v * v / scale + 1)
  end.

Fixpoint square_down (k : nat) (v : Z) : Z :=
  match k with
  | O => v
  | S k' => square_down k' (v * v / scale)
  end.

(** Bounds, scaled by [scale], on [exp (n / d)]. *)
Definition exp_upper (k : nat) (n d : Z) : Z :=
  let D := (d * 2 ^ Z.of_nat k)%Z in
  square_up k (scale * D / (D - n) + 1).

Definition exp_lower (k : nat) (n d : Z) : Z :=
  let D := (d * 2 ^ Z.of_nat k)%Z in
  square_down k (scale * (D + n) / D).

End ExpBounds.

(** ** Concrete inputs *)

Module Examples.

Import World.

Definition tophat : Model :=
  {| __name__ := "tophat"; model_repr := "<function tophat>" |}.

Definition registry : gmap string Model := {[ "tophat" := tophat ]}.

(** A sampler that arrives at log-evidence zero. *)
Definition sampling : run_sampler_args -> PriorDict -> result float :=
  fun _ _ => Ok 0%float.

(** An afterglow with measured photon index 1.5. *)
Definition grb : Sampler.Transient :=
  {| Sampler.class_name := "Afterglow"; Sampler.bases := ["Transient"];
     Sampler.name := "140903A"; Sampler.photon_index := 1.5;
     Sampler.flux_density_data := false; Sampler.photometry_data := false;
     Sampler.x := [1%float]; Sampler.x_err := [0%float];
     Sampler.y := [2%float]; Sampler.y_err := [0.5%float];
     Sampler.get_filtered_data := ([], [], [], []);
     Sampler.bin_size := 1; Sampler.__dict__ := [("_name", "140903A")] |}.

(** An object of a class the dispatch does not know. *)
Definition pulsar : Sampler.Transient :=
  {| Sampler.class_name := "Pulsar"; Sampler.bases := ["object"];
     Sampler.name := "J0437"; Sampler.photon_index := 0;
     Sampler.flux_density_data := false; Sampler.photometry_data := false;
     Sampler.x := []; Sampler.x_err := []; Sampler.y := []; Sampler.y_err := [];
     Sampler.get_filtered_data := ([], [], [], []);
     Sampler.bin_size := 1; Sampler.__dict__ := [] |}.

(** A supernova. *)
Definition supernova : Sampler.Transient :=
  {| Sampler.class_name := "Supernova"; Sampler.bases := ["OpticalTransient"];
     Sampler.name := "SN1987A"; Sampler.photon_index := 0;
     Sampler.flux_density_data := false; Sampler.photometry_data := true;
     Sampler.x := []; Sampler.x_err := []; Sampler.y := []; Sampler.y_err := [];
     Sampler.get_filtered_data := ([], [], [], []);
     Sampler.bin_size := 1; Sampler.__dict__ := [] |}.

(** A world with one prior dictionary (at location 1) and nothing on disk. *)
Definition fresh_world : world :=
  {| dirs := ∅; result_files := ∅; prior_files := ∅;
     heap := {[ 1%positive := ∅ ]}; log := []; sampler_runs := [] |}.

Definition stored (ev : float) : Result :=
  {| res_label := "result"; res_outdir := "./GRB140903A"; res_meta_data := [];
     log_evidence := ev |}.

(** A result store holding the results of two models for one burst. *)
Definition two_results : world :=
  {| dirs := ∅;
     result_files :=
       {[ "./GRB140903A/magnetar_only/result_result.json" := stored (-12.5);
          "./GRB140903A/full_magnetar/result_result.json" := stored (-10) ]};
     prior_files := ∅; heap := ∅; log := []; sampler_runs := [] |}.

(** A result whose sampler computed no evidence: its log-evidence is NaN. *)
Definition nan_result : world :=
  {| dirs := ∅;
     result_files :=
       {[ "./GRB140903A/magnetar_only/result_result.json" := stored nan ]};
     prior_files := ∅; heap := ∅; log := []; sampler_runs := [] |}.

(** A result whose stored log-evidence is an infinity. *)
Definition infinite_result : world :=
  {| dirs := ∅;
     result_files :=
       {[ "./GRB140903A/magnetar_only/result_result.json" := stored infinity ]};
     prior_files := ∅; heap := ∅; log := []; sampler_runs := [] |}.

(** A data collaborator that finds every burst. *)
Definition load : string -> string -> bool -> result Analysis.Data :=
  fun name path _ => Ok {| Analysis.data_name := name; Analysis.data_path := path |}.

(** A data collaborator that finds no burst: the data directory is missing. *)
Definition no_data : string -> string -> bool -> result Analysis.Data :=
  fun name path _ => Err (IOError (path +:+ "/GRB" +:+ name)).

End Examples.

(** ** redback/ejecta_relations.py: [calc_compactness] *)

Module EjectaRelationsSI.

Import Num.
Open Scope R_scope.
Open Scope num_scope.

Section Constants.

(** [astropy.constants], which is not among the sources: the solar mass
    [cc.M_sun.si.value], the constant of gravitation [cc.G.value] and the speed
    of light [cc.c.value], in SI units. *)
Variable M_sun_si_value : R.
Variable G_value : R.
Variable c_value : R.


End Constants.

End EjectaRelationsSI.

(** ** Terms for the properties of the fitting code *)

Module FitTerms.

Import World PyLib Sampler.
Open Scope world_scope.

(** Lines 94-96 of [sampler.py] (and 126-128, 158-160): the label of the
    result. *)
Definition photon_label (data_mode : string) (use_photon_index_prior : bool)
  : string :=
  if use_photon_index_prior then data_mode +:+ "_photon_index" else data_mode.

(** Lines 98-101 (and 130-133): the data a Gaussian fit uses. *)
Definition fit_data (t : Transient)
  : list float * list float * list float * list float :=
  if flux_density_data t || photometry_data t then get_filtered_data t
  else (x t, x_err t, y t, y_err t).

(** Line 103 (and 135): the likelihood built when none is passed in. *)
Definition gaussian_likelihood (t : Transient) (model : Model)
  (model_kwargs : option (gmap string string)) : Likelihood :=
  GaussianLikelihood (fit_data t).1.1.1 (fit_data t).1.2 (fit_data t).2 model
    model_kwargs.

(** The world once [Path(dir).mkdir(parents=True, exist_ok=True)] has run. *)
Definition made (dir : string) (w : world) : world :=
  set_dirs (fun d => d ∪ list_to_set (with_parents dir)) w.

(** Lines 83-88: the prior [_fit_grb] installs on [alpha_1]. *)
Definition alpha_1_prior (t : Transient) : Prior :=
  if (photon_index t <? 0)%float
  then Uniform (-10) (-0.5) (Some "alpha_1") (Some "$\alpha_{1}$")
  else Gaussian (- (photon_index t + 1)) 0.1 None (Some "$\alpha_{1}$").

(** The world after lines 82-88 of [_fit_grb], for a prior passed in. *)
Definition photon_prior_set (t : Transient) (p : loc)
  (use_photon_index_prior : bool) (w : world) : world :=
  if use_photon_index_prior then
    set_heap (alter (insert "alpha_1" (alpha_1_prior t)) p)
      (if (photon_index t <? 0)%float
       then set_log (fun l => l ++ [["photon index for GRB"; Sampler.name t;
                                     "is negative. Using default prior on alpha_1"]]) w
       else w)
  else w.

(** Lines 91, 123 and 155: the directory [fit_model] has the result written
    to, by the branch of the dispatch that is taken. *)
Definition fit_directory (t : Transient) (outdir name : string) (model : Model)
  : string :=
  if isinstance t "Afterglow" then outdir +:+ "/GRB" +:+ name +:+ "/" +:+ __name__ model
  else if isinstance t "Kilonova" then outdir +:+ "/" +:+ name +:+ "/" +:+ __name__ model
  else outdir +:+ "/GRB" +:+ name +:+ "/" +:+ __name__ model.

Section Environment.

Variable all_models_dict : gmap string Model.
Variable sampling : run_sampler_args -> PriorDict -> result float.

(** Lines 43-44: [model] is the function [m], given as such or by a
    registered name. *)
Definition resolves (model : model_arg) (m : Model) : Prop :=
  model = ModelFunction m
  \/ exists s, model = ModelName s /\ all_models_dict !! s = Some m.

(** What one of the three fitting functions leaves behind, by its outcome. *)
Definition fit_outcome (dir label save : string) (w : world)
  (out : result Result * world) : Prop :=
  match out.1 with
  | Ok r =>
      res_label r = label /\ res_outdir r = dir
      /\ result_files out.2
         = <[dir +:+ "/" +:+ label +:+ "_result." +:+ save := r]> (result_files w)
      /\ dirs out.2 = dirs w ∪ list_to_set (with_parents dir)
      /\ exists a pd, sampler_runs out.2 = sampler_runs w ++ [(a, pd)]
                      /\ sampling a pd = Ok (log_evidence r)
  | Err e =>
      result_files out.2 = result_files w
      /\ (sampler_runs out.2 = sampler_runs w
          \/ exists a pd, sampler_runs out.2 = sampler_runs w ++ [(a, pd)]
                          /\ sampling a pd = Err e)
  end.

End Environment.

End FitTerms.

(** ** Lookup in a Python [dict] *)

Module PyDict.

Import PyLib.

(** [d.get(k)]. *)
Fixpoint dict_get {V : Type} (k : string) (d : dict V) : option V :=
  match d with
  | [] => None
  | (k', v) :: d' => if decide (k = k') then Some v else dict_get k d'
  end.

End PyDict.

(** ** grb_bilby/analysis/Analysis.py: [plot_models]

    The figure is the record of what was asked of the model functions and of
    the axes.  [plot_data] and [plot_lightcurve], which work on the arrays of
    the data object and on the posterior table, are not modelled. *)

Module AnalysisPlots.

Import Num.
Open Scope R_scope.

(** What [plot_models] can raise: a local variable read before it was bound,
    or what one of its collaborators raised. *)
Inductive plot_exn : Type :=
  | UnboundLocalError (name : string)
  | Raised (e : exn).

(** [ax.plot(x, y, color, ls, lw, alpha, zorder, linestyle)]. *)
Record plot_call : Type := {
  pc_axes : string;
  pc_x : list R;
  pc_y : list num;
  pc_color : string;
  pc_ls : string;
  pc_lw : R;
  pc_alpha : R;
  pc_zorder : Z;
  pc_linestyle : option string;
}.

Inductive event : Type :=
  | Evaluated (function : string) (parameters : gmap string num)
  | Plotted (call : plot_call).

(** Plotting computations: they extend the record of events and may raise. *)
Definition P (A : Type) : Type := list event -> (A + plot_exn) * list event.

Definition ret {A : Type} (a : A) : P A := fun s => (inl a, s).

Definition bind {A B : Type} (m : P A) (f : A -> P B) : P B := fun s =>
  match m s with
  | (inl a, s') => f a s'
  | (inr e, s') => (inr e, s')
  end.

Definition raise {A : Type} (e : plot_exn) : P A := fun s => (inr e, s).

(** [np.logspace(start, stop, num)]: [num] powers of ten with equally spaced
    exponents from [start] to [stop]. *)
Definition logspace (start stop : R) (num : nat) : list R :=
  (fun i => Rpower 10 (start + INR i * ((stop - start) / INR (num - 1))))
    <$> seq 0 num.

End AnalysisPlots.

Declare Scope plot_scope.
Delimit Scope plot_scope with plot.
Notation "x <- m ;; k" := (AnalysisPlots.bind m (fun x => k))
  (at level 100, m at next level, right associativity) : plot_scope.
Notation "m ;; k" := (AnalysisPlots.bind m (fun _ => k))
  (at level 100, right associativity) : plot_scope.

Module PlotModels.

Import Num AnalysisPlots.
Open Scope R_scope.
Open Scope plot_scope.

Section Environment.

(** [grb_bilby.models.models], which is not among the sources: the function
    of that name applied to the times and the parameters. *)
Variable mm : string -> list R -> gmap string num -> result (list num).

(** [plt.gca()]: the current axes. *)
Variable gca : string.

(** Whether matplotlib accepts a call of [ax.plot], or what it raises. *)
Variable plot_accepts : plot_call -> result unit.

Definition call_mm (function : string) (time : list R) (parameters : gmap string num)
  : P (list num) := fun s =>
  match mm function time parameters with
  | Ok c => (inl c, s ++ [Evaluated function parameters])
  | Err e => (inr (Raised e), s ++ [Evaluated function parameters])
  end.

Definition ax_plot (call : plot_call) : P unit := fun s =>
  match plot_accepts call with
  | Ok _ => (inl tt, s ++ [Plotted call])
  | Err e => (inr (Raised e), s)
  end.

Definition plot_models (parameters : gmap string num) (model : string)
  (axes : option string) (colour : string) (alpha : R) (ls : string) (lw : R)
  : P unit :=
  let time := logspace (-4) 7 100 in
  let ax := match axes with Some a => a | None => gca end in
  let lightcurve : option (list num) := None in
  lightcurve <- (if decide (model = "magnetar_only")
                 then l <- call_mm "magnetar_only" time parameters;; ret (Some l)
                 else ret lightcurve);;
  lightcurve <- (if decide (model = "full_magnetar")
                 then l <- call_mm "full_magnetar" time parameters;; ret (Some l)
                 else ret lightcurve);;
  lightcurve <- (if decide (model = "general_magnetar")
                 then l <- call_mm "general_magnetar" time parameters;; ret (Some l)
                 else ret lightcurve);;
  lightcurve <- (if decide (model = "collapsing_magnetar")
                 then l <- call_mm "collapsing_magnetar" time parameters;; ret (Some l)
                 else ret lightcurve);;
  lightcurve <- (if decide (model = "one_component_fireball")
                 then l <- call_mm "one_component_fireball_model" time parameters;;
                      ret (Some l)
                 else ret lightcurve);;
  lightcurve <- (if decide (model = "two_component_fireball")
                 then l <- call_mm "two_component_fireball_model" time parameters;;
                      ret (Some l)
                 else ret lightcurve);;
  lightcurve <- (if decide (model = "three_component_fireball")
                 then l <- call_mm "three_component_fireball_model" time parameters;;
                      ret (Some l)
                 else ret lightcurve);;
  lightcurve <- (if decide (model = "four_component_fireball")
                 then l <- call_mm "four_component_fireball_model" time parameters;;
                      ret (Some l)
                 else ret lightcurve);;
  lightcurve <- (if decide (model = "five_component_fireball")
                 then l <- call_mm "five_component_fireball_model" time parameters;;
                      ret (Some l)
                 else ret lightcurve);;
  lightcurve <- (if decide (model = "six_component_fireball")
                 then l <- call_mm "six_component_fireball_model" time parameters;;
                      ret (Some l)
                 else ret lightcurve);;
  lightcurve <- (if decide (model = "piecewise_radiative_losses")
                 then l <- call_mm "piecewise_radiative_losses" time parameters;;
                      magnetar <- call_mm "magnetar_only" time parameters;;
                      ax_plot {| pc_axes := ax; pc_x := time; pc_y := magnetar;
                                 pc_color := colour; pc_ls := ls; pc_lw := lw;
                                 pc_alpha := alpha; pc_zorder := -32;
                                 pc_linestyle := Some "--" |};;
                      ret (Some l)
                 else ret lightcurve);;
  lightcurve <- (if decide (model = "radiative_losses")
                 then l <- call_mm "radiative_losses" time parameters;;
                      magnetar <- call_mm "magnetar_only" time parameters;;
                      ax_plot {| pc_axes := ax; pc_x := time; pc_y := magnetar;
                                 pc_color := colour; pc_ls := ls; pc_lw := lw;
                                 pc_alpha := alpha; pc_zorder := -32;
                                 pc_linestyle := Some "--" |};;
                      ret (Some l)
                 else ret lightcurve);;
  lightcurve <- (if decide (model = "radiative_losses_mdr")
                 then l <- call_mm "radiative_losses_mdr" time parameters;; ret (Some l)
                 else ret lightcurve);;
  lightcurve <- (if decide (model = "collapsing_radiative_losses")
                 then l <- call_mm "collapsing_radiative_losses" time parameters;;
                      ret (Some l)
                 else ret lightcurve);;
  match lightcurve with
  | None => raise (UnboundLocalError "lightcurve")
  | Some l =>
      ax_plot {| pc_axes := ax; pc_x := time; pc_y := l; pc_color := colour;
                 pc_ls := ls; pc_lw := lw; pc_alpha := alpha; pc_zorder := -32;
                 pc_linestyle := None |}
  end.

End Environment.

(** The names [plot_models] knows, each with the function of
    [grb_bilby.models.models] it evaluates. *)
Definition known_models : list (string * string) :=
  [("magnetar_only", "magnetar_only");
   ("full_magnetar", "full_magnetar");
   ("general_magnetar", "general_magnetar");
   ("collapsing_magnetar", "collapsing_magnetar");
   ("one_component_fireball", "one_component_fireball_model");
   ("two_component_fireball", "two_component_fireball_model");
   ("three_component_fireball", "three_component_fireball_model");
   ("four_component_fireball", "four_component_fireball_model");
   ("five_component_fireball", "five_component_fireball_model");
   ("six_component_fireball", "six_component_fireball_model");
   ("piecewise_radiative_losses", "piecewise_radiative_losses");
   ("radiative_losses", "radiative_losses");
   ("radiative_losses_mdr", "radiative_losses_mdr");
   ("collapsing_radiative_losses", "collapsing_radiative_losses")].

(** Those that draw the magnetar-only curve, dashed, beside their own. *)
Definition with_magnetar_curve : list string :=
  ["piecewise_radiative_losses"; "radiative_losses"].

End PlotModels.

(** ** redback/transient_models/afterglow_models.py

    [tophat_integrated], which works on numpy grids and scipy's integration,
    is not modelled. *)

Module AfterglowModels.

Import Num.
Open Scope R_scope.
Open Scope num_scope.

(** What a model function can raise: a module-level name that was never
    bound, or what a lookup or a collaborator raised. *)
Inductive model_exn : Type :=
  | NameError (name : string)
  | Raised (e : exn).

Inductive outcome (A : Type) : Type :=
  | Done (a : A)
  | Fail (e : model_exn).
Arguments Done {A} a.
Arguments Fail {A} e.

#[global] Instance outcome_ret : MRet outcome := fun A a => Done a.
#[global] Instance outcome_bind : MBind outcome := fun A B f m =>
  match m with
  | Done a => f a
  | Fail e => Fail e
  end.

(** The jet structures of afterglowpy. *)
Inductive jet : Type :=
  | TopHat | Gaussian | PowerLawCore | GaussianCore | Spherical | PowerLaw | Cone.

(** A value of the configuration passed through [**kwargs]. *)
Inductive cfg : Type :=
  | CBool (b : bool)
  | CInt (z : Z)
  | CNum (x : num)
  | CArray (l : list num).

(** A value of the record handed to the solver. *)
Inductive zval : Type :=
  | ZJet (j : jet)
  | ZNum (x : num)
  | ZCfg (c : cfg).

Section Environment.

(** Whether [import afterglowpy] succeeded when the module was loaded: the
    import sits in a [try] whose handler only logs a warning, so without
    afterglowpy neither [afterglow] nor [jettype_dict] is bound. *)
Variable afterglowpy : bool.

(** [cosmo.luminosity_distance(redshift).cgs.value], of astropy. *)
Variable luminosity_distance : num -> result num.

(** [afterglow.fluxDensity(time, frequency, **Z)], the external solver. *)
Variable fluxDensity : list num -> cfg -> gmap string zval -> result (list num).

Definition lift {A : Type} (r : result A) : outcome A :=
  match r with
  | Ok a => Done a
  | Err e => Fail (Raised e)
  end.

(** [kwargs[key]]. *)
Definition getitem (kwargs : gmap string cfg) (key : string) : outcome cfg :=
  match kwargs !! key with
  | Some v => Done v
  | None => Fail (Raised (KeyError key))
  end.

Definition jettype_dict_table : gmap string jet :=
  list_to_map
    [("tophat", TopHat); ("gaussian", Gaussian);
     ("powerlaw_w_core", PowerLawCore); ("gaussian_w_core", GaussianCore);
     ("cocoon", Spherical); ("smooth_power_law", PowerLaw);
     ("cone", Cone)].

(** [jettype_dict[key]]. *)
Definition jettype_dict (key : string) : outcome jet :=
  if afterglowpy then
    match jettype_dict_table !! key with
    | Some j => Done j
    | None => Fail (Raised (KeyError key))
    end
  else Fail (NameError "jettype_dict").

(** [afterglow.fluxDensity(...)]. *)
Definition afterglow_fluxDensity (time : list num) (frequency : cfg)
  (Z : gmap string zval) : outcome (list num) :=
  if afterglowpy then lift (fluxDensity time frequency Z)
  else Fail (NameError "afterglow").

Definition cocoon (time : list num)
  (redshift umax umin logEi k mej logn0 p logepse logepsb ksin g0 : num)
  (kwargs : gmap string cfg) : outcome (list num) :=
  dl ← lift (luminosity_distance redshift);
  spread ← getitem kwargs "spread";
  latres ← getitem kwargs "latres";
  tres ← getitem kwargs "tres";
  jettype ← jettype_dict "cocoon";
  spectype ← getitem kwargs "spectype";
  frequency ← getitem kwargs "frequency";
  let e0 := 10 ** logEi in
  let n0 := 10 ** logn0 in
  let epse := 10 ** logepse in
  let epsb := 10 ** logepsb in
  let Z : gmap string zval :=
    list_to_map
      [("jetType", ZJet jettype); ("specType", ZCfg spectype); ("uMax", ZNum umax);
       ("Er", ZNum e0); ("uMin", ZNum umin); ("k", ZNum k); ("MFast_solar", ZNum mej);
       ("n0", ZNum n0); ("p", ZNum p); ("epsilon_e", ZNum epse);
       ("epsilon_B", ZNum epsb); ("xi_N", ZNum ksin); ("d_L", ZNum dl);
       ("z", ZNum redshift); ("L0", ZNum 0); ("q", ZNum 0); ("ts", ZNum 0);
       ("g0", ZNum g0); ("spread", ZCfg spread); ("latRes", ZCfg latres);
       ("tRes", ZCfg tres)] in
  fluxdensity ← afterglow_fluxDensity time frequency Z;
  Done fluxdensity.

Definition kn_afterglow (time : list num)
  (redshift umax umin logEi k mej logn0 p logepse logepsb ksin g0 : num)
  (kwargs : gmap string cfg) : outcome (list num) :=
  dl ← lift (luminosity_distance redshift);
  spread ← getitem kwargs "spread";
  latres ← getitem kwargs "latres";
  tres ← getitem kwargs "tres";
  jettype ← jettype_dict "cocoon";
  spectype ← getitem kwargs "spectype";
  frequency ← getitem kwargs "frequency";
  let e0 := 10 ** logEi in
  let n0 := 10 ** logn0 in
  let epse := 10 ** logepse in
  let epsb := 10 ** logepsb in
  let Z : gmap string zval :=
    list_to_map
      [("jetType", ZJet jettype); ("specType", ZCfg spectype); ("uMax", ZNum umax);
       ("Er", ZNum e0); ("uMin", ZNum umin); ("k", ZNum k); ("MFast_solar", ZNum mej);
       ("n0", ZNum n0); ("p", ZNum p); ("epsilon_e", ZNum epse);
       ("epsilon_B", ZNum epsb); ("xi_N", ZNum ksin); ("d_L", ZNum dl);
       ("z", ZNum redshift); ("L0", ZNum 0); ("q", ZNum 0); ("ts", ZNum 0);
       ("g0", ZNum g0); ("spread", ZCfg spread); ("latRes", ZCfg latres);
       ("tRes", ZCfg tres)] in
  fluxdensity ← afterglow_fluxDensity time frequency Z;
  Done fluxdensity.

Definition cone_afterglow (time : list num)
  (redshift thv loge0 thw thc logn0 p logepse logepsb ksin g0 : num)
  (kwargs : gmap string cfg) : outcome (list num) :=
  dl ← lift (luminosity_distance redshift);
  spread ← getitem kwargs "spread";
  latres ← getitem kwargs "latres";
  tres ← getitem kwargs "tres";
  jettype ← jettype_dict "cone";
  spectype ← getitem kwargs "spectype";
  frequency ← getitem kwargs "frequency";
  let thw := thw * thc in
  let e0 := 10 ** loge0 in
  let n0 := 10 ** logn0 in
  let epse := 10 ** logepse in
  let epsb := 10 ** logepsb in
  let Z : gmap string zval :=
    list_to_map
      [("jetType", ZJet jettype); ("specType", ZCfg spectype); ("thetaObs", ZNum thv);
       ("E0", ZNum e0); ("thetaCore", ZNum thc); ("n0", ZNum n0); ("p", ZNum p);
       ("epsilon_e", ZNum epse); ("epsilon_B", ZNum epsb); ("xi_N", ZNum ksin);
       ("d_L", ZNum dl); ("z", ZNum redshift); ("L0", ZNum 0); ("q", ZNum 0);
       ("ts", ZNum 0); ("g0", ZNum g0); ("spread", ZCfg spread);
       ("latRes", ZCfg latres); ("tRes", ZCfg tres); ("thetaWing", ZNum thw)] in
  fluxdensity ← afterglow_fluxDensity time frequency Z;
  Done fluxdensity.

Definition gaussiancore (time : list num)
  (redshift thv loge0 thc thw logn0 p logepse logepsb ksin g0 : num)
  (kwargs : gmap string cfg) : outcome (list num) :=
  dl ← lift (luminosity_distance redshift);
  spread ← getitem kwargs "spread";
  latres ← getitem kwargs "latres";
  tres ← getitem kwargs "tres";
  jettype ← jettype_dict "gaussian_w_core";
  spectype ← getitem kwargs "spectype";
  frequency ← getitem kwargs "frequency";
  let thw := thw * thc in
  let e0 := 10 ** loge0 in
  let n0 := 10 ** logn0 in
  let epse := 10 ** logepse in
  let epsb := 10 ** logepsb in
  let Z : gmap string zval :=
    list_to_map
      [("jetType", ZJet jettype); ("specType", ZCfg spectype); ("thetaObs", ZNum thv);
       ("E0", ZNum e0); ("thetaCore", ZNum thc); ("n0", ZNum n0); ("p", ZNum p);
       ("epsilon_e", ZNum epse); ("epsilon_B", ZNum epsb); ("xi_N", ZNum ksin);
       ("d_L", ZNum dl); ("z", ZNum redshift); ("L0", ZNum 0); ("q", ZNum 0);
       ("ts", ZNum 0); ("g0", ZNum g0); ("spread", ZCfg spread);
       ("latRes", ZCfg latres); ("tRes", ZCfg tres); ("thetaWing", ZNum thw)] in
  fluxdensity ← afterglow_fluxDensity time frequency Z;
  Done fluxdensity.

Definition gaussian (time : list num)
  (redshift thv loge0 thw thc logn0 p logepse logepsb ksin g0 : num)
  (kwargs : gmap string cfg) : outcome (list num) :=
  dl ← lift (luminosity_distance redshift);
  spread ← getitem kwargs "spread";
  latres ← getitem kwargs "latres";
  tres ← getitem kwargs "tres";
  jettype ← jettype_dict "gaussian";
  spectype ← getitem kwargs "spectype";
  frequency ← getitem kwargs "frequency";
  let thw := thw * thc in
  let e0 := 10 ** loge0 in
  let n0 := 10 ** logn0 in
  let epse := 10 ** logepse in
  let epsb := 10 ** logepsb in
  let Z : gmap string zval :=
    list_to_map
      [("jetType", ZJet jettype); ("specType", ZCfg spectype); ("thetaObs", ZNum thv);
       ("E0", ZNum e0); ("thetaCore", ZNum thc); ("n0", ZNum n0); ("p", ZNum p);
       ("epsilon_e", ZNum epse); ("epsilon_B", ZNum epsb); ("xi_N", ZNum ksin);
       ("d_L", ZNum dl); ("z", ZNum redshift); ("L0", ZNum 0); ("q", ZNum 0);
       ("ts", ZNum 0); ("g0", ZNum g0); ("spread", ZCfg spread);
       ("latRes", ZCfg latres); ("tRes", ZCfg tres); ("thetaWing", ZNum thw)] in
  fluxdensity ← afterglow_fluxDensity time frequency Z;
  Done fluxdensity.

Definition smoothpowerlaw (time : list num)
  (redshift thv loge0 thw thc beta logn0 p logepse logepsb ksin g0 : num)
  (kwargs : gmap string cfg) : outcome (list num) :=
  dl ← lift (luminosity_distance redshift);
  spread ← getitem kwargs "spread";
  latres ← getitem kwargs "latres";
  tres ← getitem kwargs "tres";
  jettype ← jettype_dict "smooth_power_law";
  spectype ← getitem kwargs "spectype";
  frequency ← getitem kwargs "frequency";
  let thw := thw * thc in
  let e0 := 10 ** loge0 in
  let n0 := 10 ** logn0 in
  let epse := 10 ** logepse in
  let epsb := 10 ** logepsb in
  let Z : gmap string zval :=
    list_to_map
      [("jetType", ZJet jettype); ("specType", ZCfg spectype); ("thetaObs", ZNum thv);
       ("E0", ZNum e0); ("thetaCore", ZNum thc); ("n0", ZNum n0); ("p", ZNum p);
       ("epsilon_e", ZNum epse); ("epsilon_B", ZNum epsb); ("xi_N", ZNum ksin);
       ("d_L", ZNum dl); ("z", ZNum redshift); ("L0", ZNum 0); ("q", ZNum 0);
       ("ts", ZNum 0); ("g0", ZNum g0); ("spread", ZCfg spread);
       ("latRes", ZCfg latres); ("tRes", ZCfg tres); ("thetaWing", ZNum thw);
       ("b", ZNum beta)] in
  fluxdensity ← afterglow_fluxDensity time frequency Z;
  Done fluxdensity.

Definition powerlawcore (time : list num)
  (redshift thv loge0 thw thc beta logn0 p logepse logepsb ksin g0 : num)
  (kwargs : gmap string cfg) : outcome (list num) :=
  dl ← lift (luminosity_distance redshift);
  spread ← getitem kwargs "spread";
  latres ← getitem kwargs "latres";
  tres ← getitem kwargs "tres";
  jettype ← jettype_dict "powerlaw_w_core";
  spectype ← getitem kwargs "spectype";
  frequency ← getitem kwargs "frequency";
  let thw := thw * thc in
  let e0 := 10 ** loge0 in
  let n0 := 10 ** logn0 in
  let epse := 10 ** logepse in
  let epsb := 10 ** logepsb in
  let Z : gmap string zval :=
    list_to_map
      [("jetType", ZJet jettype); ("specType", ZCfg spectype); ("thetaObs", ZNum thv);
       ("E0", ZNum e0); ("thetaCore", ZNum thc); ("n0", ZNum n0); ("p", ZNum p);
       ("epsilon_e", ZNum epse); ("epsilon_B", ZNum epsb); ("xi_N", ZNum ksin);
       ("d_L", ZNum dl); ("z", ZNum redshift); ("L0", ZNum 0); ("q", ZNum 0);
       ("ts", ZNum 0); ("g0", ZNum g0); ("spread", ZCfg spread);
       ("latRes", ZCfg latres); ("tRes", ZCfg tres); ("thetaWing", ZNum thw);
       ("b", ZNum beta)] in
  fluxdensity ← afterglow_fluxDensity time frequency Z;
  Done fluxdensity.

Definition tophat (time : list num)
  (redshift thv loge0 thc logn0 p logepse logepsb ksin g0 : num)
  (kwargs : gmap string cfg) : outcome (list num) :=
  dl ← lift (luminosity_distance redshift);
  spread ← getitem kwargs "spread";
  latres ← getitem kwargs "latres";
  tres ← getitem kwargs "tres";
  jettype ← jettype_dict "tophat";
  spectype ← getitem kwargs "spectype";
  frequency ← getitem kwargs "frequency";
  let e0 := 10 ** loge0 in
  let n0 := 10 ** logn0 in
  let epse := 10 ** logepse in
  let epsb := 10 ** logepsb in
  let Z : gmap string zval :=
    list_to_map
      [("jetType", ZJet jettype); ("specType", ZCfg spectype); ("thetaObs", ZNum thv);
       ("E0", ZNum e0); ("thetaCore", ZNum thc); ("n0", ZNum n0); ("p", ZNum p);
       ("epsilon_e", ZNum epse); ("epsilon_B", ZNum epsb); ("xi_N", ZNum ksin);
       ("d_L", ZNum dl); ("z", ZNum redshift); ("L0", ZNum 0); ("q", ZNum 0);
       ("ts", ZNum 0); ("g0", ZNum g0); ("spread", ZCfg spread);
       ("latRes", ZCfg latres); ("tRes", ZCfg tres)] in
  fluxdensity ← afterglow_fluxDensity time frequency Z;
  Done fluxdensity.

(** The eight model functions on the same arguments, each with the jet
    structure it asks the solver for. *)
Definition the_models (time : list num)
  (redshift thv loge0 thw thc beta logn0 p logepse logepsb ksin g0 umax umin k mej : num)
  : list ((gmap string cfg -> outcome (list num)) * jet) :=
  [(cocoon time redshift umax umin loge0 k mej logn0 p logepse logepsb ksin g0,
    Spherical);
   (kn_afterglow time redshift umax umin loge0 k mej logn0 p logepse logepsb ksin g0,
    Spherical);
   (cone_afterglow time redshift thv loge0 thw thc logn0 p logepse logepsb ksin g0,
    Cone);
   (gaussiancore time redshift thv loge0 thc thw logn0 p logepse logepsb ksin g0,
    GaussianCore);
   (gaussian time redshift thv loge0 thw thc logn0 p logepse logepsb ksin g0,
    Gaussian);
   (smoothpowerlaw time redshift thv loge0 thw thc beta logn0 p logepse logepsb ksin g0,
    PowerLaw);
   (powerlawcore time redshift thv loge0 thw thc beta logn0 p logepse logepsb ksin g0,
    PowerLawCore);
   (tophat time redshift thv loge0 thc logn0 p logepse logepsb ksin g0,
    TopHat)].

End Environment.

(** The first of [keys] that [kwargs] does not hold. *)
Definition first_missing (kwargs : gmap string cfg) (keys : list string)
  : option string :=
  List.find (fun k => bool_decide (kwargs !! k = None)) keys.

(** What a model function raises before it reaches the solver, once the
    luminosity distance is there: it reads [spread], [latres] and [tres],
    then looks up the jet structure, then reads [spectype] and [frequency]. *)
Definition config_error (afterglowpy : bool) (kwargs : gmap string cfg)
  : option model_exn :=
  match first_missing kwargs ["spread"; "latres"; "tres"] with
  | Some k => Some (Raised (KeyError k))
  | None =>
      if afterglowpy then
        match first_missing kwargs ["spectype"; "frequency"] with
        | Some k => Some (Raised (KeyError k))
        | None => None
        end
      else Some (NameError "jettype_dict")
  end.

End AfterglowModels.

(** ** More concrete inputs *)

Module MoreExamples.

Import World.

(** A kilonova. *)
Definition kilonova : Sampler.Transient :=
  {| Sampler.class_name := "Kilonova"; Sampler.bases := ["OpticalTransient"];
     Sampler.name := "at2017gfo"; Sampler.photon_index := 0;
     Sampler.flux_density_data := false; Sampler.photometry_data := false;
     Sampler.x := [1%float]; Sampler.x_err := [0%float];
     Sampler.y := [2%float]; Sampler.y_err := [0.5%float];
     Sampler.get_filtered_data := ([], [], [], []);
     Sampler.bin_size := 1; Sampler.__dict__ := [("_name", "at2017gfo")] |}.

(** A likelihood of the caller's own, passed through [**kwargs]. *)
Definition own_likelihood : gmap string kwarg :=
  {[ "likelihood" := KwLikelihood (GaussianLikelihood [] [] [] Examples.tophat None) ]}.

(** A sampler that does not converge. *)
Definition failing_sampling : run_sampler_args -> PriorDict -> result float :=
  fun _ _ => Err (ValueError "sampler did not converge").

(** What [Examples.sampling] leaves for the burst of [Examples.grb] fitted with
    the given label. *)
Definition fitted (label : string) : Result :=
  {| res_label := label; res_outdir := "./GRB140903A/tophat";
     res_meta_data :=
       [("model", MetaStr "tophat"); ("transient_type", MetaStr "afterglow");
        ("name", MetaStr "140903A"); ("model_kwargs", MetaKwargs None)];
     log_evidence := 0 |}.

Definition c : R := 299792458.

(** Collaborators for [plot_models]: every model function returns the empty
    curve; and matplotlib, which refuses a call that gives the line style
    under both of its names, [ls] and [linestyle], and accepts the others. *)
Definition mm : string -> list R -> gmap string Num.num -> result (list Num.num) :=
  fun _ _ _ => Ok [].

Definition plot_accepts : AnalysisPlots.plot_call -> result unit :=
  fun call =>
    match AnalysisPlots.pc_linestyle call with
    | Some _ =>
        Err (TypeError "Got both 'ls' and 'linestyle', which are aliases of one another")
    | None => Ok tt
    end.

(** Collaborators for the afterglow models and a complete configuration. *)
Definition luminosity_distance : Num.num -> result Num.num :=
  fun _ => Ok (Some 1%R).

Definition fluxDensity
  : list Num.num -> AfterglowModels.cfg -> gmap string AfterglowModels.zval
    -> result (list Num.num) :=
  fun _ _ _ => Ok [].

Definition config : gmap string AfterglowModels.cfg :=
  list_to_map
    [("spread", AfterglowModels.CBool false); ("latres", AfterglowModels.CInt 2);
     ("tres", AfterglowModels.CInt 100); ("spectype", AfterglowModels.CInt 0);
     ("frequency", AfterglowModels.CNum (Some 1e9%R))].

End MoreExamples.

(** * Properties

    ** The lifted arithmetic *)

Module NumFacts.
Import Num.
Open Scope R_scope.

Lemma Rpow_pos (a b : R) : 0 < a -> Rpow a b = Some (Rpower a b).
Proof. intros Ha. unfold Rpow. destruct (Rlt_dec 0 a); [reflexivity | contradiction]. Qed.

Lemma Rpow_zero_pos (b : R) : 0 < b -> Rpow 0 b = Some 0.
Proof.
  intros Hb. unfold Rpow.
  destruct (Rlt_dec 0 0) as [H | _]; [lra |].
  destruct (Req_dec_T 0 0) as [_ | H]; [| lra].
  destruct (Rlt_dec 0 b); [reflexivity | contradiction].
Qed.

Lemma Rpow_nat (n : nat) (a : R) : (0 < n)%nat -> Rpow a (INR n) = Some (a ^ n).
Proof.
  intros Hn. unfold Rpow.
  assert (Hpos : 0 < INR n) by (apply lt_0_INR; lia).
  destruct (Rlt_dec 0 a) as [Ha | Ha].
  - by rewrite Rpower_pow.
  - destruct (Req_dec_T a 0) as [-> | Hne].
    + destruct (Rlt_dec 0 (INR n)); [| contradiction].
      f_equal. symmetry. apply pow_i. lia.
    + rewrite Int_part_INR, <- INR_IZR_INZ.
      destruct (Req_dec_T (INR n) (INR n)); [| congruence].
      f_equal. symmetry. apply pow_powerRZ.
Qed.

Lemma Rpow_2 (a : R) : Rpow a 2 = Some (a ^ 2).
Proof. replace 2 with (INR 2) by (simpl; lra). apply Rpow_nat. lia. Qed.

Lemma div_fin (a b : R) : b <> 0 -> div (Some a) (Some b) = Some (a / b).
Proof. intros Hb. unfold div. destruct (Req_dec_T b 0); [contradiction | reflexivity]. Qed.

Lemma log_fin (a : R) : 0 < a -> log (Some a) = Some (ln a).
Proof. intros Ha. unfold log. destruct (Rlt_dec 0 a); [reflexivity | contradiction]. Qed.

Lemma add_fin (a b : R) : add (Some a) (Some b) = Some (a + b).
Proof. reflexivity. Qed.

Lemma sub_fin (a b : R) : sub (Some a) (Some b) = Some (a - b).
Proof. reflexivity. Qed.

Lemma mul_fin (a b : R) : mul (Some a) (Some b) = Some (a * b).
Proof. reflexivity. Qed.

Lemma neg_fin (a : R) : neg (Some a) = Some (- a).
Proof. reflexivity. Qed.

Lemma maximum_fin (a b : R) : maximum (Some a) (Some b) = Some (Rmax a b).
Proof. reflexivity. Qed.

Lemma pow_fin (a b : R) : pow (Some a) (Some b) = Rpow a b.
Proof. reflexivity. Qed.

Lemma sign_fin (a : R) :
  sign (Some a) = Some (if Rlt_dec 0 a then 1 else if Rlt_dec a 0 then -1 else 0).
Proof. reflexivity. Qed.

Create Rewrite HintDb num.

#[export] Hint Rewrite add_fin sub_fin mul_fin neg_fin maximum_fin pow_fin sign_fin
  : num.

End NumFacts.

(** ** Soundness of the bounds on the exponential, and [ln 300] *)

Module ExpBoundsFacts.
Import ExpBounds.
Open Scope R_scope.

Lemma scale_pos : 0 < IZR scale.
Proof. apply IZR_lt. reflexivity. Qed.

Lemma exp_double (y : R) : exp (2 * y) = exp y * exp y.
Proof. replace (2 * y) with (y + y) by ring. apply exp_plus. Qed.

Lemma square_up_sound (k : nat) :
  forall (v : Z) (y : R),
    exp y <= IZR v / IZR scale ->
    exp (2 ^ k * y) <= IZR (square_up k v) / IZR scale.
Proof.
  induction k as [| k IH]; intros v y Hv; simpl.
  - by rewrite Rmult_1_l.
  - replace (2 * 2 ^ k * y) with (2 ^ k * (2 * y)) by ring.
    apply IH. rewrite exp_double.
    pose proof scale_pos as HS. pose proof (exp_pos y) as Hy.
    assert (Hlt : (v * v < (v * v / scale + 1) * scale)%Z).
    { pose proof (Z.mul_succ_div_gt (v * v) scale eq_refl). lia. }
    apply IZR_lt in Hlt. rewrite !mult_IZR in Hlt.
    set (V := IZR v) in *. set (V' := IZR (v * v / scale + 1)) in *.
    set (S := IZR scale) in *.
    assert (Hsq : exp y * exp y <= (V / S) * (V / S)) by nra.
    apply Rle_trans with (1 := Hsq).
    apply Rmult_le_reg_r with (r := S * S); [nra |].
    replace (V / S * (V / S) * (S * S)) with (V * V) by (field; lra).
    replace (V' / S * (S * S)) with (V' * S) by (field; lra).
    lra.
Qed.

Lemma square_down_sound (k : nat) :
  forall (v : Z) (y : R),
    (0 <= v)%Z ->
    IZR v / IZR scale <= exp y ->
    IZR (square_down k v) / IZR scale <= exp (2 ^ k * y).
Proof.
  induction k as [| k IH]; intros v y Hv0 Hv; simpl.
  - by rewrite Rmult_1_l.
  - replace (2 * 2 ^ k * y) with (2 ^ k * (2 * y)) by ring.
    apply IH.
    { apply Z.div_pos; [nia | reflexivity]. }
    rewrite exp_double.
    pose proof scale_pos as HS.
    assert (Hle : (v * v / scale * scale <= v * v)%Z).
    { pose proof (Z.mul_div_le (v * v) scale eq_refl). lia. }
    apply IZR_le in Hle. rewrite !mult_IZR in Hle.
    apply IZR_le in Hv0.
    set (V := IZR v) in *. set (V' := IZR (v * v / scale)) in *.
    set (S := IZR scale) in *.
    assert (HVS : 0 <= V / S) by (apply Rmult_le_pos; [lra | left; by apply Rinv_0_lt_compat]).
    assert (Hsq : (V / S) * (V / S) <= exp y * exp y) by nra.
    apply Rle_trans with (2 := Hsq).
    apply Rmult_le_reg_r with (r := S * S); [nra |].
    replace (V / S * (V / S) * (S * S)) with (V * V) by (field; lra).
    replace (V' / S * (S * S)) with (V' * S) by (field; lra).
    lra.
Qed.

Lemma exp_le_inv_one_minus (y : R) : y < 1 -> exp y <= 1 / (1 - y).
Proof.
  intros Hy. pose proof (exp_ineq1_le (- y)) as H. rewrite exp_Ropp in H.
  pose proof (exp_pos y) as Hp.
  apply Rmult_le_reg_r with (r := 1 - y); [lra |].
  replace (1 / (1 - y) * (1 - y)) with 1 by (field; lra).
  apply Rmult_le_compat_l with (r := exp y) in H; [| lra].
  rewrite Rinv_r in H by lra. lra.
Qed.

Lemma exp_upper_sound (k : nat) (n d : Z) :
  (0 < d)%Z -> (n < d * 2 ^ Z.of_nat k)%Z ->
  exp (IZR n / IZR d) <= IZR (exp_upper k n d) / IZR scale.
Proof.
  intros Hd Hn. unfold exp_upper.
  set (D := (d * 2 ^ Z.of_nat k)%Z) in *.
  assert (HD : IZR D = IZR d * 2 ^ k).
  { unfold D. rewrite mult_IZR. f_equal. symmetry. apply pow_IZR. }
  assert (Hd' : 0 < IZR d) by (by apply IZR_lt).
  assert (H2k : 0 < 2 ^ k) by (apply pow_lt; lra).
  assert (HDpos : 0 < IZR D) by (rewrite HD; nra).
  replace (IZR n / IZR d) with (2 ^ k * (IZR n / IZR D)).
  2:{ rewrite HD. field. lra. }
  apply square_up_sound.
  assert (HnD : IZR n < IZR D) by (by apply IZR_lt).
  assert (Hy : IZR n / IZR D < 1).
  { apply Rmult_lt_reg_r with (r := IZR D); [lra |].
    replace (IZR n / IZR D * IZR D) with (IZR n) by (field; lra). lra. }
  apply Rle_trans with (1 := exp_le_inv_one_minus _ Hy).
  pose proof scale_pos as HS.
  assert (Hlt : (scale * D < (scale * D / (D - n) + 1) * (D - n))%Z).
  { pose proof (Z.mul_succ_div_gt (scale * D) (D - n) ltac:(lia)). lia. }
  apply IZR_lt in Hlt. rewrite !mult_IZR, minus_IZR in Hlt.
  set (V := IZR (scale * D / (D - n) + 1)) in *.
  apply Rmult_le_reg_r with (r := IZR scale * (IZR D - IZR n)); [nra |].
  replace (1 / (1 - IZR n / IZR D) * (IZR scale * (IZR D - IZR n)))
    with (IZR scale * IZR D) by (field; lra).
  replace (V / IZR scale * (IZR scale * (IZR D - IZR n)))
    with (V * (IZR D - IZR n)) by (field; lra).
  lra.
Qed.

Lemma exp_lower_sound (k : nat) (n d : Z) :
  (0 <= n)%Z -> (0 < d)%Z ->
  IZR (exp_lower k n d) / IZR scale <= exp (IZR n / IZR d).
Proof.
  intros Hn Hd. unfold exp_lower.
  set (D := (d * 2 ^ Z.of_nat k)%Z) in *.
  assert (HD : IZR D = IZR d * 2 ^ k).
  { unfold D. rewrite mult_IZR. f_equal. symmetry. apply pow_IZR. }
  assert (Hd' : 0 < IZR d) by (by apply IZR_lt).
  assert (H2k : 0 < 2 ^ k) by (apply pow_lt; lra).
  assert (HDpos : 0 < IZR D) by (rewrite HD; nra).
  assert (HDz : (0 < D)%Z) by (by apply lt_IZR).
  replace (IZR n / IZR d) with (2 ^ k * (IZR n / IZR D)).
  2:{ rewrite HD. field. lra. }
  pose proof scale_pos as HS.
  apply square_down_sound.
  { apply Z.div_pos; [| lia]. apply Z.mul_nonneg_nonneg; [done | lia]. }
  apply Rle_trans with (2 := exp_ineq1_le _).
  assert (Hle : (scale * (D + n) / D * D <= scale * (D + n))%Z).
  { pose proof (Z.mul_div_le (scale * (D + n)) D HDz). lia. }
  apply IZR_le in Hle. rewrite !mult_IZR, plus_IZR in Hle.
  set (V := IZR (scale * (D + n) / D)) in *.
  apply Rmult_le_reg_r with (r := IZR scale * IZR D); [nra |].
  replace (V / IZR scale * (IZR scale * IZR D)) with (V * IZR D) by (field; lra).
  replace ((1 + IZR n / IZR D) * (IZR scale * IZR D))
    with (IZR scale * (IZR D + IZR n)) by (field; lra).
  lra.
Qed.

Lemma ln_300_lower : 5.70375 < ln 300.
Proof.
  apply exp_lt_inv. rewrite exp_ln by lra.
  replace 5.70375 with (IZR 570375 / IZR 100000) by lra.
  apply Rle_lt_trans with (1 := exp_upper_sound 20 570375 100000 eq_refl eq_refl).
  apply Rmult_lt_reg_r with (r := IZR scale); [apply scale_pos |].
  replace (IZR (exp_upper 20 570375 100000) / IZR scale * IZR scale)
    with (IZR (exp_upper 20 570375 100000)) by (field; pose proof scale_pos; lra).
  rewrite <- mult_IZR. apply IZR_lt. vm_compute. reflexivity.
Qed.

Lemma ln_300_upper : ln 300 < 5.70381.
Proof.
  apply exp_lt_inv. rewrite exp_ln by lra.
  replace 5.70381 with (IZR 570381 / IZR 100000) by lra.
  apply Rlt_le_trans with (2 := exp_lower_sound 20 570381 100000 ltac:(lia) eq_refl).
  apply Rmult_lt_reg_r with (r := IZR scale); [apply scale_pos |].
  replace (IZR (exp_lower 20 570381 100000) / IZR scale * IZR scale)
    with (IZR (exp_lower 20 570381 100000)) by (field; pose proof scale_pos; lra).
  rewrite <- mult_IZR. apply IZR_lt. vm_compute. reflexivity.
Qed.

End ExpBoundsFacts.

(** ** The ejecta relations *)

Module EjectaFacts.

Import Num Py EjectaRelations NumFacts ExpBoundsFacts.
Open Scope R_scope.

Lemma attr_lookup (self : object) (k : string) (x : num) :
  self !! k = Some (VFloat x) -> attr self k = Ok x.
Proof. intros H. unfold attr, getattr. by rewrite H. Qed.

(** *** The helper transforms on valid arguments *)

Lemma calc_compactness_fin (l : R) :
  0 < l ->
  calc_compactness_from_lambda (Some l)
  = Some (Spec.compactness_from_tidal_deformability l).
Proof.
  intros Hl.
  unfold calc_compactness_from_lambda, Spec.compactness_from_tidal_deformability.
  rewrite (log_fin l Hl). cbn. rewrite Rpow_2. reflexivity.
Qed.

(** The fit of the compactness has no real root: it is positive for every
    tidal deformability. *)
Lemma compactness_pos (l : R) : 0 < Spec.compactness_from_tidal_deformability l.
Proof.
  unfold Spec.compactness_from_tidal_deformability.
  generalize (ln l). intros L.
  pose proof (Rle_0_sqr (L - 9775 / 528)) as Hsq. unfold Rsqr in Hsq. nra.
Qed.

Lemma calc_baryonic_mass_fin (m c : R) :
  0 < c -> calc_baryonic_mass (Some m) (Some c) = Some (Spec.baryonic_mass m c).
Proof.
  intros Hc. unfold calc_baryonic_mass, Spec.baryonic_mass.
  cbn. rewrite (Rpow_pos c _ Hc). reflexivity.
Qed.

Lemma baryonic_mass_pos (m c : R) : 0 < m -> 0 < Spec.baryonic_mass m c.
Proof.
  intros Hm. unfold Spec.baryonic_mass.
  assert (0 < Rpower c 1.2082383572002926) by apply exp_pos.
  nra.
Qed.





(** X1: for every positive tidal deformability the compactness the code computes
    is a real number above 0.009: the fits that divide by the compactness
    never divide by zero. *)
Theorem calc_compactness_from_lambda_positive :
  forall lam : R, 0 < lam ->
    exists c : R, calc_compactness_from_lambda (Some lam) = Some c /\ 0.009 < c.
Proof.
  intros lam Hlam. exists (Spec.compactness_from_tidal_deformability lam). split.
  - by apply calc_compactness_fin.
  - unfold Spec.compactness_from_tidal_deformability.
    generalize (ln lam). intros L.
    pose proof (Rle_0_sqr (L - 9775 / 528)) as Hsq. unfold Rsqr in Hsq. nra.
Qed.

Lemma calc_compactness_from_lambda_positive_witness :
  exists c : R, calc_compactness_from_lambda (Some 400) = Some c /\ 0.009 < c.
Proof.
  apply calc_compactness_from_lambda_positive. lra.
Defined.

(** *** The compactness at tidal deformability 300 *)

Lemma compactness_300_bounds :
  0.18233 < Spec.compactness_from_tidal_deformability 300 < 0.18234.
Proof.
  unfold Spec.compactness_from_tidal_deformability.
  pose proof ln_300_lower as Hlo. pose proof ln_300_upper as Hhi.
  set (L := ln 300) in *. split; nra.
Qed.

(** C2, as the code has it: [calc_compactness_from_lambda(300)] lies between
    0.18233 and 0.18234, that is 0.1823 to four decimals. *)
Theorem calc_compactness_from_lambda_300 :
  exists v : R,
    calc_compactness_from_lambda (Some 300) = Some v /\ 0.18233 < v < 0.18234.
Proof.
  exists (Spec.compactness_from_tidal_deformability 300). split.
  - apply calc_compactness_fin. lra.
  - apply compactness_300_bounds.
Qed.

(** C2, as stated, fails: the value at 300 is more than 0.035 above 0.1473. *)
Lemma calc_compactness_from_lambda_300_off_reference :
  exists v : R,
    calc_compactness_from_lambda (Some 300) = Some v /\ 0.035 < v - 0.1473.
Proof.
  exists (Spec.compactness_from_tidal_deformability 300). split.
  - apply calc_compactness_fin. lra.
  - pose proof compactness_300_bounds. lra.
Qed.

(** *** The innermost stable circular orbit *)

Lemma Rpow_third (x : R) : 0 <= x -> Rpow x (1 / 3) = Some (Spec.cbrt x).
Proof.
  intros Hx. unfold Spec.cbrt. destruct (Req_dec_T x 0) as [-> | Hne].
  - apply Rpow_zero_pos. lra.
  - apply Rpow_pos. lra.
Qed.

Lemma Rpow_half (x : R) : 0 <= x -> Rpow x (1 / 2) = Some (R_sqrt.sqrt x).
Proof.
  intros Hx. destruct (Req_dec_T x 0) as [-> | Hne].
  - rewrite sqrt_0. apply Rpow_zero_pos. lra.
  - rewrite Rpow_pos by lra. f_equal.
    replace (1 / 2) with (/ 2) by lra. apply Rpower_sqrt. lra.
Qed.

Lemma cbrt_nonneg (x : R) : 0 <= Spec.cbrt x.
Proof.
  unfold Spec.cbrt. destruct (Req_dec_T x 0); [lra |].
  left. apply exp_pos.
Qed.

Lemma cbrt_cube (x : R) : 0 <= x -> Spec.cbrt x ^ 3 = x.
Proof.
  intros Hx. unfold Spec.cbrt. destruct (Req_dec_T x 0) as [-> | Hne].
  - lra.
  - assert (Hpos : 0 < x) by lra.
    rewrite <- Rpower_pow by apply exp_pos.
    rewrite Rpower_mult. replace (1 / 3 * INR 3) with 1 by (simpl; lra).
    by apply Rpower_1.
Qed.

Lemma cbrt_1 : Spec.cbrt 1 = 1.
Proof.
  pose proof (cbrt_cube 1 ltac:(lra)) as H3. pose proof (cbrt_nonneg 1) as H0.
  nra.
Qed.

Lemma Z1_bounds (chi : R) : -1 <= chi <= 1 -> 1 <= Spec.Z1 chi <= 3.
Proof.
  intros Hchi. unfold Spec.Z1.
  assert (H1 : 0 <= 1 - chi ^ 2) by nra.
  pose proof (cbrt_nonneg (1 - chi ^ 2)) as Hc0.
  pose proof (cbrt_nonneg (1 + chi)) as Ha0.
  pose proof (cbrt_nonneg (1 - chi)) as Hb0.
  pose proof (cbrt_cube (1 - chi ^ 2) H1) as Hc3.
  pose proof (cbrt_cube (1 + chi) ltac:(lra)) as Ha3.
  pose proof (cbrt_cube (1 - chi) ltac:(lra)) as Hb3.
  set (c := Spec.cbrt (1 - chi ^ 2)) in *.
  set (a := Spec.cbrt (1 + chi)) in *.
  set (b := Spec.cbrt (1 - chi)) in *.
  assert (Hc1 : c <= 1).
  { destruct (Rle_dec c 1) as [| Hn]; [done |]. exfalso.
    assert (1 < c) by lra. assert (1 < c * c) by nra. nra. }
  assert (Hab : a + b <= 2).
  { destruct (Rle_dec (a + b) 2) as [| Hn]; [done |]. exfalso.
    assert (Hs : 2 < a + b) by lra.
    assert (Hsq : 0 <= (a - b) * (a - b)) by (apply Rle_0_sqr).
    assert (Hid : 4 * (a ^ 3 + b ^ 3)
                  = (a + b) * ((a + b) * (a + b) + 3 * ((a - b) * (a - b)))) by ring.
    assert (4 < (a + b) * (a + b)) by nra.
    assert (8 < (a + b) * ((a + b) * (a + b) + 3 * ((a - b) * (a - b)))) by nra.
    lra. }
  split; nra.
Qed.

Lemma bpt_root_arg_nonneg (chi : R) :
  -1 <= chi <= 1 ->
  0 <= (3 - Spec.Z1 chi) * (3 + Spec.Z1 chi + 2 * Spec.Z2 chi).
Proof.
  intros Hchi. pose proof (Z1_bounds chi Hchi).
  assert (0 <= Spec.Z2 chi) by apply sqrt_pos.
  apply Rmult_le_pos; lra.
Qed.

Lemma Z1_0 : Spec.Z1 0 = 3.
Proof.
  unfold Spec.Z1. replace (1 - 0 ^ 2) with 1 by ring.
  replace (1 + 0) with 1 by ring. replace (1 - 0) with 1 by ring.
  rewrite cbrt_1. ring.
Qed.

Lemma Z2_0 : Spec.Z2 0 = 3.
Proof.
  unfold Spec.Z2. rewrite Z1_0. replace (3 * 0 ^ 2 + 3 ^ 2) with (3 * 3) by ring.
  apply sqrt_square. lra.
Qed.

Lemma bpt_isco_radius_0 : Spec.bpt_isco_radius 0 = 6.
Proof.
  unfold Spec.bpt_isco_radius. cbn zeta. rewrite Z1_0, Z2_0.
  replace ((3 - 3) * (3 + 3 + 2 * 3)) with 0 by ring. rewrite sqrt_0.
  destruct (Rle_dec 0 0); lra.
Qed.

Lemma isco_radius_fin (self : object) (chi : R) :
  -1 <= chi <= 1 ->
  self !! "chi_eff" = Some (VFloat (Some chi)) ->
  OneComponentNSBH.isco_radius self = Ok (Some (Spec.bpt_isco_radius chi)).
Proof.
  intros Hchi Hself. unfold OneComponentNSBH.isco_radius.
  rewrite (attr_lookup _ _ _ Hself). cbn [mbind result_bind].
  unfold fin. rewrite !div_fin by lra.
  pose proof (Z1_bounds chi Hchi) as HZ1.
  pose proof (bpt_root_arg_nonneg chi Hchi) as Hroot.
  replace (1 / 3.0) with (1 / 3) by lra.
  replace (1 / 2.0) with (1 / 2) by lra.
  cbv zeta. autorewrite with num.
  rewrite !Rpow_third by nra. autorewrite with num.
  replace (1 - chi * chi) with (1 - chi ^ 2) by ring.
  fold (Spec.Z1 chi).
  rewrite Rpow_half by nra. autorewrite with num.
  replace (3 * chi * chi + Spec.Z1 chi * Spec.Z1 chi)
    with (3 * chi ^ 2 + Spec.Z1 chi ^ 2) by ring.
  fold (Spec.Z2 chi).
  rewrite Rpow_half by done. autorewrite with num.
  do 2 apply f_equal.
  unfold Spec.bpt_isco_radius. cbn zeta.
  destruct (Rlt_dec 0 chi) as [Hp | Hnp].
  - destruct (Rle_dec 0 chi); lra.
  - destruct (Rlt_dec chi 0) as [Hn | Hnn].
    + destruct (Rle_dec 0 chi); lra.
    + assert (chi = 0) by lra. subst chi.
      destruct (Rle_dec 0 0); [| lra].
      rewrite Z1_0. replace ((3 - 3) * (3 + 3 + 2 * Spec.Z2 0)) with 0 by ring.
      rewrite sqrt_0. ring.
Qed.

(** C9: for a spin between -1 and 1 the radius [isco_radius] computes is the
    Bardeen-Press-Teukolsky one, the square root subtracted for a positive
    spin and added for a negative one, and for spin 0 it is 6. *)
Theorem isco_radius_is_bardeen_press_teukolsky :
  forall (self : object) (chi : R),
    -1 <= chi <= 1 ->
    self !! "chi_eff" = Some (VFloat (Some chi)) ->
    let root := R_sqrt.sqrt ((3 - Spec.Z1 chi) * (3 + Spec.Z1 chi + 2 * Spec.Z2 chi)) in
    OneComponentNSBH.isco_radius self = Ok (Some (Spec.bpt_isco_radius chi))
    /\ (0 < chi ->
          OneComponentNSBH.isco_radius self = Ok (Some (3 + Spec.Z2 chi - root)))
    /\ (chi < 0 ->
          OneComponentNSBH.isco_radius self = Ok (Some (3 + Spec.Z2 chi + root)))
    /\ (chi = 0 -> OneComponentNSBH.isco_radius self = Ok (Some 6)).
Proof.
  intros self chi Hchi Hself root.
  rewrite (isco_radius_fin self chi Hchi Hself).
  split; [reflexivity |].
  unfold Spec.bpt_isco_radius. fold root. cbv zeta.
  split; [| split].
  - intros Hpos. destruct (Rle_dec 0 chi); [reflexivity | lra].
  - intros Hneg. destruct (Rle_dec 0 chi); [lra | reflexivity].
  - intros ->. fold (Spec.bpt_isco_radius 0) root.
    change (Ok (Some (Spec.bpt_isco_radius 0)) = Ok (Some 6)).
    by rewrite bpt_isco_radius_0.
Qed.

Lemma isco_radius_is_bardeen_press_teukolsky_witness :
  OneComponentNSBH.isco_radius
    (OneComponentNSBH.init_attrs (Some 5) (Some 1.4) (Some 0) (Some 400))
  = Ok (Some 6).
Proof.
  destruct (isco_radius_is_bardeen_press_teukolsky
              (OneComponentNSBH.init_attrs (Some 5) (Some 1.4) (Some 0) (Some 400)) 0)
    as (_ & _ & _ & H0).
  - lra.
  - reflexivity.
  - by apply H0.
Defined.

(** *** The range of binary64 *)

Lemma pow10_pos (n : nat) : 0 < 10 ^ n.
Proof. apply pow_lt. lra. Qed.

Lemma pow10_ge_1 (n : nat) : 1 <= 10 ^ n.
Proof. apply pow_R1_Rle. lra. Qed.

(** [max_float] lies between [10^300] and [10^342]. *)
Lemma max_float_lower : 10 ^ 300 <= PyFloat.max_float.
Proof.
  unfold PyFloat.max_float.
  assert (H1 : 10 ^ 300 <= 2 ^ 1000).
  { change (10 ^ 300) with (10 ^ (3 * 100)). change (2 ^ 1000) with (2 ^ (10 * 100)).
    rewrite !pow_mult. apply pow_incr. split; [apply Rlt_le, pow_lt; lra |]. lra. }
  assert (H2 : 2 ^ 1000 <= 2 ^ 1023) by (apply Rle_pow; [lra | lia]).
  assert (H3 : 0 < 2 ^ 1023) by (apply pow_lt; lra).
  assert (H4 : / 2 ^ 52 <= 1).
  { rewrite <- Rinv_1. apply Rinv_le_contravar; [lra |]. apply pow_R1_Rle. lra. }
  nra.
Qed.

Lemma max_float_upper : PyFloat.max_float < 10 ^ 342.
Proof.
  unfold PyFloat.max_float.
  assert (H1 : 2 ^ 1026 <= 10 ^ 342).
  { change (2 ^ 1026) with (2 ^ (3 * 342)).
    rewrite pow_mult. apply pow_incr. lra. }
  assert (H2 : 2 ^ 1024 <= 2 ^ 1026) by (apply Rle_pow; [lra | lia]).
  assert (H3 : 0 < 2 ^ 1023) by (apply pow_lt; lra).
  assert (H4 : 0 < / 2 ^ 52) by (apply Rinv_0_lt_compat, pow_lt; lra).
  assert (H5 : 2 ^ 1024 = 2 * 2 ^ 1023) by (change 1024%nat with (S 1023); reflexivity).
  nra.
Qed.

Lemma Rpower_inv_base (q y : R) : 0 < q -> Rpower (/ q) y = Rpower q (- y).
Proof. intros Hq. unfold Rpower. rewrite ln_Rinv by done. f_equal. ring. Qed.

(** A power of a number between [B^-k] and [B^k], under an exponent of size
    at most [N], is at most [B^(N k)]. *)
Lemma Rpower_le_pow (B q y : R) (N k : nat) :
  1 <= B -> / B ^ k <= q <= B ^ k -> Rabs y <= INR N -> Rpower q y <= B ^ (N * k).
Proof.
  intros HB [Hlo Hhi] Hy.
  assert (Hk : 0 < B ^ k) by (apply pow_lt; lra).
  assert (Hk1 : 1 <= B ^ k) by (by apply pow_R1_Rle).
  assert (Hq : 0 < q) by (pose proof (Rinv_0_lt_compat _ Hk); lra).
  assert (Hqi : / q <= B ^ k).
  { rewrite <- (Rinv_inv (B ^ k)).
    apply Rinv_le_contravar; [by apply Rinv_0_lt_compat | done]. }
  assert (Hgen : forall b z, 0 < b <= B ^ k -> 0 <= z <= INR N ->
                             Rpower b z <= B ^ (N * k)).
  { intros b z Hb Hz.
    transitivity (Rpower (B ^ k) z); [apply Rle_Rpower_l; lra |].
    transitivity (Rpower (B ^ k) (INR N)); [apply Rle_Rpower; lra |].
    rewrite Rpower_pow by done. rewrite <- pow_mult, Nat.mul_comm. lra. }
  destruct (Rle_dec 0 y) as [Hpos | Hneg].
  - apply Hgen; [lra |]. rewrite Rabs_right in Hy by lra. lra.
  - replace y with (- - y) by ring. rewrite <- Rpower_inv_base by done.
    apply Hgen.
    + split; [by apply Rinv_0_lt_compat | done].
    + rewrite Rabs_left in Hy by lra. lra.
Qed.

(** The quotient of two numbers between [10^-30] and [10^30]. *)
Lemma ratio_bounds (a b : R) :
  1e-30 <= a <= 1e30 -> 1e-30 <= b <= 1e30 ->
  0 < a / b /\ / 10 ^ 60 <= a / b <= 10 ^ 60.
Proof.
  replace 1e-30 with (/ 10 ^ 30) by lra. replace 1e30 with (10 ^ 30) by lra.
  intros [Ha1 Ha2] [Hb1 Hb2].
  pose proof (pow10_pos 30) as H30.
  pose proof (Rinv_0_lt_compat _ H30) as Hi30.
  assert (Hb : 0 < b) by lra. assert (Ha : 0 < a) by lra.
  assert (Hib1 : / b <= 10 ^ 30).
  { rewrite <- (Rinv_inv (10 ^ 30)). by apply Rinv_le_contravar. }
  assert (Hib2 : / 10 ^ 30 <= / b) by (by apply Rinv_le_contravar).
  assert (Hib : 0 < / b) by (by apply Rinv_0_lt_compat).
  change (10 ^ 60) with (10 ^ (30 + 30)). rewrite pow_add.
  rewrite Rinv_mult. unfold Rdiv.
  split; [by apply Rmult_lt_0_compat |].
  split.
  - apply Rmult_le_compat; lra.
  - apply Rmult_le_compat; lra.
Qed.

Lemma mass_pos (m : R) : 1e-30 <= m <= 1e30 -> 0 < m.
Proof. lra. Qed.

(** *** The operations of Python's floats *)

Lemma float_truediv_fin (a b : R) :
  b <> 0 -> PyFloat.float_truediv (Some a) (Some b) = Ok (Some (a / b)).
Proof. intros Hb. unfold PyFloat.float_truediv. by destruct (Req_dec_T b 0). Qed.

Lemma float_pow_in_range (a b : R) :
  0 < a -> Rpower a b <= PyFloat.max_float ->
  PyFloat.float_pow (Some a) (Some b) = Ok (Some (Rpower a b)).
Proof.
  intros Ha Hr. unfold PyFloat.float_pow.
  destruct (Req_dec_T a 0) as [-> | _]; [lra |].
  rewrite Rpow_pos by done.
  pose proof (exp_pos (b * ln a)) as Hpos. fold (Rpower a b) in Hpos.
  rewrite Rabs_right by lra.
  by destruct (Rle_dec (Rpower a b) PyFloat.max_float).
Qed.

Lemma float_pow_overflow (a b : R) :
  0 < a -> PyFloat.max_float < Rpower a b ->
  PyFloat.float_pow (Some a) (Some b)
  = Err (OverflowError "(34, 'Numerical result out of range')").
Proof.
  intros Ha Hr. unfold PyFloat.float_pow.
  destruct (Req_dec_T a 0) as [-> | _]; [lra |].
  rewrite Rpow_pos by done.
  pose proof (exp_pos (b * ln a)) as Hpos. fold (Rpower a b) in Hpos.
  rewrite Rabs_right by lra.
  destruct (Rle_dec (Rpower a b) PyFloat.max_float); [lra | done].
Qed.

(** A power of the ratio of two masses between [10^-30] and [10^30], under
    an exponent of size at most 3, is within the range of binary64. *)
Lemma float_pow_ratio (a b y : R) :
  1e-30 <= a <= 1e30 -> 1e-30 <= b <= 1e30 -> -3 <= y <= 3 ->
  PyFloat.float_pow (Some (a / b)) (Some y) = Ok (Some (Rpower (a / b) y)).
Proof.
  intros Ha Hb Hy.
  destruct (ratio_bounds a b Ha Hb) as [Hpos Hq].
  apply float_pow_in_range; [done |].
  transitivity (10 ^ 300); [| apply max_float_lower].
  transitivity (10 ^ (3 * 60)).
  - apply Rpower_le_pow; [lra | done |].
    replace (INR 3) with 3 by (simpl; lra). by apply Rabs_le.
  - apply Rle_pow; [lra | lia].
Qed.

Lemma float_pow_mass_ratio (a b y : R) :
  1e-30 <= a <= 1e30 -> 1e-30 <= b <= 1e30 -> -3 <= y <= 3 ->
  PyFloat.float_pow (Some a / Some b)%num (Some y) = Ok (Some (Rpower (a / b) y)).
Proof.
  intros Ha Hb Hy. rewrite div_fin by lra. by apply float_pow_ratio.
Qed.

Ltac float_step :=
  first [ rewrite float_truediv_fin by lra
        | rewrite float_pow_ratio by (done || lra) ];
  cbn [mbind result_bind].

(** *** Ejecta masses *)

Ltac attrs := unfold setattr; simplify_map_eq; reflexivity.

Ltac num_norm :=
  repeat first [ progress autorewrite with num
               | rewrite div_fin by lra
               | rewrite Rpow_pos by lra ].

Lemma BNSProjection_ejecta_mass_float (m1 m2 l1 l2 : R) :
  1e-30 <= m1 <= 1e30 -> 1e-30 <= m2 <= 1e30 -> 0 < l1 -> 0 < l2 ->
  let C1 := Spec.compactness_from_tidal_deformability l1 in
  let C2 := Spec.compactness_from_tidal_deformability l2 in
  let mb1 := Spec.baryonic_mass m1 C1 in
  let mb2 := Spec.baryonic_mass m2 C2 in
  let fit :=
    (mb1 * Rpower (m2 / m1) (1 / 3) * (1 - 2 * C1) / C1
     + mb2 * Rpower (m1 / m2) (1 / 3) * (1 - 2 * C2) / C2) * -1.35695
    + (mb1 * Rpower (m2 / m1) (-2.5484) + mb2 * Rpower (m1 / m2) (-2.5484)) * 6.11252
    + (mb1 * (1 - m1 / mb1) + mb2 * (1 - m2 / mb2)) * -49.43355
    + 16.1144 in
  EjectaRelationsPyFloat.OneComponentBNSProjection.calculate_ejecta_mass
    (OneComponentBNSProjection.init_attrs (Some m1) (Some m2) (Some l1) (Some l2))
  = Ok (Some (Rmax fit 0 / 1000)).
Proof.
  intros Hm1 Hm2 Hl1 Hl2.
  pose proof (mass_pos m1 Hm1) as Hp1. pose proof (mass_pos m2 Hm2) as Hp2.
  unfold EjectaRelationsPyFloat.OneComponentBNSProjection.calculate_ejecta_mass.
  rewrite (attr_lookup _ "c1" (calc_compactness_from_lambda (Some l1)))
    by (unfold OneComponentBNSProjection.init_attrs; attrs).
  rewrite (attr_lookup _ "c2" (calc_compactness_from_lambda (Some l2)))
    by (unfold OneComponentBNSProjection.init_attrs; attrs).
  rewrite (attr_lookup _ "mass_1" (Some m1))
    by (unfold OneComponentBNSProjection.init_attrs; attrs).
  rewrite (attr_lookup _ "mass_2" (Some m2))
    by (unfold OneComponentBNSProjection.init_attrs; attrs).
  cbn [mbind result_bind].
  rewrite !calc_compactness_fin by done.
  pose proof (compactness_pos l1) as HC1. pose proof (compactness_pos l2) as HC2.
  set (C1 := Spec.compactness_from_tidal_deformability l1) in *.
  set (C2 := Spec.compactness_from_tidal_deformability l2) in *.
  rewrite !calc_baryonic_mass_fin by done.
  pose proof (baryonic_mass_pos m1 C1 Hp1) as Hb1.
  pose proof (baryonic_mass_pos m2 C2 Hp2) as Hb2.
  set (mb1 := Spec.baryonic_mass m1 C1) in *.
  set (mb2 := Spec.baryonic_mass m2 C2) in *.
  cbv zeta. unfold fin. rewrite !div_fin by lra.
  repeat float_step.
  num_norm.
  replace (1.0 / 3.0) with (1 / 3) by lra. replace 1.0 with 1 by lra.
  replace 2.0 with 2 by lra. replace 1000.0 with 1000 by lra.
  reflexivity.
Qed.

Lemma NSBH_ejecta_mass_float (mbh mns l risco : R) (chi : num) :
  1e-30 <= mbh <= 1e30 -> 1e-30 <= mns <= 1e30 -> 0 < l ->
  let C := Spec.compactness_from_tidal_deformability l in
  let mb := Spec.baryonic_mass mns C in
  let fit :=
    risco * Rpower (mbh / mns) 1.352 * -2.269e-3
    + Rpower (mbh / mns) 0.2497 * (1 - 2 * C) * 4.464e-2 / C
    + ((1 - mns / mb) * 2.431 + -0.4159) in
  EjectaRelationsPyFloat.OneComponentNSBH.calculate_ejecta_mass
    (setattr (OneComponentNSBH.init_attrs (Some mbh) (Some mns) chi (Some l))
             "risco" (VFloat (Some risco)))
  = Ok (Some (mb * Rmax fit 0)).
Proof.
  intros Hbh Hns Hl.
  pose proof (mass_pos mbh Hbh) as Hpbh. pose proof (mass_pos mns Hns) as Hpns.
  unfold EjectaRelationsPyFloat.OneComponentNSBH.calculate_ejecta_mass.
  rewrite (attr_lookup _ "lambda_ns" (Some l))
    by (unfold OneComponentNSBH.init_attrs; attrs).
  rewrite (attr_lookup _ "mass_ns" (Some mns))
    by (unfold OneComponentNSBH.init_attrs; attrs).
  rewrite (attr_lookup _ "risco" (Some risco))
    by (unfold OneComponentNSBH.init_attrs; attrs).
  rewrite (attr_lookup _ "mass_ratio" (Some mbh / Some mns)%num)
    by (unfold OneComponentNSBH.init_attrs; attrs).
  cbn [mbind result_bind].
  rewrite calc_compactness_fin by done.
  pose proof (compactness_pos l) as HC.
  set (C := Spec.compactness_from_tidal_deformability l) in *.
  rewrite calc_baryonic_mass_fin by done.
  pose proof (baryonic_mass_pos mns C Hpns) as Hb.
  set (mb := Spec.baryonic_mass mns C) in *.
  cbv zeta. unfold fin.
  rewrite (float_pow_mass_ratio mbh mns 1.352) by (done || lra).
  cbn [mbind result_bind].
  rewrite (float_pow_mass_ratio mbh mns 0.2497) by (done || lra).
  cbn [mbind result_bind].
  num_norm. reflexivity.
Qed.

(** C7, within the range of the floats: for masses between [1e-30] and
    [1e30] and positive tidal deformabilities the ejecta mass of
    [OneComponentBNSProjection] is the fit of lines 141-144, over the
    baryonic masses, clamped at zero and divided by 1000; that of
    [OneComponentNSBH], for a spin between -1 and 1 and the ISCO radius the
    class computes from it, is the fit of lines 231-233 clamped at zero and
    multiplied by the baryonic mass of the neutron star, which is positive.
    Both are real numbers and neither is negative. *)
Theorem ejecta_mass_nonnegative :
  (forall m1 m2 l1 l2 : R,
     1e-30 <= m1 <= 1e30 -> 1e-30 <= m2 <= 1e30 -> 0 < l1 -> 0 < l2 ->
     let C1 := Spec.compactness_from_tidal_deformability l1 in
     let C2 := Spec.compactness_from_tidal_deformability l2 in
     let mb1 := Spec.baryonic_mass m1 C1 in
     let mb2 := Spec.baryonic_mass m2 C2 in
     let fit :=
       (mb1 * Rpower (m2 / m1) (1 / 3) * (1 - 2 * C1) / C1
        + mb2 * Rpower (m1 / m2) (1 / 3) * (1 - 2 * C2) / C2) * -1.35695
       + (mb1 * Rpower (m2 / m1) (-2.5484) + mb2 * Rpower (m1 / m2) (-2.5484))
         * 6.11252
       + (mb1 * (1 - m1 / mb1) + mb2 * (1 - m2 / mb2)) * -49.43355
       + 16.1144 in
     EjectaRelationsPyFloat.OneComponentBNSProjection.calculate_ejecta_mass
       (OneComponentBNSProjection.init_attrs (Some m1) (Some m2) (Some l1) (Some l2))
     = Ok (Some (Rmax fit 0 / 1000))
     /\ 0 <= Rmax fit 0 / 1000)
  /\ (forall mbh mns chi l : R,
        1e-30 <= mbh <= 1e30 -> 1e-30 <= mns <= 1e30 -> -1 <= chi <= 1 -> 0 < l ->
        let self := OneComponentNSBH.init_attrs (Some mbh) (Some mns) (Some chi)
                      (Some l) in
        let risco := Spec.bpt_isco_radius chi in
        let C := Spec.compactness_from_tidal_deformability l in
        let mb := Spec.baryonic_mass mns C in
        let fit :=
          risco * Rpower (mbh / mns) 1.352 * -2.269e-3
          + Rpower (mbh / mns) 0.2497 * (1 - 2 * C) * 4.464e-2 / C
          + ((1 - mns / mb) * 2.431 + -0.4159) in
        OneComponentNSBH.isco_radius self = Ok (Some risco)
        /\ EjectaRelationsPyFloat.OneComponentNSBH.calculate_ejecta_mass
             (setattr self "risco" (VFloat (Some risco)))
           = Ok (Some (mb * Rmax fit 0))
        /\ 0 < mb /\ 0 <= mb * Rmax fit 0).
Proof.
  split.
  - intros m1 m2 l1 l2 Hm1 Hm2 Hl1 Hl2 C1 C2 mb1 mb2 fit.
    split; [by apply BNSProjection_ejecta_mass_float |].
    pose proof (Rmax_r fit 0). lra.
  - intros mbh mns chi l Hbh Hns Hchi Hl self risco C mb fit.
    pose proof (baryonic_mass_pos mns C (mass_pos mns Hns)) as Hmb. fold mb in Hmb.
    split; [| split; [| split]].
    + apply isco_radius_fin; [done |].
      unfold self, OneComponentNSBH.init_attrs. attrs.
    + by apply NSBH_ejecta_mass_float.
    + exact Hmb.
    + pose proof (Rmax_r fit 0). nra.
Qed.

Lemma ejecta_mass_nonnegative_witness :
  (exists mej : R,
     EjectaRelationsPyFloat.OneComponentBNSProjection.calculate_ejecta_mass
       (OneComponentBNSProjection.init_attrs (Some 1.4) (Some 1.3) (Some 400) (Some 450))
     = Ok (Some mej)
     /\ 0 <= mej)
  /\ (exists mej : R,
        OneComponentNSBH.isco_radius
          (OneComponentNSBH.init_attrs (Some 5) (Some 1.4) (Some 0) (Some 400))
        = Ok (Some (Spec.bpt_isco_radius 0))
        /\ EjectaRelationsPyFloat.OneComponentNSBH.calculate_ejecta_mass
             (setattr (OneComponentNSBH.init_attrs (Some 5) (Some 1.4) (Some 0)
                         (Some 400))
                      "risco" (VFloat (Some (Spec.bpt_isco_radius 0))))
           = Ok (Some mej)
        /\ 0 <= mej).
Proof.
  destruct ejecta_mass_nonnegative as [Hbns Hnsbh].
  split.
  - pose proof (Hbns 1.4 1.3 400 450) as H. cbv zeta in H.
    destruct H as [H1 H2]; [lra | lra | lra | lra |].
    eexists. split; [exact H1 | exact H2].
  - pose proof (Hnsbh 5 1.4 0 400) as H. cbv zeta in H.
    destruct H as (H1 & H2 & _ & H3); [lra | lra | lra | lra |].
    eexists. split; [exact H1 |]. split; [exact H2 | exact H3].
Defined.

(** *** The floats against the idealised numbers

    Where an operation of [PyFloat] raises nothing, it gives the number of
    the idealised operation; so do the two getters over them. *)

Lemma float_truediv_ok (x y q : num) :
  PyFloat.float_truediv x y = Ok q -> (x / y)%num = q.
Proof.
  unfold PyFloat.float_truediv, div.
  destruct x as [a |], y as [b |]; try (by intros [= <-]).
  destruct (Req_dec_T b 0); [discriminate | by intros [= <-]].
Qed.

Lemma float_pow_ok (x y r : num) :
  PyFloat.float_pow x y = Ok r -> (x ** y)%num = r.
Proof.
  unfold PyFloat.float_pow, pow.
  destruct x as [a |], y as [b |]; try (by intros [= <-]).
  destruct (Req_dec_T a 0).
  - destruct (Rlt_dec b 0); [discriminate | by intros [= <-]].
  - destruct (Rpow a b) as [v |]; [| by intros [= <-]].
    destruct (Rle_dec (Rabs v) PyFloat.max_float); [by intros [= <-] | discriminate].
Qed.

Ltac float_ok :=
  repeat match goal with
    | H : PyFloat.float_truediv _ _ = Ok _ |- _ => apply float_truediv_ok in H; subst
    | H : PyFloat.float_pow _ _ = Ok _ |- _ => apply float_pow_ok in H; subst
    end.

Ltac step_bind :=
  match goal with
  | |- (?m ≫= _) = _ -> _ =>
      destruct m eqn:?; cbn [mbind result_bind]; [| intros [=]]
  end.

Lemma BNSProjection_ejecta_mass_refines (self : object) (mej : num) :
  EjectaRelationsPyFloat.OneComponentBNSProjection.calculate_ejecta_mass self = Ok mej ->
  OneComponentBNSProjection.calculate_ejecta_mass self = Ok mej.
Proof.
  unfold EjectaRelationsPyFloat.OneComponentBNSProjection.calculate_ejecta_mass,
    OneComponentBNSProjection.calculate_ejecta_mass.
  cbv zeta. do 4 step_bind. repeat step_bind.
  float_ok. done.
Qed.

Lemma NSBH_ejecta_mass_refines (self : object) (mej : num) :
  EjectaRelationsPyFloat.OneComponentNSBH.calculate_ejecta_mass self = Ok mej ->
  OneComponentNSBH.calculate_ejecta_mass self = Ok mej.
Proof.
  unfold EjectaRelationsPyFloat.OneComponentNSBH.calculate_ejecta_mass,
    OneComponentNSBH.calculate_ejecta_mass.
  cbv zeta. repeat step_bind.
  float_ok. done.
Qed.

(** *** A mass ratio outside the range of the floats *)

Lemma lit_1e200 : 1e-200 = / 10 ^ 200.
Proof. lra. Qed.

(** At masses 1.4 and [1e-200] the power [(mass_2 / mass_1) ** n] of line
    142 is above [10^400]. *)
Lemma ratio_power_overflows : PyFloat.max_float < Rpower (1e-200 / 1.4) (-2.5484).
Proof.
  rewrite lit_1e200.
  pose proof (pow10_pos 200) as H200. pose proof (pow10_ge_1 200) as H200'.
  assert (Hq : 0 < / 10 ^ 200 / 1.4).
  { apply Rdiv_lt_0_compat; [by apply Rinv_0_lt_compat | lra]. }
  replace (-2.5484) with (Ropp 2.5484) by lra.
  rewrite <- Rpower_inv_base by done.
  replace (/ (/ 10 ^ 200 / 1.4)) with (1.4 * 10 ^ 200)
    by (field; lra).
  apply Rlt_le_trans with (10 ^ 400).
  { apply Rlt_trans with (10 ^ 342); [apply max_float_upper |].
    apply Rlt_pow; [lra | lia]. }
  transitivity (Rpower (10 ^ 200) 2).
  { replace 2 with (INR 2) by (simpl; lra). rewrite Rpower_pow by done.
    rewrite <- pow_mult. apply Rle_pow; [lra | lia]. }
  transitivity (Rpower (1.4 * 10 ^ 200) 2).
  { apply Rle_Rpower_l; lra. }
  apply Rle_Rpower; lra.
Qed.

Lemma ratio_third_in_range (a b : R) :
  / 10 ^ 201 <= a / b <= 10 ^ 201 ->
  PyFloat.float_pow (Some (a / b)) (Some (1.0 / 3.0))
  = Ok (Some (Rpower (a / b) (1.0 / 3.0))).
Proof.
  intros Hq.
  assert (Hpos : 0 < a / b).
  { pose proof (Rinv_0_lt_compat _ (pow10_pos 201)). lra. }
  apply float_pow_in_range; [done |].
  transitivity (10 ^ 300); [| apply max_float_lower].
  transitivity (10 ^ (1 * 201)).
  - apply Rpower_le_pow; [lra | done |].
    replace (INR 1) with 1 by (simpl; lra). apply Rabs_le. lra.
  - apply Rle_pow; [lra | lia].
Qed.

(** C7, as stated, fails: masses 1.4 and [1e-200] and tidal deformabilities
    400 and 450 are positive, the two cube roots of line 141 are computed,
    and the power [(mass_2 / mass_1) ** n] of line 142 leaves the range of the
    floats: the getter raises [OverflowError] and there is no ejecta mass. *)
Lemma ejecta_mass_overflows :
  EjectaRelationsPyFloat.OneComponentBNSProjection.calculate_ejecta_mass
    (OneComponentBNSProjection.init_attrs (Some 1.4) (Some 1e-200) (Some 400)
       (Some 450))
  = Err (OverflowError "(34, 'Numerical result out of range')").
Proof.
  unfold EjectaRelationsPyFloat.OneComponentBNSProjection.calculate_ejecta_mass.
  rewrite (attr_lookup _ "c1" (calc_compactness_from_lambda (Some 400)))
    by (unfold OneComponentBNSProjection.init_attrs; attrs).
  rewrite (attr_lookup _ "c2" (calc_compactness_from_lambda (Some 450)))
    by (unfold OneComponentBNSProjection.init_attrs; attrs).
  rewrite (attr_lookup _ "mass_1" (Some 1.4))
    by (unfold OneComponentBNSProjection.init_attrs; attrs).
  rewrite (attr_lookup _ "mass_2" (Some 1e-200))
    by (unfold OneComponentBNSProjection.init_attrs; attrs).
  cbn [mbind result_bind]. cbv zeta. unfold fin. rewrite !div_fin by lra.
  pose proof (pow10_pos 200) as H200. pose proof (pow10_ge_1 200) as H200'.
  pose proof (Rinv_0_lt_compat _ H200) as Hi200.
  assert (H201 : 10 ^ 201 = 10 * 10 ^ 200) by reflexivity.
  assert (Hi201 : / 10 ^ 201 = / 10 * / 10 ^ 200).
  { rewrite H201. rewrite Rinv_mult. reflexivity. }
  assert (Hne : 1e-200 <> 0) by (rewrite lit_1e200; lra).
  rewrite (float_truediv_fin 1e-200 1.4) by lra. cbn [mbind result_bind].
  rewrite ratio_third_in_range.
  2:{ rewrite lit_1e200, Hi201, H201. unfold Rdiv. split; nra. }
  cbn [mbind result_bind].
  rewrite (float_truediv_fin 1.4 1e-200) by done. cbn [mbind result_bind].
  rewrite ratio_third_in_range.
  2:{ rewrite lit_1e200, Hi201, H201. unfold Rdiv. rewrite Rinv_inv. split; nra. }
  cbn [mbind result_bind].
  rewrite (float_pow_overflow (1e-200 / 1.4) (-2.5484)); [reflexivity | |].
  - rewrite lit_1e200. apply Rdiv_lt_0_compat; lra.
  - apply ratio_power_overflows.
Qed.

(** *** The constructors *)

(** The getters run without raising on the attributes [__init__] has set. *)

Lemma NoProjection_ejecta_mass_returns (m1 m2 l1 l2 : num) :
  exists x : num,
    OneComponentBNSNoProjection.calculate_ejecta_mass
      (OneComponentBNSNoProjection.init_attrs m1 m2 l1 l2) = Ok x.
Proof.
  unfold OneComponentBNSNoProjection.calculate_ejecta_mass.
  rewrite (attr_lookup _ "c1" (calc_compactness_from_lambda l1))
    by (unfold OneComponentBNSNoProjection.init_attrs; attrs).
  rewrite (attr_lookup _ "c2" (calc_compactness_from_lambda l2))
    by (unfold OneComponentBNSNoProjection.init_attrs; attrs).
  rewrite (attr_lookup _ "mass_1" m1)
    by (unfold OneComponentBNSNoProjection.init_attrs; attrs).
  rewrite (attr_lookup _ "mass_2" m2)
    by (unfold OneComponentBNSNoProjection.init_attrs; attrs).
  eexists. reflexivity.
Qed.

Lemma Projection_ejecta_mass_returns (m1 m2 l1 l2 : num) :
  exists x : num,
    OneComponentBNSProjection.calculate_ejecta_mass
      (OneComponentBNSProjection.init_attrs m1 m2 l1 l2) = Ok x.
Proof.
  unfold OneComponentBNSProjection.calculate_ejecta_mass.
  rewrite (attr_lookup _ "c1" (calc_compactness_from_lambda l1))
    by (unfold OneComponentBNSProjection.init_attrs; attrs).
  rewrite (attr_lookup _ "c2" (calc_compactness_from_lambda l2))
    by (unfold OneComponentBNSProjection.init_attrs; attrs).
  rewrite (attr_lookup _ "mass_1" m1)
    by (unfold OneComponentBNSProjection.init_attrs; attrs).
  rewrite (attr_lookup _ "mass_2" m2)
    by (unfold OneComponentBNSProjection.init_attrs; attrs).
  eexists. reflexivity.
Qed.

Lemma NSBH_isco_radius_returns (mbh mns chi l : num) :
  exists x : num,
    OneComponentNSBH.isco_radius (OneComponentNSBH.init_attrs mbh mns chi l) = Ok x.
Proof.
  unfold OneComponentNSBH.isco_radius.
  rewrite (attr_lookup _ "chi_eff" chi)
    by (unfold OneComponentNSBH.init_attrs; attrs).
  eexists. reflexivity.
Qed.

(** A property that is then called: the getter's number is not callable. *)
Lemma call_property (fget : object -> result num) (self : object) (x : num) :
  fget self = Ok x ->
  (f ← property_get fget self; call f)
  = Err (TypeError "object is not callable").
Proof. intros H. unfold property_get. rewrite H. reflexivity. Qed.

(** A plain method that is then called gives what the method returns. *)
Lemma call_method (f : object -> result num) (self : object) :
  (m ← method_get f self; call m) = (x ← f self; Ok (VFloat x)).
Proof. reflexivity. Qed.

(** C1, as the code has it: for non-zero masses, valid or not, the first
    [self.<property>()] of each constructor raises [TypeError]; no instance of
    the three classes is ever completed.  (A zero mass is left out because a
    division of Python floats by zero raises before that.) *)
Theorem constructors_raise_TypeError :
  (forall mass_1 mass_2 lambda_1 lambda_2 : num,
     mass_1 <> Some 0 -> mass_2 <> Some 0 ->
     OneComponentBNSNoProjection.__init__ mass_1 mass_2 lambda_1 lambda_2
     = Err (TypeError "object is not callable")
     /\ OneComponentBNSProjection.__init__ mass_1 mass_2 lambda_1 lambda_2
        = Err (TypeError "object is not callable"))
  /\ (forall mass_bh mass_ns chi_eff lambda_ns : num,
        mass_ns <> Some 0 ->
        OneComponentNSBH.__init__ mass_bh mass_ns chi_eff lambda_ns
        = Err (TypeError "object is not callable")).
Proof.
  split.
  - intros a b c d _ _. split.
    + destruct (NoProjection_ejecta_mass_returns a b c d) as [x Hx].
      unfold OneComponentBNSNoProjection.__init__, property_get.
      cbv zeta. rewrite Hx. reflexivity.
    + destruct (Projection_ejecta_mass_returns a b c d) as [x Hx].
      unfold OneComponentBNSProjection.__init__, property_get.
      cbv zeta. rewrite Hx. reflexivity.
  - intros a b c d _.
    destruct (NSBH_isco_radius_returns a b c d) as [x Hx].
    unfold OneComponentNSBH.__init__, property_get.
    cbv zeta. rewrite Hx. reflexivity.
Qed.

Lemma constructors_raise_TypeError_witness :
  OneComponentBNSNoProjection.__init__ (Some 1.4) (Some 1.3) (Some 400) (Some 450)
  = Err (TypeError "object is not callable")
  /\ OneComponentBNSProjection.__init__ (Some 1.4) (Some 1.3) (Some 400) (Some 450)
     = Err (TypeError "object is not callable")
  /\ OneComponentNSBH.__init__ (Some 5) (Some 1.4) (Some 0) (Some 400)
     = Err (TypeError "object is not callable").
Proof.
  destruct constructors_raise_TypeError as [Hbns Hnsbh].
  assert (H14 : Some 1.4 <> Some 0) by (intros H; injection H as H; lra).
  assert (H13 : Some 1.3 <> Some 0) by (intros H; injection H as H; lra).
  destruct (Hbns (Some 1.4) (Some 1.3) (Some 400) (Some 450) H14 H13) as [H1 H2].
  split; [exact H1 |]. split; [exact H2 |].
  by apply Hnsbh.
Defined.

(** *** Geometry of the two binary-neutron-star variants *)

Lemma phej_fin (q : R) : (4.0 * Some q * pi / 2.0)%num = Some (2 * PI * q).
Proof.
  unfold pi, fin. autorewrite with num. rewrite div_fin by lra.
  apply f_equal. lra.
Qed.

(** C10: on the same arguments both variants store the same [vrho] and [vz]
    (those of [calc_vrho] and [calc_vz]); their [calculate_qej] are the same
    function of the instance; and in both the azimuthal opening angle of a
    finite polar angle [q] is [2 PI q]. *)
Theorem projection_choice_leaves_geometry :
  forall m1 m2 l1 l2 : num,
    let a := OneComponentBNSNoProjection.init_attrs m1 m2 l1 l2 in
    let b := OneComponentBNSProjection.init_attrs m1 m2 l1 l2 in
    (a !! "vrho" = Some (VFloat (calc_vrho m1 m2 l1 l2))
     /\ b !! "vrho" = a !! "vrho")
    /\ (a !! "vz" = Some (VFloat (calc_vz m1 m2 l1 l2))
        /\ b !! "vz" = a !! "vz")
    /\ (forall self : object,
          OneComponentBNSNoProjection.calculate_qej self
          = OneComponentBNSProjection.calculate_qej self)
    /\ OneComponentBNSNoProjection.calculate_qej a
       = OneComponentBNSProjection.calculate_qej b
    /\ (forall (self : object) (q : R),
          let self' := setattr self "qej" (VFloat (Some q)) in
          OneComponentBNSNoProjection.calculate_phej self' = Ok (Some (2 * PI * q))
          /\ OneComponentBNSProjection.calculate_phej self' = Ok (Some (2 * PI * q))).
Proof.
  intros m1 m2 l1 l2 a b.
  assert (Hab : b = a) by reflexivity.
  split; [| split; [| split; [| split]]].
  - split; [| by rewrite Hab].
    unfold a, OneComponentBNSNoProjection.init_attrs. attrs.
  - split; [| by rewrite Hab].
    unfold a, OneComponentBNSNoProjection.init_attrs. attrs.
  - intros self. reflexivity.
  - rewrite Hab. reflexivity.
  - intros self q self'.
    assert (Hq : attr self' "qej" = Ok (Some q)).
    { apply attr_lookup. unfold self'. attrs. }
    unfold OneComponentBNSNoProjection.calculate_phej,
      OneComponentBNSProjection.calculate_phej.
    rewrite Hq. cbn [mbind result_bind]. rewrite phej_fin. done.
Qed.

End EjectaFacts.

(** ** Fit orchestration *)

Module SamplerFacts.

Import World PyLib Sampler.
Open Scope world_scope.

Section Environment.

Variable dirname : string.
Variable all_models_dict : gmap string Model.
Variable sampling : run_sampler_args -> PriorDict -> result float.

(** The sampler touches neither the directories nor the prior dictionaries. *)
Lemma run_sampler_frame lik priors label sampler nlive outdir walks resume maxmcmc
  meta save kwargs (w : world) :
  let w' := (run_sampler sampling lik priors label sampler nlive outdir walks resume
               maxmcmc meta save kwargs w).2 in
  heap w' = heap w /\ dirs w' = dirs w /\ prior_files w' = prior_files w.
Proof.
  unfold run_sampler. cbv zeta.
  repeat case_match; simpl; auto.
Qed.

(** A run of the sampler is recorded with the prior dictionary it was given. *)
Lemma run_sampler_runs lik priors label sampler nlive outdir walks resume maxmcmc
  meta save kwargs (w : world) :
  let w' := (run_sampler sampling lik priors label sampler nlive outdir walks resume
               maxmcmc meta save kwargs w).2 in
  sampler_runs w' = sampler_runs w
  \/ exists a l pd, priors = Some l /\ heap w !! l = Some pd
                    /\ sampler_runs w' = sampler_runs w ++ [(a, pd)].
Proof.
  unfold run_sampler. cbv zeta.
  repeat case_match; simpl; eauto 8.
Qed.

Lemma fit_grb_heap name transient model outdir sampler nlive p walks data_mode resume
  save_format model_kwargs kwargs (w : world) :
  let w' := (_fit_grb sampling name transient model outdir sampler nlive (Some p) walks
               true data_mode resume save_format model_kwargs kwargs w).2 in
  let f := alter (insert "alpha_1"
             (if (photon_index transient <? 0)%float
              then Uniform (-10) (-0.5) (Some "alpha_1") (Some "$\alpha_{1}$")
              else Gaussian (- (photon_index transient + 1)) 0.1 None
                     (Some "$\alpha_{1}$"))) p in
  heap w' = f (heap w)
  /\ prior_files w' = prior_files w
  /\ (sampler_runs w' = sampler_runs w
      \/ exists a pd, f (heap w) !! p = Some pd
                      /\ sampler_runs w' = sampler_runs w ++ [(a, pd)]).
Proof.
  cbv zeta. unfold _fit_grb.
  destruct (if flux_density_data transient || photometry_data transient
            then get_filtered_data transient
            else (x transient, x_err transient, y transient, y_err transient))
    as [[[dx dxe] dy] dye].
  destruct (photon_index transient <? 0)%float;
    unfold bind, prior_setitem, logger_info, Path_mkdir_parents_exist_ok, modify, ret;
    simpl;
    match goal with
    | |- context [run_sampler ?s ?a ?b ?c ?d ?e ?f ?g ?h ?i ?j ?k ?l ?w] =>
        pose proof (run_sampler_frame a b c d e f g h i j k l w) as (Hh & _ & Hp);
        pose proof (run_sampler_runs a b c d e f g h i j k l w) as Hr;
        destruct (run_sampler s a b c d e f g h i j k l w) as [[r | e'] w2];
        simpl in *; rewrite Hh, Hp; (split; [reflexivity |]); (split; [reflexivity |]);
        (destruct Hr as [Hr | (a' & l' & pd & Hl & Hpd & Hr)];
         [by left | right; simplify_eq; eauto])
    end.
Qed.

(** X3: without [use_photon_index_prior] a GRB fit leaves every prior dictionary
    as it was. *)
Theorem fit_grb_keeps_prior :
  forall name transient model outdir sampler nlive prior walks data_mode resume
         save_format model_kwargs kwargs (w : world),
    heap (_fit_grb sampling name transient model outdir sampler nlive prior walks
            false data_mode resume save_format model_kwargs kwargs w).2
    = heap w.
Proof.
  intros name transient model outdir sampler nlive prior walks data_mode resume
    save_format model_kwargs kwargs w.
  unfold _fit_grb.
  destruct (if flux_density_data transient || photometry_data transient
            then get_filtered_data transient
            else (x transient, x_err transient, y transient, y_err transient))
    as [[[dx dxe] dy] dye].
  unfold bind, Path_mkdir_parents_exist_ok, modify, ret; simpl.
  match goal with
  | |- context [run_sampler ?s ?a ?b ?c ?d ?e ?f ?g ?h ?i ?j ?k ?l ?w] =>
      pose proof (run_sampler_frame a b c d e f g h i j k l w) as (Hh & _ & _);
      destruct (run_sampler s a b c d e f g h i j k l w) as [[r | e'] w2];
      simpl in *; by rewrite Hh
  end.
Qed.

(** C3: a GRB fit with [use_photon_index_prior] set replaces the prior on
    [alpha_1] in the dictionary it was passed: by Uniform(-10, -0.5) when the
    photon index is below zero, by Gaussian(mu = -(photon_index + 1),
    sigma = 0.1) otherwise, so by Gaussian(-2.5, 0.1) for photon index 1.5.
    The other entries of that dictionary, every other dictionary and the prior
    files stay as they were, and a sampler run that follows is given the
    dictionary with the replaced prior. *)
Theorem fit_grb_photon_index_prior :
  forall name transient model outdir sampler nlive (p : loc) walks data_mode resume
         save_format model_kwargs kwargs (w : world) (d : PriorDict),
    heap w !! p = Some d ->
    let w' := (_fit_grb sampling name transient model outdir sampler nlive (Some p)
                 walks true data_mode resume save_format model_kwargs kwargs w).2 in
    ((photon_index transient <? 0)%float = true ->
       heap w' !! p
       = Some (<["alpha_1" := Uniform (-10) (-0.5) (Some "alpha_1")
                                (Some "$\alpha_{1}$")]> d))
    /\ ((photon_index transient <? 0)%float = false ->
          heap w' !! p
          = Some (<["alpha_1" := Gaussian (- (photon_index transient + 1)) 0.1 None
                                   (Some "$\alpha_{1}$")]> d))
    /\ (photon_index transient = 1.5%float ->
          heap w' !! p
          = Some (<["alpha_1" := Gaussian (-2.5) 0.1 None (Some "$\alpha_{1}$")]> d))
    /\ (forall q : loc, q <> p -> heap w' !! q = heap w !! q)
    /\ (forall (k : string) (d' : PriorDict),
          k <> "alpha_1" -> heap w' !! p = Some d' -> d' !! k = d !! k)
    /\ prior_files w' = prior_files w
    /\ (forall a pd,
          sampler_runs w' = sampler_runs w ++ [(a, pd)] -> heap w' !! p = Some pd).
Proof.
  intros name transient model outdir sampler nlive p walks data_mode resume
    save_format model_kwargs kwargs w d Hd w'.
  destruct (fit_grb_heap name transient model outdir sampler nlive p walks data_mode
              resume save_format model_kwargs kwargs w) as (Hheap & Hfiles & Hruns).
  fold w' in Hheap, Hfiles, Hruns.
  assert (Hp : forall pr, alter (insert "alpha_1" pr) p (heap w) !! p
                          = Some (<["alpha_1" := pr]> d)).
  { intros pr. by rewrite lookup_alter_eq, Hd. }
  split; [| split; [| split; [| split; [| split; [| split]]]]].
  - intros Hneg. rewrite Hheap, Hneg. apply Hp.
  - intros Hpos. rewrite Hheap, Hpos. apply Hp.
  - intros H15. rewrite Hheap, H15. apply Hp.
  - intros q Hq. rewrite Hheap. by apply lookup_alter_ne.
  - intros k d' Hk Hd'. rewrite Hheap, Hp in Hd'. injection Hd' as <-.
    by apply lookup_insert_ne.
  - exact Hfiles.
  - intros a pd Happ. destruct Hruns as [Hsame | (a' & pd' & Hpd' & Hruns)].
    + rewrite Hsame in Happ. apply (f_equal length) in Happ.
      rewrite length_app in Happ. simpl in Happ. lia.
    + rewrite Hruns in Happ. apply app_inj_tail in Happ as [_ Heq].
      injection Heq as -> ->. by rewrite Hheap.
Qed.

End Environment.

Lemma fit_grb_photon_index_prior_witness :
  heap (_fit_grb Examples.sampling "140903A" Examples.grb Examples.tophat "."
          "dynesty" 2000 (Some 1%positive) 200 true "flux" true "json" None ∅
          Examples.fresh_world).2 !! 1%positive
  = Some (<["alpha_1" := Gaussian (-2.5) 0.1 None (Some "$\alpha_{1}$")]> ∅).
Proof.
  apply (fit_grb_photon_index_prior Examples.sampling "140903A" Examples.grb
           Examples.tophat "." "dynesty" 2000 1%positive 200 "flux" true "json"
           None ∅ Examples.fresh_world ∅).
  - reflexivity.
  - reflexivity.
Defined.

End SamplerFacts.

(** ** Dispatch on the kind of transient *)

Module DispatchFacts.

Import World PyLib Sampler.
Open Scope world_scope.

Section Environment.

Variable dirname : string.
Variable all_models_dict : gmap string Model.
Variable sampling : run_sampler_args -> PriorDict -> result float.

Lemma recognized_false (t : Transient) :
  recognized t = false ->
  isinstance t "Afterglow" = false /\ isinstance t "Kilonova" = false
  /\ isinstance t "PromptTimeSeries" = false /\ isinstance t "Supernova" = false
  /\ isinstance t "TDE" = false.
Proof.
  unfold recognized. rewrite !orb_false_iff. tauto.
Qed.

Lemma fit_model_unsupported_fails name t model outdir sampler nlive prior walks truncate
  flag truncate_method data_mode resume save_format model_kwargs kwargs (w : world) :
  recognized t = false ->
  let out := fit_model dirname all_models_dict sampling name t model outdir sampler
               nlive prior walks truncate flag truncate_method data_mode resume
               save_format model_kwargs kwargs w in
  (exists e, out.1 = Err e)
  /\ dirs out.2 = dirs w /\ result_files out.2 = result_files w
  /\ sampler_runs out.2 = sampler_runs w.
Proof.
  intros Hrec. apply recognized_false in Hrec as (H1 & H2 & H3 & H4 & H5).
  cbv zeta. unfold fit_model, bind, PriorDict_from_file, ret, raise.
  rewrite H1, H2, H3, H4, H5.
  destruct model as [s | m]; [destruct (all_models_dict !! s) as [m |] |];
    simpl; try (by eauto 6);
    (destruct prior; [| destruct (prior_files w !! _)]); simpl; eauto 6.
Qed.

Lemma fit_model_unsupported_error name t model m outdir sampler nlive p walks truncate
  flag truncate_method data_mode resume save_format model_kwargs kwargs (w : world) :
  recognized t = false ->
  model = ModelFunction m
  \/ (exists s, model = ModelName s /\ all_models_dict !! s = Some m) ->
  fit_model dirname all_models_dict sampling name t model outdir sampler
    nlive (Some p) walks truncate flag truncate_method data_mode resume
    save_format model_kwargs kwargs w
  = (Err (ValueError ("Source type " +:+ class_name t +:+ " not known")), w).
Proof.
  intros Hrec Hm. apply recognized_false in Hrec as (H1 & H2 & H3 & H4 & H5).
  unfold fit_model, bind, ret, raise.
  rewrite H1, H2, H3, H4, H5.
  destruct Hm as [-> | (s & -> & Hs)]; [| rewrite Hs]; reflexivity.
Qed.

Lemma fit_model_unsupported_error_default_prior name t model m outdir sampler nlive
  walks truncate flag truncate_method data_mode resume save_format model_kwargs kwargs
  (w : world) (d : PriorDict) :
  recognized t = false ->
  model = ModelFunction m
  \/ (exists s, model = ModelName s /\ all_models_dict !! s = Some m) ->
  prior_files w !! (dirname +:+ "/Priors/" +:+ model_repr m +:+ ".prior") = Some d ->
  (fit_model dirname all_models_dict sampling name t model outdir sampler
     nlive None walks truncate flag truncate_method data_mode resume
     save_format model_kwargs kwargs w).1
  = Err (ValueError ("Source type " +:+ class_name t +:+ " not known")).
Proof.
  intros Hrec Hm Hd. apply recognized_false in Hrec as (H1 & H2 & H3 & H4 & H5).
  unfold fit_model, bind, ret, raise, PriorDict_from_file.
  rewrite H1, H2, H3, H4, H5.
  destruct Hm as [-> | (s & -> & Hs)]; [| rewrite Hs]; by rewrite Hd.
Qed.

(** The GRB fit path: an afterglow is handed to [_fit_grb], with the two
    truncation arguments among the keyword arguments. *)
Lemma fit_model_afterglow name t m outdir sampler nlive p walks truncate flag
  truncate_method data_mode resume save_format model_kwargs kwargs (w : world) :
  isinstance t "Afterglow" = true ->
  fit_model dirname all_models_dict sampling name t (ModelFunction m) outdir sampler
    nlive (Some p) walks truncate flag truncate_method data_mode resume
    save_format model_kwargs kwargs w
  = (r <- _fit_grb sampling name t m outdir sampler nlive (Some p) walks flag
            data_mode resume save_format model_kwargs
            (<["truncate_method" := KwStr truncate_method]>
               (<["truncate" := KwBool truncate]> kwargs));;
     ret (Some r)) w.
Proof.
  intros Hgrb. unfold fit_model, bind at 1 2, ret at 1 2. by rewrite Hgrb.
Qed.

(** X2: a supernova or a tidal disruption event is recognized, and nothing is
    fitted: [None] comes back and the world is as it was. *)
Theorem fit_model_supernova_tde :
  forall name t m outdir sampler nlive p walks truncate flag truncate_method
         data_mode resume save_format model_kwargs kwargs (w : world),
    isinstance t "Afterglow" = false -> isinstance t "Kilonova" = false ->
    isinstance t "PromptTimeSeries" = false ->
    isinstance t "Supernova" = true \/ isinstance t "TDE" = true ->
    fit_model dirname all_models_dict sampling name t (ModelFunction m) outdir
      sampler nlive (Some p) walks truncate flag truncate_method data_mode resume
      save_format model_kwargs kwargs w
    = (Ok None, w).
Proof.
  intros name t m outdir sampler nlive p walks truncate flag truncate_method
    data_mode resume save_format model_kwargs kwargs w H1 H2 H3 H45.
  unfold fit_model, bind, ret, _fit_supernova, _fit_tde.
  rewrite H1, H2, H3. simpl.
  destruct (isinstance t "Supernova"); [reflexivity |].
  destruct H45 as [? | ->]; [discriminate | reflexivity].
Qed.

(** C4, as the code has it: for a transient of none of the five kinds
    [fit_model] always fails, and it does so before any directory is made, any
    result is written or the sampler is run.  When the model is given or its
    name is registered, and a prior is passed in or the default prior file
    loads, the failure is the [ValueError] "Source type ... not known" of the
    dispatch; with a prior passed in the world is left exactly as it was. *)
Theorem fit_model_unsupported_transient :
  forall name t model outdir sampler nlive prior walks truncate flag truncate_method
         data_mode resume save_format model_kwargs kwargs (w : world),
    recognized t = false ->
    let out := fit_model dirname all_models_dict sampling name t model outdir sampler
                 nlive prior walks truncate flag truncate_method data_mode resume
                 save_format model_kwargs kwargs w in
    let unsupported :=
      ValueError ("Source type " +:+ class_name t +:+ " not known") in
    ((exists e, out.1 = Err e)
     /\ dirs out.2 = dirs w /\ result_files out.2 = result_files w
     /\ sampler_runs out.2 = sampler_runs w)
    /\ (forall m,
          model = ModelFunction m
          \/ (exists s, model = ModelName s /\ all_models_dict !! s = Some m) ->
          (forall p, prior = Some p -> out = (Err unsupported, w))
          /\ (forall d,
                prior = None ->
                prior_files w !! (dirname +:+ "/Priors/" +:+ model_repr m +:+ ".prior")
                = Some d ->
                out.1 = Err unsupported)).
Proof.
  intros name t model outdir sampler nlive prior walks truncate flag truncate_method
    data_mode resume save_format model_kwargs kwargs w Hrec out unsupported.
  split.
  - by apply fit_model_unsupported_fails.
  - intros m Hm. split.
    + intros p ->. unfold out. by apply fit_model_unsupported_error with (m := m).
    + intros d -> Hd. unfold out.
      by apply fit_model_unsupported_error_default_prior with (m := m) (d := d).
Qed.

End Environment.

Lemma fit_model_unsupported_transient_witness :
  fit_model "/redback" Examples.registry Examples.sampling "J0437" Examples.pulsar
    (ModelName "tophat") "." "dynesty" 2000 (Some 1%positive) 200 true false
    "prompt_time_error" "flux" true "json" None ∅ Examples.fresh_world
  = (Err (ValueError "Source type Pulsar not known"), Examples.fresh_world).
Proof.
  destruct (fit_model_unsupported_transient "/redback" Examples.registry
              Examples.sampling "J0437" Examples.pulsar (ModelName "tophat") "."
              "dynesty" 2000 (Some 1%positive) 200 true false "prompt_time_error"
              "flux" true "json" None ∅ Examples.fresh_world eq_refl) as [_ Herr].
  destruct (Herr Examples.tophat) as [Hgiven _].
  - right. exists "tophat". split; reflexivity.
  - apply (Hgiven 1%positive). reflexivity.
Defined.

Lemma fit_model_supernova_tde_witness :
  fit_model "/redback" Examples.registry Examples.sampling "SN1987A"
    Examples.supernova (ModelFunction Examples.tophat) "." "dynesty" 2000
    (Some 1%positive) 200 true false "prompt_time_error" "flux" true "json" None ∅
    Examples.fresh_world
  = (Ok None, Examples.fresh_world).
Proof.
  apply fit_model_supernova_tde.
  - reflexivity.
  - reflexivity.
  - reflexivity.
  - left. reflexivity.
Defined.

(** C4, as stated, fails: with a model name that is not registered the
    failure of an unrecognized transient is the [KeyError] of the model
    lookup, not the error of the dispatch. *)
Lemma fit_model_unknown_model_first :
  recognized Examples.pulsar = false
  /\ (fit_model "/redback" Examples.registry Examples.sampling "J0437"
        Examples.pulsar (ModelName "no_such_model") "." "dynesty" 2000
        (Some 1%positive) 200 true false "prompt_time_error" "flux" true "json"
        None ∅ Examples.fresh_world).1
     = Err (KeyError "no_such_model").
Proof.
  split.
  - reflexivity.
  - reflexivity.
Qed.

End DispatchFacts.

(** ** Binary64 facts for the Bayes factor *)

Module FloatFacts.

Lemma Prim2SF_zero : Prim2SF 0%float = S754_zero false.
Proof. reflexivity. Qed.

Lemma Prim2SF_infinity : Prim2SF infinity = S754_infinity false.
Proof. reflexivity. Qed.

(** [x - x] is [+0.0] for every finite binary64 number. *)
Lemma sub_diag_finite (x : float) :
  is_finite x = true -> (x - x)%float = 0%float.
Proof.
  intros Hfin. apply Prim2SF_inj. rewrite sub_spec, Prim2SF_zero.
  unfold is_finite, is_nan, is_infinity in Hfin.
  apply negb_true_iff, orb_false_iff in Hfin as [Hnan Hinf].
  apply negb_false_iff in Hnan.
  rewrite FloatAxioms.eqb_spec in Hnan.
  rewrite FloatAxioms.eqb_spec, abs_spec, Prim2SF_infinity in Hinf.
  destruct (Prim2SF x) as [s | s | | s m e].
  - by destruct s.
  - by destruct s.
  - discriminate.
  - unfold SF64sub, SFsub. rewrite Z.sub_diag. reflexivity.
Qed.

(** [x - x] is NaN when [x] is NaN or an infinity. *)
Lemma sub_diag_not_finite (x : float) :
  is_finite x = false -> is_nan (x - x) = true.
Proof.
  intros Hfin.
  unfold is_finite, is_nan, is_infinity in Hfin.
  apply negb_false_iff in Hfin.
  rewrite !FloatAxioms.eqb_spec, abs_spec, Prim2SF_infinity in Hfin.
  unfold is_nan. rewrite FloatAxioms.eqb_spec, sub_spec.
  destruct (Prim2SF x) as [s | s | | s m e].
  - by destruct s.
  - by destruct s.
  - reflexivity.
  - exfalso. simpl in Hfin. unfold SFeqb, SFcompare in Hfin.
    rewrite Z.compare_refl, Pos.compare_cont_refl in Hfin.
    by destruct s.
Qed.

End FloatFacts.

(** ** Model comparison *)

Module AnalysisFacts.

Import World PyLib Analysis FloatFacts.
Open Scope world_scope.

Section Environment.

Variable dirname : string.
Variable load : string -> string -> bool -> result Data.

(** Reading a result may create its directory; it neither writes a result nor
    runs the sampler nor touches the priors. *)
Lemma read_result_frame model GRB path truncate flag (w : world) :
  same_store w (read_result dirname load model GRB path truncate flag w).2.
Proof.
  unfold read_result, same_store, bind, os_path_exists, os_makedirs, modify, ret,
    read_in_result, load_data, raise.
  destruct flag; simpl; repeat case_match; unfold ret, raise in *;
    simplify_eq/=; auto.
Qed.

Lemma read_result_found model GRB path truncate flag (w : world) r d :
  result_files w !! result_file path GRB model flag = Some r ->
  load GRB (find_path dirname path) truncate = Ok d ->
  (read_result dirname load model GRB path truncate flag w).1 = Ok (r, d).
Proof.
  unfold result_file. intros Hr Hd.
  unfold read_result, bind, os_path_exists, os_makedirs, modify, ret,
    read_in_result, load_data, raise.
  destruct flag; simpl in *; repeat case_match; unfold ret, raise in *;
    simplify_eq/=; congruence.
Qed.

Lemma read_result_missing model GRB path truncate flag (w : world) :
  result_files w !! result_file path GRB model flag = None ->
  (read_result dirname load model GRB path truncate flag w).1
  = Err (ResultNotFound (result_file path GRB model flag)).
Proof.
  unfold result_file. intros Hr.
  unfold read_result, bind, os_path_exists, os_makedirs, modify, ret,
    read_in_result, load_data, raise.
  destruct flag; simpl in *; repeat case_match; unfold ret, raise in *;
    simplify_eq/=; congruence.
Qed.

Lemma calculate_BF_frame model1 model2 GRB path flag (w : world) :
  same_store w (calculate_BF dirname load model1 model2 GRB path flag w).2.
Proof.
  unfold calculate_BF, bind.
  pose proof (read_result_frame model1 GRB path true flag w) as H1.
  destruct (read_result dirname load model1 GRB path true flag w)
    as [[[r1 d1] | e1] w1]; simpl in *; [| done].
  pose proof (read_result_frame model2 GRB path true flag w1) as H2.
  destruct (read_result dirname load model2 GRB path true flag w1)
    as [[[r2 d2] | e2] w2]; simpl in *; unfold same_store in *; intuition congruence.
Qed.

Lemma calculate_BF_found model1 model2 GRB path flag (w : world) r1 r2 d :
  result_files w !! result_file path GRB model1 flag = Some r1 ->
  result_files w !! result_file path GRB model2 flag = Some r2 ->
  load GRB (find_path dirname path) true = Ok d ->
  (calculate_BF dirname load model1 model2 GRB path flag w).1
  = Ok (log_evidence r1 - log_evidence r2)%float.
Proof.
  intros H1 H2 Hd. unfold calculate_BF, bind.
  pose proof (read_result_frame model1 GRB path true flag w) as (Hf & _).
  pose proof (read_result_found model1 GRB path true flag w r1 d H1 Hd) as Hr1.
  destruct (read_result dirname load model1 GRB path true flag w)
    as [[[r1' d1] | e1] w1]; simpl in *; [| discriminate].
  injection Hr1 as -> ->.
  rewrite <- Hf in H2.
  pose proof (read_result_found model2 GRB path true flag w1 r2 d H2 Hd) as Hr2.
  destruct (read_result dirname load model2 GRB path true flag w1)
    as [[[r2' d2] | e2] w2]; simpl in *; [| discriminate].
  by injection Hr2 as -> ->.
Qed.

Lemma calculate_BF_first_missing model1 model2 GRB path flag (w : world) :
  result_files w !! result_file path GRB model1 flag = None ->
  (calculate_BF dirname load model1 model2 GRB path flag w).1
  = Err (ResultNotFound (result_file path GRB model1 flag)).
Proof.
  intros H1. unfold calculate_BF, bind.
  pose proof (read_result_missing model1 GRB path true flag w H1) as Hr1.
  destruct (read_result dirname load model1 GRB path true flag w)
    as [[[r1' d1] | e1] w1]; simpl in *; [discriminate | congruence].
Qed.

Lemma calculate_BF_second_missing model1 model2 GRB path flag (w : world) r1 d :
  result_files w !! result_file path GRB model1 flag = Some r1 ->
  load GRB (find_path dirname path) true = Ok d ->
  result_files w !! result_file path GRB model2 flag = None ->
  (calculate_BF dirname load model1 model2 GRB path flag w).1
  = Err (ResultNotFound (result_file path GRB model2 flag)).
Proof.
  intros H1 Hd H2. unfold calculate_BF, bind.
  pose proof (read_result_frame model1 GRB path true flag w) as (Hf & _).
  pose proof (read_result_found model1 GRB path true flag w r1 d H1 Hd) as Hr1.
  destruct (read_result dirname load model1 GRB path true flag w)
    as [[[r1' d1] | e1] w1]; simpl in *; [| discriminate].
  rewrite <- Hf in H2.
  pose proof (read_result_missing model2 GRB path true flag w1 H2) as Hr2.
  destruct (read_result dirname load model2 GRB path true flag w1)
    as [[[r2' d2] | e2] w2]; simpl in *; [discriminate | congruence].
Qed.

(** X4: reading the result of a model whose result directory does not exist
    creates that directory, and the ones above it, whether or not a result is
    then found. *)
Theorem read_result_creates_directory :
  forall model GRB path truncate flag (w : world),
    let result_path := path +:+ "/GRB" +:+ GRB +:+ "/" +:+ model +:+ "/" in
    normpath result_path ∉ dirs w ->
    result_files w !! result_path = None ->
    dirs (read_result dirname load model GRB path truncate flag w).2
    = dirs w ∪ list_to_set (with_parents result_path).
Proof.
  intros model GRB path truncate flag w result_path Hdir Hfile.
  unfold read_result, bind, os_path_exists, os_makedirs, modify, ret,
    read_in_result, load_data, raise.
  fold result_path.
  rewrite bool_decide_eq_false_2 by done.
  rewrite bool_decide_eq_false_2 by (rewrite Hfile; by intros [? ?]).
  destruct flag; simpl; repeat case_match; unfold ret, raise in *;
    simplify_eq/=; reflexivity.
Qed.

Lemma read_result_data_missing model GRB path truncate flag (w : world) r e :
  result_files w !! result_file path GRB model flag = Some r ->
  load GRB (find_path dirname path) truncate = Err e ->
  (read_result dirname load model GRB path truncate flag w).1 = Err e.
Proof.
  unfold result_file. intros Hr He.
  unfold read_result, bind, os_path_exists, os_makedirs, modify, ret,
    read_in_result, load_data, raise.
  destruct flag; simpl in *; repeat case_match; unfold ret, raise in *;
    simplify_eq/=; congruence.
Qed.

Lemma calculate_BF_data_missing model1 model2 GRB path flag (w : world) r1 e :
  result_files w !! result_file path GRB model1 flag = Some r1 ->
  load GRB (find_path dirname path) true = Err e ->
  (calculate_BF dirname load model1 model2 GRB path flag w).1 = Err e.
Proof.
  intros H1 He. unfold calculate_BF, bind.
  pose proof (read_result_data_missing model1 GRB path true flag w r1 e H1 He) as Hr1.
  destruct (read_result dirname load model1 GRB path true flag w)
    as [[[r1' d1] | e1] w1]; simpl in *; [discriminate | congruence].
Qed.

(** C5, as the code has it: when both results are stored, [calculate_BF]
    first reads the data of the burst.  When the data load, it returns the
    binary64 difference of the two log-evidences; for the same model on both
    sides that is [e - e], which is exactly 0.0 when the log-evidence [e] is
    finite and NaN when [e] is NaN or an infinity.  When the data do not
    load, it fails with the error of the loader. *)
Theorem calculate_BF_is_evidence_difference :
  forall model1 model2 GRB path flag (w : world) r1 r2,
    result_files w !! result_file path GRB model1 flag = Some r1 ->
    result_files w !! result_file path GRB model2 flag = Some r2 ->
    (forall d, load GRB (find_path dirname path) true = Ok d ->
       (calculate_BF dirname load model1 model2 GRB path flag w).1
       = Ok (log_evidence r1 - log_evidence r2)%float
       /\ (calculate_BF dirname load model1 model1 GRB path flag w).1
          = Ok (log_evidence r1 - log_evidence r1)%float
       /\ (is_finite (log_evidence r1) = true ->
             (calculate_BF dirname load model1 model1 GRB path flag w).1 = Ok 0%float)
       /\ (is_finite (log_evidence r1) = false ->
             exists b : float,
               (calculate_BF dirname load model1 model1 GRB path flag w).1 = Ok b
               /\ is_nan b = true))
    /\ (forall e, load GRB (find_path dirname path) true = Err e ->
          (calculate_BF dirname load model1 model2 GRB path flag w).1 = Err e).
Proof.
  intros model1 model2 GRB path flag w r1 r2 H1 H2.
  split.
  - intros d Hd. split; [| split; [| split]].
    + by apply calculate_BF_found with (d := d).
    + by apply calculate_BF_found with (d := d).
    + intros Hfin. rewrite <- (sub_diag_finite _ Hfin).
      by apply calculate_BF_found with (d := d).
    + intros Hfin. exists (log_evidence r1 - log_evidence r1)%float. split.
      * by apply calculate_BF_found with (d := d).
      * by apply sub_diag_not_finite.
  - intros e He. by apply calculate_BF_data_missing with (r1 := r1).
Qed.

(** C6, as the code has it: when the result of the first model is missing,
    [calculate_BF] fails with [ResultNotFound] naming its file.  When the
    first is stored, the data of the burst are read before the second result
    is looked for: if they load and the second result is missing, the failure
    is [ResultNotFound] naming the second file; if they do not load, the
    failure is the error of the loader, whether or not the second result is
    there.  Whatever it returns, it has run no sampler and written no
    result. *)
Theorem calculate_BF_missing_result :
  forall model1 model2 GRB path flag (w : world),
    let out := calculate_BF dirname load model1 model2 GRB path flag w in
    (result_files w !! result_file path GRB model1 flag = None ->
       out.1 = Err (ResultNotFound (result_file path GRB model1 flag)))
    /\ (forall r1 d,
          result_files w !! result_file path GRB model1 flag = Some r1 ->
          load GRB (find_path dirname path) true = Ok d ->
          result_files w !! result_file path GRB model2 flag = None ->
          out.1 = Err (ResultNotFound (result_file path GRB model2 flag)))
    /\ (forall r1 e,
          result_files w !! result_file path GRB model1 flag = Some r1 ->
          load GRB (find_path dirname path) true = Err e ->
          out.1 = Err e)
    /\ sampler_runs out.2 = sampler_runs w
    /\ result_files out.2 = result_files w.
Proof.
  intros model1 model2 GRB path flag w out.
  split; [| split; [| split]].
  - intros H1. by apply calculate_BF_first_missing.
  - intros r1 d H1 Hd H2. by apply calculate_BF_second_missing with (r1 := r1) (d := d).
  - intros r1 e H1 He. by apply calculate_BF_data_missing with (r1 := r1).
  - destruct (calculate_BF_frame model1 model2 GRB path flag w) as (Hf & Hr & _).
    by split.
Qed.

End Environment.

Lemma read_result_creates_directory_witness :
  dirs (read_result "/grb_bilby/analysis" Examples.load "collapsing_magnetar"
          "140903A" "." true false Examples.two_results).2
  = ∅ ∪ list_to_set ["."; "./GRB140903A"; "./GRB140903A/collapsing_magnetar"].
Proof.
  apply (read_result_creates_directory "/grb_bilby/analysis" Examples.load
           "collapsing_magnetar" "140903A" "." true false Examples.two_results).
  - vm_compute. intros H. discriminate H.
  - reflexivity.
Defined.

Lemma calculate_BF_is_evidence_difference_witness :
  (calculate_BF "/grb_bilby/analysis" Examples.load "magnetar_only" "full_magnetar"
     "140903A" "." false Examples.two_results).1
  = Ok (-2.5)%float
  /\ (calculate_BF "/grb_bilby/analysis" Examples.load "magnetar_only"
        "magnetar_only" "140903A" "." false Examples.two_results).1
     = Ok 0%float.
Proof.
  destruct (calculate_BF_is_evidence_difference "/grb_bilby/analysis" Examples.load
              "magnetar_only" "full_magnetar" "140903A" "." false Examples.two_results
              (Examples.stored (-12.5)) (Examples.stored (-10))) as [Hloads _].
  - reflexivity.
  - reflexivity.
  - destruct (Hloads {| data_name := "140903A"; data_path := "." |})
      as (Hdiff & _ & Hsame & _).
    + reflexivity.
    + split.
      * exact Hdiff.
      * apply Hsame. reflexivity.
Defined.

(** C5, as stated, fails: with both results stored, a log-evidence that is
    NaN (a sampler that computes no evidence) or an infinity, compared with
    itself, gives NaN, which is not 0.0; and when the data of the burst do
    not load, the comparison of two stored results returns no number at all
    but fails with the error of the loader. *)
Lemma calculate_BF_not_the_difference :
  ((calculate_BF "/grb_bilby/analysis" Examples.load "magnetar_only" "magnetar_only"
      "140903A" "." false Examples.nan_result).1
   = Ok nan
   /\ (nan =? 0)%float = false)
  /\ ((calculate_BF "/grb_bilby/analysis" Examples.load "magnetar_only" "magnetar_only"
         "140903A" "." false Examples.infinite_result).1
      = Ok nan)
  /\ (calculate_BF "/grb_bilby/analysis" Examples.no_data "magnetar_only"
        "full_magnetar" "140903A" "." false Examples.two_results).1
     = Err (IOError "./GRB140903A").
Proof.
  split; [split | split].
  - vm_compute. reflexivity.
  - reflexivity.
  - vm_compute. reflexivity.
  - vm_compute. reflexivity.
Qed.

Lemma calculate_BF_missing_result_witness :
  (calculate_BF "/grb_bilby/analysis" Examples.load "collapsing_magnetar"
     "magnetar_only" "140903A" "." false Examples.two_results).1
  = Err (ResultNotFound "./GRB140903A/collapsing_magnetar/result_result.json")
  /\ (calculate_BF "/grb_bilby/analysis" Examples.load "magnetar_only"
        "collapsing_magnetar" "140903A" "." false Examples.two_results).1
     = Err (ResultNotFound "./GRB140903A/collapsing_magnetar/result_result.json").
Proof.
  split.
  - apply (calculate_BF_missing_result "/grb_bilby/analysis" Examples.load
             "collapsing_magnetar" "magnetar_only" "140903A" "." false
             Examples.two_results).
    reflexivity.
  - destruct (calculate_BF_missing_result "/grb_bilby/analysis" Examples.load
                "magnetar_only" "collapsing_magnetar" "140903A" "." false
                Examples.two_results) as (_ & Hsecond & _).
    apply (Hsecond (Examples.stored (-12.5))
             {| data_name := "140903A"; data_path := "." |}); reflexivity.
Defined.

(** C6, as stated, fails: the second result is absent from the store, the
    first is there, and the data of the burst do not load: the failure is the
    error of the loader, not [ResultNotFound], and it names no result. *)
Lemma calculate_BF_missing_result_not_reported :
  result_files Examples.two_results
    !! result_file "." "140903A" "collapsing_magnetar" false = None
  /\ (calculate_BF "/grb_bilby/analysis" Examples.no_data "magnetar_only"
        "collapsing_magnetar" "140903A" "." false Examples.two_results).1
     = Err (IOError "./GRB140903A").
Proof.
  split.
  - vm_compute. reflexivity.
  - vm_compute. reflexivity.
Qed.

End AnalysisFacts.

(** ** The model on concrete inputs *)

Module ModelChecks.

Import World PyLib.

Example with_parents_result_directory :
  with_parents "./GRB140903A/tophat" = ["."; "./GRB140903A"; "./GRB140903A/tophat"].
Proof. reflexivity. Qed.

Example normpath_drops_separators : normpath "a//b/" = "a/b".
Proof. reflexivity. Qed.

Example lower_class_name : lower "PromptTimeSeries" = "prompttimeseries".
Proof. reflexivity. Qed.

Example dict_update_overrides :
  dict_update [("a", "1"); ("b", "2")] [("b", "3"); ("c", "4")]
  = [("a", "1"); ("b", "3"); ("c", "4")].
Proof. reflexivity. Qed.

Example meta_data_of_a_burst :
  Sampler.make_meta_data Examples.tophat "afterglow" Examples.grb None
  = [("model", MetaStr "tophat"); ("transient_type", MetaStr "afterglow");
     ("name", MetaStr "140903A"); ("model_kwargs", MetaKwargs None)].
Proof. reflexivity. Qed.

(** A GRB fit with the photon-index prior: the label, the output directory
    and the file the result is persisted under. *)
Example fit_grb_persists_result :
  map_to_list
    (result_files
       (Sampler._fit_grb Examples.sampling "140903A" Examples.grb Examples.tophat "."
          "dynesty" 2000 (Some 1%positive) 200 true "flux" true "json" None ∅
          Examples.fresh_world).2)
  = [("./GRB140903A/tophat/flux_photon_index_result.json",
      {| res_label := "flux_photon_index"; res_outdir := "./GRB140903A/tophat";
         res_meta_data :=
           [("model", MetaStr "tophat"); ("transient_type", MetaStr "afterglow");
            ("name", MetaStr "140903A"); ("model_kwargs", MetaKwargs None)];
         log_evidence := 0 |})].
Proof. vm_compute. reflexivity. Qed.

(** With no prior passed in, the default prior file is looked up under the
    text of the model function, not under its name. *)
Example fit_model_default_prior_file :
  (Sampler.fit_model "/redback" Examples.registry Examples.sampling "140903A"
     Examples.grb (Sampler.ModelName "tophat") "." "dynesty" 2000 None 200 true true
     "prompt_time_error" "flux" true "json" None ∅ Examples.fresh_world).1
  = Err (IOError "/redback/Priors/<function tophat>.prior").
Proof. reflexivity. Qed.

End ModelChecks.

(** ** More on the ejecta relations *)

Module EjectaMoreFacts.

Import Num Py EjectaRelations NumFacts ExpBoundsFacts EjectaFacts.
Open Scope R_scope.

Lemma add_comm (x y : num) : add x y = add y x.
Proof. destruct x, y; simpl; try reflexivity. f_equal. ring. Qed.

Lemma Rpow_neg_frac (a b : R) :
  a < 0 -> IZR (Int_part b) <> b -> Rpow a b = None.
Proof.
  intros Ha Hb. unfold Rpow.
  destruct (Rlt_dec 0 a); [lra |].
  destruct (Req_dec_T a 0); [lra |].
  destruct (Req_dec_T (IZR (Int_part b)) b); [contradiction | reflexivity].
Qed.

Lemma Rpow_neg_int (a : R) (z : Z) :
  a < 0 -> Rpow a (IZR z) = Some (powerRZ a z).
Proof.
  intros Ha. unfold Rpow.
  destruct (Rlt_dec 0 a); [lra |].
  destruct (Req_dec_T a 0); [lra |].
  assert (Hz : Int_part (IZR z) = z).
  { symmetry. apply Int_part_spec. lra. }
  rewrite Hz. destruct (Req_dec_T (IZR z) (IZR z)); [reflexivity | congruence].
Qed.

Lemma Rpow_zero_neg (b : R) : b < 0 -> Rpow 0 b = None.
Proof.
  intros Hb. unfold Rpow.
  destruct (Rlt_dec 0 0); [lra |].
  destruct (Req_dec_T 0 0); [| lra].
  destruct (Rlt_dec 0 b); [lra |].
  destruct (Req_dec_T b 0); [lra | reflexivity].
Qed.

Lemma not_integer (b : R) (z : Z) : IZR z < b < IZR z + 1 -> IZR (Int_part b) <> b.
Proof.
  intros Hb. assert (Hz : z = Int_part b) by (apply Int_part_spec; lra).
  rewrite <- Hz. lra.
Qed.

Ltac getattrs init :=
  repeat (erewrite attr_lookup by (unfold init; attrs));
  cbn [mbind result_bind].

Lemma calc_vrho_swap (m1 m2 l1 l2 : num) :
  calc_vrho m1 m2 l1 l2 = calc_vrho m2 m1 l2 l1.
Proof.
  unfold calc_vrho, citation_wrapper. cbv zeta. f_equal. f_equal. apply add_comm.
Qed.

Lemma calc_vz_swap (m1 m2 l1 l2 : num) :
  calc_vz m1 m2 l1 l2 = calc_vz m2 m1 l2 l1.
Proof.
  unfold calc_vz, citation_wrapper. cbv zeta. f_equal. f_equal. apply add_comm.
Qed.

(** X5: the in-plane and the out-of-plane velocity do not depend on which
    star is called the first: exchanging the two stars (masses and tidal
    deformabilities together) gives the same value, for all arguments. *)
Theorem velocity_fits_label_symmetric :
  forall m1 m2 l1 l2 : num,
    calc_vrho m1 m2 l1 l2 = calc_vrho m2 m1 l2 l1
    /\ calc_vz m1 m2 l1 l2 = calc_vz m2 m1 l2 l1.
Proof.
  intros m1 m2 l1 l2. split.
  - apply calc_vrho_swap.
  - apply calc_vz_swap.
Qed.

(** X6: the ejecta velocity and mass of [OneComponentBNSNoProjection] and
    the ejecta mass, velocity and polar angle of [OneComponentBNSProjection],
    on the attributes [__init__] sets, are the same when the two stars are
    exchanged. *)
Theorem bns_getters_label_symmetric :
  forall m1 m2 l1 l2 : num,
    let a := OneComponentBNSNoProjection.init_attrs m1 m2 l1 l2 in
    let a' := OneComponentBNSNoProjection.init_attrs m2 m1 l2 l1 in
    let b := OneComponentBNSProjection.init_attrs m1 m2 l1 l2 in
    let b' := OneComponentBNSProjection.init_attrs m2 m1 l2 l1 in
    OneComponentBNSNoProjection.calculate_ejecta_velocity a
    = OneComponentBNSNoProjection.calculate_ejecta_velocity a'
    /\ OneComponentBNSNoProjection.calculate_ejecta_mass a
       = OneComponentBNSNoProjection.calculate_ejecta_mass a'
    /\ OneComponentBNSProjection.calculate_ejecta_mass b
       = OneComponentBNSProjection.calculate_ejecta_mass b'
    /\ OneComponentBNSProjection.calculate_ejecta_velocity b
       = OneComponentBNSProjection.calculate_ejecta_velocity b'
    /\ OneComponentBNSProjection.calculate_qej b
       = OneComponentBNSProjection.calculate_qej b'.
Proof.
  intros m1 m2 l1 l2 a a' b b'.
  pose proof (calc_vrho_swap m1 m2 l1 l2) as Hrho.
  pose proof (calc_vz_swap m1 m2 l1 l2) as Hz.
  split; [| split; [| split; [| split]]].
  - unfold a, a', OneComponentBNSNoProjection.calculate_ejecta_velocity.
    getattrs OneComponentBNSNoProjection.init_attrs.
    do 2 f_equal. apply add_comm.
  - unfold a, a', OneComponentBNSNoProjection.calculate_ejecta_mass.
    getattrs OneComponentBNSNoProjection.init_attrs.
    cbv zeta.
    match goal with
    | |- Ok (_ ** (_ * (?X1 + ?X2) + _ * (?Y1 + ?Y2) + _))%num = _ =>
        rewrite (add_comm X1 X2), (add_comm Y1 Y2)
    end.
    reflexivity.
  - unfold b, b', OneComponentBNSProjection.calculate_ejecta_mass.
    getattrs OneComponentBNSProjection.init_attrs.
    cbv zeta.
    match goal with
    | |- Ok (maximum ((?X1 + ?X2) * _ + (?Y1 + ?Y2) * _ + (?Z1 + ?Z2) * _ + _) _ / _)%num
         = _ =>
        rewrite (add_comm X1 X2), (add_comm Y1 Y2), (add_comm Z1 Z2)
    end.
    reflexivity.
  - unfold b, b', OneComponentBNSProjection.calculate_ejecta_velocity.
    getattrs OneComponentBNSProjection.init_attrs.
    by rewrite Hrho, Hz.
  - unfold b, b', OneComponentBNSProjection.calculate_qej.
    getattrs OneComponentBNSProjection.init_attrs.
    by rewrite Hrho, Hz.
Qed.


Lemma sqrt_ge_abs (a b : R) : Rabs a <= R_sqrt.sqrt (a ^ 2 + b ^ 2).
Proof.
  rewrite <- sqrt_Rsqr_abs. apply sqrt_le_1_alt. unfold Rsqr. nra.
Qed.

(** X8: for [vrho] and [vz] of a size between [1e-150] and [1e150] (their
    squares are within the range of the floats) the ejecta velocity of
    [OneComponentBNSProjection] is the square root of [vrho^2 + vz^2]: it is
    at least the size of either component and at most the sum of their
    sizes, also when a component is negative. *)
Theorem Projection_ejecta_velocity_is_norm :
  forall (self : object) (vrho vz : R),
    self !! "vrho" = Some (VFloat (Some vrho)) ->
    self !! "vz" = Some (VFloat (Some vz)) ->
    1e-150 <= Rabs vrho <= 1e150 ->
    1e-150 <= Rabs vz <= 1e150 ->
    let v := R_sqrt.sqrt (vrho ^ 2 + vz ^ 2) in
    OneComponentBNSProjection.calculate_ejecta_velocity self = Ok (Some v)
    /\ Rabs vrho <= v /\ Rabs vz <= v /\ v <= Rabs vrho + Rabs vz.
Proof.
  intros self vrho vz Hrho Hz _ _ v.
  split; [| split; [| split]].
  - unfold OneComponentBNSProjection.calculate_ejecta_velocity.
    rewrite (attr_lookup _ _ _ Hrho), (attr_lookup _ _ _ Hz).
    cbn [mbind result_bind]. cbv zeta. unfold fin.
    replace 2.0 with 2 by lra. replace 0.5 with (1 / 2) by lra.
    autorewrite with num. rewrite !Rpow_2. autorewrite with num.
    rewrite Rpow_half by nra. reflexivity.
  - apply sqrt_ge_abs.
  - unfold v. rewrite Rplus_comm. apply sqrt_ge_abs.
  - unfold v. apply Rsqr_incr_0_var.
    + rewrite Rsqr_sqrt by nra. unfold Rsqr.
      pose proof (Rabs_pos vrho). pose proof (Rabs_pos vz).
      assert (Rabs vrho * Rabs vrho = vrho ^ 2).
      { rewrite <- Rabs_mult. rewrite Rabs_pos_eq; nra. }
      assert (Rabs vz * Rabs vz = vz ^ 2).
      { rewrite <- Rabs_mult. rewrite Rabs_pos_eq; nra. }
      nra.
    + pose proof (Rabs_pos vrho). pose proof (Rabs_pos vz). lra.
Qed.

Lemma Projection_ejecta_velocity_is_norm_witness :
  OneComponentBNSProjection.calculate_ejecta_velocity
    (setattr (setattr ∅ "vrho" (VFloat (Some 3))) "vz" (VFloat (Some (-4))))
  = Ok (Some (R_sqrt.sqrt (3 ^ 2 + (-4) ^ 2))).
Proof.
  pose proof (Projection_ejecta_velocity_is_norm
                (setattr (setattr ∅ "vrho" (VFloat (Some 3))) "vz" (VFloat (Some (-4))))
                3 (-4)) as H.
  cbv zeta in H. destruct H as [H _].
  - reflexivity.
  - reflexivity.
  - rewrite Rabs_right by lra. lra.
  - rewrite Rabs_left by lra. lra.
  - exact H.
Defined.


Lemma sqrt_fin (a : R) : 0 <= a -> Num.sqrt (Some a) = Some (R_sqrt.sqrt a).
Proof. intros Ha. unfold Num.sqrt. destruct (Rle_dec 0 a); [reflexivity | contradiction]. Qed.

Lemma tmp1_pos (z r : R) : r <> 0 -> 0 < 3 * z + R_sqrt.sqrt (9 * z ^ 2 + 4 * r ^ 2).
Proof.
  intros Hr.
  assert (H : R_sqrt.sqrt ((3 * z) ^ 2) < R_sqrt.sqrt (9 * z ^ 2 + 4 * r ^ 2)).
  { apply sqrt_lt_1_alt. nra. }
  replace ((3 * z) ^ 2) with (Rsqr (3 * z)) in H by (unfold Rsqr; ring).
  rewrite sqrt_Rsqr_abs in H.
  pose proof (Rle_abs (- (3 * z))) as Habs. rewrite Rabs_Ropp in Habs. lra.
Qed.

Lemma qej_pos (self : object) (vz vrho : R) :
    self !! "vz" = Some (VFloat (Some vz)) ->
    self !! "vrho" = Some (VFloat (Some vrho)) ->
    0 < vrho -> exists q : R, OneComponentBNSProjection.calculate_qej self = Ok (Some q) /\ 0 < q.
Proof.
  intros Hz Hrho Hpos.
  unfold OneComponentBNSProjection.calculate_qej.
  rewrite (attr_lookup _ _ _ Hrho), (attr_lookup _ _ _ Hz).
  cbn [mbind result_bind]. cbv zeta. unfold fin.
  autorewrite with num. rewrite !Rpow_2. autorewrite with num.
  rewrite sqrt_fin by nra. autorewrite with num.
  replace 3.0 with 3 by lra.
  pose proof (tmp1_pos vz vrho ltac:(lra)) as HT.
  set (T := 3 * vz + R_sqrt.sqrt (9 * vz ^ 2 + 4 * vrho ^ 2)) in *.
  rewrite !div_fin by lra. autorewrite with num.
  rewrite (Rpow_pos 2.0) by lra. rewrite (Rpow_pos vrho) by lra.
  autorewrite with num.
  assert (H1 : 0 < 2.0 * vrho ^ 2 * T) by (apply Rmult_lt_0_compat; nra).
  assert (H2 : 0 < Rpower vrho 5.0 * T).
  { apply Rmult_lt_0_compat; [apply exp_pos | done]. }
  rewrite !Rpow_pos by done. autorewrite with num.
  assert (H3 : 0 < Rpower (Rpower vrho 5.0 * T) (1.0 / 3)) by apply exp_pos.
  rewrite div_fin by lra.
  eexists. split; [reflexivity |].
  apply Rdiv_lt_0_compat; [| done].
  assert (0 < Rpower 2.0 (4.0 / 3)) by apply exp_pos.
  assert (0 < Rpower (2.0 * vrho ^ 2 * T) (2.0 / 3)) by apply exp_pos.
  nra.
Qed.

Lemma Int_part_third : IZR (Int_part (1.0 / 3)) <> 1.0 / 3.
Proof. apply (not_integer _ 0). lra. Qed.

Lemma qej_nan (self : object) (vz vrho : R) :
    self !! "vz" = Some (VFloat (Some vz)) ->
    self !! "vrho" = Some (VFloat (Some vrho)) ->
    vrho <= 0 -> OneComponentBNSProjection.calculate_qej self = Ok None.
Proof.
  intros Hz Hrho Hneg.
  unfold OneComponentBNSProjection.calculate_qej.
  rewrite (attr_lookup _ _ _ Hrho), (attr_lookup _ _ _ Hz).
  cbn [mbind result_bind]. cbv zeta. unfold fin.
  autorewrite with num. rewrite !Rpow_2. autorewrite with num.
  rewrite sqrt_fin by nra. autorewrite with num.
  replace 3.0 with 3 by lra.
  rewrite !div_fin by lra. autorewrite with num.
  rewrite (Rpow_pos 2.0) by lra.
  destruct (Req_dec_T vrho 0) as [-> | Hne].
  - replace (2.0 * 0 ^ 2 * (3 * vz + R_sqrt.sqrt (9 * vz ^ 2 + 4 * 0 ^ 2))) with 0 by ring.
    rewrite !Rpow_zero_pos by lra. autorewrite with num.
    replace (0 * (3 * vz + R_sqrt.sqrt (9 * vz ^ 2 + 4 * 0 ^ 2))) with 0 by ring.
    rewrite !Rpow_zero_pos by lra.
    unfold div. destruct (Req_dec_T 0 0); [reflexivity | lra].
  - pose proof (tmp1_pos vz vrho Hne) as HT.
    set (T := 3 * vz + R_sqrt.sqrt (9 * vz ^ 2 + 4 * vrho ^ 2)) in *.
    replace 5.0 with (IZR 5) by lra.
    rewrite (Rpow_neg_int vrho 5) by lra.
    assert (H1 : 0 < 2.0 * vrho ^ 2 * T) by (apply Rmult_lt_0_compat; nra).
    rewrite (Rpow_pos _ _ H1). autorewrite with num.
    assert (H5 : powerRZ vrho 5 * T < 0).
    { assert (powerRZ vrho 5 < 0).
      { change 5%Z with (Z.of_nat 5). rewrite <- (pow_powerRZ vrho 5). simpl.
        assert (0 < vrho * vrho) by nra. assert (0 < (vrho * vrho) * (vrho * vrho)) by nra.
        nra. }
      nra. }
    rewrite (Rpow_neg_frac _ _ H5 Int_part_third). reflexivity.
Qed.




Lemma eos_insensitive_fin (m r : R) : r <> 0 ->
  calc_baryonic_mass_eos_insensitive (Some m) (Some r) = Some (m + m ^ 2 / r).
Proof.
  intros Hr. unfold calc_baryonic_mass_eos_insensitive. cbv zeta. unfold fin.
  autorewrite with num. rewrite Rpow_2.
  assert (Hinv : Rpow r (-1) = Some (/ r)).
  { destruct (Rlt_dec 0 r) as [Hpos | Hnpos].
    - rewrite Rpow_pos by done. f_equal.
      replace (-1) with (- (1)) by lra.
      rewrite Rpower_Ropp, Rpower_1 by done. reflexivity.
    - rewrite Rpow_neg_int by lra.
      f_equal. simpl. rewrite Rmult_1_r. reflexivity. }
  rewrite Hinv. autorewrite with num. f_equal. field. done.
Qed.



Lemma ln_1e8_upper : ln 100000000 < 18.5.
Proof.
  apply exp_lt_inv. rewrite exp_ln by lra.
  replace 18.5 with (IZR 185 / IZR 10) by lra.
  apply Rlt_le_trans with (2 := exp_lower_sound 20 185 10 ltac:(lia) eq_refl).
  apply Rmult_lt_reg_r with (r := IZR ExpBounds.scale); [apply scale_pos |].
  replace (IZR (ExpBounds.exp_lower 20 185 10) / IZR ExpBounds.scale * IZR ExpBounds.scale)
    with (IZR (ExpBounds.exp_lower 20 185 10)) by (field; pose proof scale_pos; lra).
  rewrite <- mult_IZR. apply IZR_lt. vm_compute. reflexivity.
Qed.

Lemma compactness_decreasing (l1 l2 : R) :
  0 < l1 -> l1 < l2 -> l2 <= 100000000 ->
  Spec.compactness_from_tidal_deformability l2
  < Spec.compactness_from_tidal_deformability l1.
Proof.
  intros H1 H12 H2. unfold Spec.compactness_from_tidal_deformability.
  assert (HL : ln l1 < ln l2) by (apply ln_increasing; lra).
  assert (HU : ln l2 < 18.5).
  { apply Rle_lt_trans with (2 := ln_1e8_upper).
    destruct (Req_dec_T l2 100000000) as [-> | Hne]; [lra |].
    left. apply ln_increasing; lra. }
  set (L1 := ln l1) in *. set (L2 := ln l2) in *. nra.
Qed.

Lemma compactness_range (l : R) :
  1 <= l -> l <= 100000000 ->
  0.009 < Spec.compactness_from_tidal_deformability l <= 0.371.
Proof.
  intros H1 H2. unfold Spec.compactness_from_tidal_deformability.
  assert (HL : 0 <= ln l).
  { rewrite <- ln_1. destruct (Req_dec_T l 1) as [-> | Hne]; [lra |].
    left. apply ln_increasing; lra. }
  assert (HU : ln l < 18.5).
  { apply Rle_lt_trans with (2 := ln_1e8_upper).
    destruct (Req_dec_T l 100000000) as [-> | Hne]; [lra |].
    left. apply ln_increasing; lra. }
  set (L := ln l) in *.
  pose proof (Rle_0_sqr (L - 9775 / 528)) as Hsq. unfold Rsqr in Hsq.
  split; nra.
Qed.

(** One term [m (1 - 2 c) / c] of the fit, for a mass between 1 and 3 and a
    compactness in the range of the fit. *)
Lemma compactness_term_bounds (m c : R) :
  1 <= m <= 3 -> 0.009 < c <= 0.371 -> 0 < m * (1 - 2 * c) / c < 336.
Proof.
  intros Hm Hc.
  assert (Hic : 0 < / c) by (apply Rinv_0_lt_compat; lra).
  assert (Hone : c * / c = 1) by (apply Rinv_r; lra).
  replace (m * (1 - 2 * c) / c) with (m * (/ c - 2)) by (field; lra).
  assert (Hlo : 2.69 < / c) by nra.
  assert (Hhi : / c < 112) by nra.
  split; nra.
Qed.

(** One term [m (m' / m) ** n] of the fit, for masses between 1 and 3. *)
Lemma ratio_term_bounds (m m' : R) :
  1 <= m <= 3 -> 1 <= m' <= 3 -> 0 < m * Rpower (m' / m) (-2.905) <= 81.
Proof.
  intros Hm Hm'.
  assert (Hq : / 3 ^ 1 <= m' / m <= 3 ^ 1).
  { assert (Him : 0 < / m) by (apply Rinv_0_lt_compat; lra).
    assert (Hone : m * / m = 1) by (apply Rinv_r; lra).
    unfold Rdiv. simpl. rewrite Rmult_1_r. split; nra. }
  pose proof (exp_pos (-2.905 * ln (m' / m))) as Hpos.
  fold (Rpower (m' / m) (-2.905)) in Hpos.
  assert (Hle : Rpower (m' / m) (-2.905) <= 3 ^ (3 * 1)).
  { apply Rpower_le_pow; [lra | done |].
    replace (INR 3) with 3 by (simpl; lra). apply Rabs_le. lra. }
  simpl in Hle. split; nra.
Qed.

Lemma Rpower_10_range (x : R) (n k : nat) :
  - INR n <= x <= INR k -> / 10 ^ n <= Rpower 10 x <= 10 ^ k.
Proof.
  intros [Hlo Hhi]. split.
  - rewrite <- (Rpower_pow n 10) by lra. rewrite <- Rpower_Ropp.
    apply Rle_Rpower; lra.
  - rewrite <- (Rpower_pow k 10) by lra. apply Rle_Rpower; lra.
Qed.

(** X7: for masses between 1 and 3 and tidal deformabilities between 1 and
    10^8 the ejecta mass of [OneComponentBNSNoProjection] is ten to the power
    of the fit of lines 59-62, which lies between -51 and 32: a real number
    between [10^-51] and [10^32], above zero without a clamp. *)
Theorem NoProjection_ejecta_mass_positive :
  forall m1 m2 l1 l2 : R,
    1 <= m1 <= 3 -> 1 <= m2 <= 3 ->
    1 <= l1 <= 100000000 -> 1 <= l2 <= 100000000 ->
    let C1 := Spec.compactness_from_tidal_deformability l1 in
    let C2 := Spec.compactness_from_tidal_deformability l2 in
    let log10_mej :=
      -0.0719 * (m1 * (1 - 2 * C1) / C1 + m2 * (1 - 2 * C2) / C2)
      + 0.2116 * (m1 * Rpower (m2 / m1) (-2.905) + m2 * Rpower (m1 / m2) (-2.905))
      + -2.42 in
    OneComponentBNSNoProjection.calculate_ejecta_mass
      (OneComponentBNSNoProjection.init_attrs (Some m1) (Some m2) (Some l1) (Some l2))
    = Ok (Some (Rpower 10 log10_mej))
    /\ -51 <= log10_mej <= 32
    /\ / 10 ^ 51 <= Rpower 10 log10_mej <= 10 ^ 32.
Proof.
  intros m1 m2 l1 l2 Hm1 Hm2 Hl1 Hl2 C1 C2 log10_mej.
  pose proof (compactness_range l1 (proj1 Hl1) (proj2 Hl1)) as HC1. fold C1 in HC1.
  pose proof (compactness_range l2 (proj1 Hl2) (proj2 Hl2)) as HC2. fold C2 in HC2.
  pose proof (compactness_term_bounds m1 C1 Hm1 HC1) as HT1.
  pose proof (compactness_term_bounds m2 C2 Hm2 HC2) as HT2.
  pose proof (ratio_term_bounds m1 m2 Hm1 Hm2) as HP1.
  pose proof (ratio_term_bounds m2 m1 Hm2 Hm1) as HP2.
  assert (Hrange : -51 <= log10_mej <= 32) by (unfold log10_mej; lra).
  split; [| split; [exact Hrange |]].
  - unfold OneComponentBNSNoProjection.calculate_ejecta_mass.
    getattrs OneComponentBNSNoProjection.init_attrs.
    rewrite !calc_compactness_fin by lra.
    fold C1 C2.
    assert (Hq21 : 0 < m2 / m1) by (apply Rdiv_lt_0_compat; lra).
    assert (Hq12 : 0 < m1 / m2) by (apply Rdiv_lt_0_compat; lra).
    cbv zeta. unfold fin. num_norm.
    reflexivity.
  - apply (Rpower_10_range log10_mej 51 32).
    replace (INR 51) with 51 by (simpl; lra).
    replace (INR 32) with 32 by (simpl; lra). exact Hrange.
Qed.

Lemma NoProjection_ejecta_mass_positive_witness :
  exists mej : R,
    OneComponentBNSNoProjection.calculate_ejecta_mass
      (OneComponentBNSNoProjection.init_attrs (Some 1.4) (Some 1.3) (Some 400) (Some 450))
    = Ok (Some mej)
    /\ / 10 ^ 51 <= mej <= 10 ^ 32.
Proof.
  pose proof (NoProjection_ejecta_mass_positive 1.4 1.3 400 450) as H.
  cbv zeta in H. destruct H as (H1 & _ & H2); [lra | lra | lra | lra |].
  eexists. split; [exact H1 | exact H2].
Defined.

(** X9: for an out-of-plane velocity [vz] between 0 and [1e30], the polar
    opening angle [calculate_qej] of both binary-neutron-star classes is a
    positive real number when the in-plane velocity [vrho] is between
    [1e-30] and [1e30], and is not a real number (a negative number under a
    cube root) when [vrho] is between [-1e30] and [-1e-30]. *)
Theorem polar_opening_angle_domain :
  forall (self : object) (vz vrho : R),
    self !! "vz" = Some (VFloat (Some vz)) ->
    self !! "vrho" = Some (VFloat (Some vrho)) ->
    0 <= vz <= 1e30 ->
    (1e-30 <= vrho <= 1e30 ->
       exists q : R,
         OneComponentBNSProjection.calculate_qej self = Ok (Some q)
         /\ OneComponentBNSNoProjection.calculate_qej self = Ok (Some q) /\ 0 < q)
    /\ (-1e30 <= vrho <= -1e-30 ->
          OneComponentBNSProjection.calculate_qej self = Ok None
          /\ OneComponentBNSNoProjection.calculate_qej self = Ok None).
Proof.
  intros self vz vrho Hz Hrho _. split.
  - intros Hpos.
    destruct (qej_pos self vz vrho Hz Hrho ltac:(lra)) as (q & Hq & Hq0).
    exists q. split; [exact Hq |]. split; [exact Hq | exact Hq0].
  - intros Hneg. pose proof (qej_nan self vz vrho Hz Hrho ltac:(lra)) as Hq.
    split; exact Hq.
Qed.

Lemma polar_opening_angle_domain_witness :
  (exists q : R,
     OneComponentBNSProjection.calculate_qej
       (setattr (setattr ∅ "vrho" (VFloat (Some 0.2))) "vz" (VFloat (Some 0.1)))
     = Ok (Some q)
     /\ OneComponentBNSNoProjection.calculate_qej
          (setattr (setattr ∅ "vrho" (VFloat (Some 0.2))) "vz" (VFloat (Some 0.1)))
        = Ok (Some q)
     /\ 0 < q)
  /\ OneComponentBNSProjection.calculate_qej
       (setattr (setattr ∅ "vrho" (VFloat (Some (-0.2)))) "vz" (VFloat (Some 0.1)))
     = Ok None.
Proof.
  split.
  - destruct (polar_opening_angle_domain
                (setattr (setattr ∅ "vrho" (VFloat (Some 0.2))) "vz" (VFloat (Some 0.1)))
                0.1 0.2) as [Hpos _].
    + reflexivity.
    + reflexivity.
    + lra.
    + apply Hpos. lra.
  - destruct (polar_opening_angle_domain
                (setattr (setattr ∅ "vrho" (VFloat (Some (-0.2)))) "vz"
                   (VFloat (Some 0.1)))
                0.1 (-0.2)) as [_ Hneg].
    + reflexivity.
    + reflexivity.
    + lra.
    + apply Hneg. lra.
Defined.

(** X10: for a spin below -1 or above 1 [isco_radius] is not a real number
    (the cube root of the negative [1 - chi^2]). *)
Theorem isco_radius_outside_spin_range :
  forall (self : object) (chi : R),
    self !! "chi_eff" = Some (VFloat (Some chi)) ->
    chi < -1 \/ 1 < chi ->
    OneComponentNSBH.isco_radius self = Ok None.
Proof.
  intros self chi Hself Hchi. unfold OneComponentNSBH.isco_radius.
  rewrite (attr_lookup _ _ _ Hself). cbn [mbind result_bind].
  cbv zeta. unfold fin. rewrite !div_fin by lra. autorewrite with num.
  assert (Hneg : 1 - chi * chi < 0) by (destruct Hchi; nra).
  replace (1 / 3.0) with (1.0 / 3) by lra.
  rewrite (Rpow_neg_frac _ _ Hneg Int_part_third). reflexivity.
Qed.

Lemma isco_radius_outside_spin_range_witness :
  OneComponentNSBH.isco_radius
    (OneComponentNSBH.init_attrs (Some 5) (Some 1.4) (Some 2) (Some 400))
  = Ok None.
Proof.
  apply (isco_radius_outside_spin_range _ 2).
  - reflexivity.
  - right. lra.
Defined.



(** X13: for a mass of size at most [1e100] and a radius of a size between
    [1e-100] and [1e100], [calc_baryonic_mass_eos_insensitive] is
    [mass_g + mass_g^2 / radius_14]: at least the mass for a positive
    radius, at most the mass for a negative one. *)
Theorem eos_insensitive_baryonic_mass :
  forall m r : R,
    Rabs m <= 1e100 -> 1e-100 <= Rabs r <= 1e100 ->
    calc_baryonic_mass_eos_insensitive (Some m) (Some r) = Some (m + m ^ 2 / r)
    /\ (0 < r -> m <= m + m ^ 2 / r)
    /\ (r < 0 -> m + m ^ 2 / r <= m).
Proof.
  intros m r _ Hr.
  assert (Hne : r <> 0).
  { intros ->. rewrite Rabs_R0 in Hr. lra. }
  assert (Hsq : 0 <= m ^ 2) by (replace (m ^ 2) with (m * m) by ring; nra).
  split; [by apply eos_insensitive_fin |]. split.
  - intros Hpos. assert (0 < / r) by (by apply Rinv_0_lt_compat).
    unfold Rdiv. nra.
  - intros Hneg. assert (/ r < 0) by (by apply Rinv_lt_0_compat).
    unfold Rdiv. nra.
Qed.

Lemma eos_insensitive_baryonic_mass_witness :
  calc_baryonic_mass_eos_insensitive (Some 1.4) (Some 1.2)
  = Some (1.4 + 1.4 ^ 2 / 1.2)
  /\ 1.4 <= 1.4 + 1.4 ^ 2 / 1.2.
Proof.
  destruct (eos_insensitive_baryonic_mass 1.4 1.2) as (Hfin & Hpos & _).
  - rewrite Rabs_right by lra. lra.
  - rewrite Rabs_right by lra. lra.
  - split; [exact Hfin | apply Hpos; lra].
Defined.





(** X16: between tidal deformabilities 1 and 10^8 the compactness
    [calc_compactness_from_lambda] computes stays within the range the fits
    are made for, above 0.009 and at most 0.371 (so below 0.5), and up to
    10^8 a larger tidal deformability gives a smaller compactness. *)
Theorem calc_compactness_from_lambda_decreasing :
  (forall l1 l2 : R, 0 < l1 -> l1 < l2 -> l2 <= 100000000 ->
     exists c1 c2 : R,
       calc_compactness_from_lambda (Some l1) = Some c1
       /\ calc_compactness_from_lambda (Some l2) = Some c2 /\ c2 < c1)
  /\ (forall l : R, 1 <= l -> l <= 100000000 ->
        exists c : R,
          calc_compactness_from_lambda (Some l) = Some c /\ 0.009 < c <= 0.371).
Proof.
  split.
  - intros l1 l2 H1 H12 H2. eexists _, _.
    split; [apply calc_compactness_fin; lra |].
    split; [apply calc_compactness_fin; lra |].
    by apply compactness_decreasing.
  - intros l H1 H2. eexists. split; [apply calc_compactness_fin; lra |].
    by apply compactness_range.
Qed.

Lemma calc_compactness_from_lambda_decreasing_witness :
  (exists c1 c2 : R,
     calc_compactness_from_lambda (Some 300) = Some c1
     /\ calc_compactness_from_lambda (Some 400) = Some c2 /\ c2 < c1)
  /\ (exists c : R,
        calc_compactness_from_lambda (Some 400) = Some c /\ 0.009 < c <= 0.371).
Proof.
  destruct calc_compactness_from_lambda_decreasing as [Hdec Hrange].
  split.
  - apply Hdec; lra.
  - apply Hrange; lra.
Defined.

End EjectaMoreFacts.

(** ** The range of the ISCO radius *)

Module IscoFacts.

Import Num Py EjectaRelations NumFacts EjectaFacts.
Open Scope R_scope.

Lemma cube_inj (x y : R) : 0 <= x -> 0 <= y -> x ^ 3 = y ^ 3 -> x = y.
Proof.
  intros Hx Hy H.
  destruct (Rtotal_order x y) as [Hlt | [Heq | Hgt]]; [exfalso | done | exfalso].
  - assert (x * x <= y * y) by nra. assert (0 < y) by lra.
    assert (0 < y * y) by nra.
    assert (x ^ 3 < y ^ 3); [| lra]. simpl.
    assert (x * (x * x) <= x * (y * y)) by (apply Rmult_le_compat_l; lra).
    assert (x * (y * y) < y * (y * y)) by (apply Rmult_lt_compat_r; lra).
    lra.
  - assert (y * y <= x * x) by nra. assert (0 < x) by lra.
    assert (0 < x * x) by nra.
    assert (y ^ 3 < x ^ 3); [| lra]. simpl.
    assert (y * (y * y) <= y * (x * x)) by (apply Rmult_le_compat_l; lra).
    assert (y * (x * x) < x * (x * x)) by (apply Rmult_lt_compat_r; lra).
    lra.
Qed.

Lemma cbrt_mult (chi : R) : -1 <= chi <= 1 ->
  Spec.cbrt (1 - chi ^ 2) = Spec.cbrt (1 + chi) * Spec.cbrt (1 - chi).
Proof.
  intros Hchi.
  pose proof (cbrt_nonneg (1 - chi ^ 2)). pose proof (cbrt_nonneg (1 + chi)).
  pose proof (cbrt_nonneg (1 - chi)).
  apply cube_inj; [done | by apply Rmult_le_pos |].
  rewrite Rpow_mult_distr, !cbrt_cube by nra. ring.
Qed.

Lemma Z2_sqr (chi : R) : Spec.Z2 chi ^ 2 = 3 * chi ^ 2 + Spec.Z1 chi ^ 2.
Proof.
  unfold Spec.Z2.
  set (s := 3 * chi ^ 2 + Spec.Z1 chi ^ 2).
  assert (Hs : 0 <= s) by (unfold s; nra).
  replace (R_sqrt.sqrt s ^ 2) with (R_sqrt.sqrt s * R_sqrt.sqrt s) by ring.
  by apply sqrt_sqrt.
Qed.

Lemma Z1_Z2_curve (chi : R) : -1 <= chi <= 1 ->
  Spec.Z2 chi ^ 2 * (3 * Spec.Z1 chi - 1) = 8 * Spec.Z1 chi ^ 2.
Proof.
  intros Hchi. rewrite Z2_sqr. unfold Spec.Z1. rewrite cbrt_mult by done.
  pose proof (cbrt_cube (1 + chi) ltac:(lra)) as Ha3.
  pose proof (cbrt_cube (1 - chi) ltac:(lra)) as Hb3.
  set (a := Spec.cbrt (1 + chi)) in *.
  set (b := Spec.cbrt (1 - chi)) in *.
  clearbody a b.
  assert (Hsum : a ^ 3 + b ^ 3 = 2) by lra.
  assert (Hchi' : chi = (a ^ 3 - b ^ 3) / 2) by lra.
  set (q := a * a + a * b + b * b).
  assert (HZ1 : 1 + a * b * (a + b) = (a + b) * q / 2).
  { unfold q. replace 1 with ((a ^ 3 + b ^ 3) / 2) by lra. field. }
  rewrite HZ1, Hchi'.
  replace (3 * ((a + b) * q / 2) - 1) with ((a + b) ^ 3).
  2:{ replace 1 with ((a ^ 3 + b ^ 3) / 2) by lra. unfold q. field. }
  transitivity (q ^ 2 * (a + b) ^ 2 * (a ^ 3 + b ^ 3)).
  - unfold q. field.
  - rewrite Hsum. field.
Qed.

Lemma isco_curve_bounds (x y : R) :
  1 <= x <= 3 -> 0 <= y -> y ^ 2 * (3 * x - 1) = 8 * x ^ 2 ->
  2 <= y <= 3 /\ x <= y
  /\ 0 <= (x + y) ^ 2 - 2 * y - 5
  /\ 0 <= 27 - 18 * y + (x + y) ^ 2.
Proof.
  intros Hx Hy Hc.
  assert (Hy3 : y <= 3).
  { destruct (Rle_dec y 3) as [| Hn]; [done |]. exfalso.
    assert (9 < y ^ 2) by nra. nra. }
  assert (Hy2 : 2 <= y).
  { destruct (Rle_dec 2 y) as [| Hn]; [done |]. exfalso.
    assert (y ^ 2 < 4) by nra. nra. }
  assert (Hxy : x <= y).
  { destruct (Rle_dec x y) as [| Hn]; [done |]. exfalso.
    assert (y ^ 2 < x ^ 2) by nra. nra. }
  split; [done |]. split; [done |].
  set (k := y / x).
  assert (Hx0 : 0 < x) by lra.
  assert (Hyk : y = k * x) by (unfold k; field; lra).
  assert (Hk1 : 1 <= k).
  { unfold k. apply Rmult_le_reg_r with (r := x); [done |].
    replace (y / x * x) with y by (field; lra). lra. }
  assert (Hk8 : k ^ 2 * (3 * x - 1) = 8).
  { apply Rmult_eq_reg_r with (r := x ^ 2); [| nra].
    rewrite <- Hc, Hyk. ring. }
  assert (Hk2 : k <= 2).
  { destruct (Rle_dec k 2) as [| Hn]; [done |]. exfalso.
    assert (4 < k ^ 2) by nra. nra. }
  assert (Hxk : x = (8 + k ^ 2) / (3 * k ^ 2)).
  { apply Rmult_eq_reg_r with (r := 3 * k ^ 2); [| nra].
    replace ((8 + k ^ 2) / (3 * k ^ 2) * (3 * k ^ 2)) with (8 + k ^ 2) by (field; nra).
    nra. }
  assert (Hk4 : 0 < 9 * k ^ 4) by (assert (0 < k ^ 2) by nra; nra).
  assert (Hneg : k ^ 4 * (k - 2) <= 0).
  { assert (0 <= k ^ 4) by (assert (0 <= k ^ 2) by nra; nra). nra. }
  assert (Hk3 : 0 <= k ^ 3) by (assert (0 <= k ^ 2) by nra; nra).
  assert (Hksq : 0 <= k ^ 2) by nra.
  split.
  - apply Rmult_le_reg_l with (r := 9 * k ^ 4); [done |]. rewrite Rmult_0_r.
    replace (9 * k ^ 4 * ((x + y) ^ 2 - 2 * y - 5))
      with ((k - 2) * (k ^ 4 * (k - 2) - 32 * k ^ 3 - 80 * k ^ 2 - 80 * k - 32)).
    2:{ rewrite Hyk, Hxk. field. nra. }
    assert (k ^ 4 * (k - 2) - 32 * k ^ 3 - 80 * k ^ 2 - 80 * k - 32 <= 0) by nra.
    nra.
  - apply Rmult_le_reg_l with (r := 9 * k ^ 4); [done |]. rewrite Rmult_0_r.
    replace (9 * k ^ 4 * (27 - 18 * y + (x + y) ^ 2))
      with ((k - 2) ^ 2 * ((k - 2) * (k ^ 3 - 46 * k ^ 2 - 28 * k - 8))).
    2:{ rewrite Hyk, Hxk. field. nra. }
    assert (k ^ 3 - 46 * k ^ 2 - 28 * k - 8 <= 0) by nra.
    assert (0 <= (k - 2) * (k ^ 3 - 46 * k ^ 2 - 28 * k - 8)) by nra.
    apply Rmult_le_pos; [apply pow2_ge_0 | done].
Qed.

Lemma sqrt_le_of_sqr (a b : R) : 0 <= b -> a <= b ^ 2 -> R_sqrt.sqrt a <= b.
Proof.
  intros Hb Hab. rewrite <- (sqrt_pow2 b Hb). by apply sqrt_le_1_alt.
Qed.

Lemma sqrt_ge_of_sqr (a b : R) : b ^ 2 <= a -> b <= R_sqrt.sqrt a.
Proof.
  intros Hab. destruct (Rle_dec 0 b) as [Hb | Hb].
  - rewrite <- (sqrt_pow2 b Hb). by apply sqrt_le_1_alt.
  - pose proof (sqrt_pos a). lra.
Qed.

Lemma bpt_isco_radius_range (chi : R) :
  -1 <= chi <= 1 ->
  1 <= Spec.bpt_isco_radius chi <= 9
  /\ (0 <= chi -> Spec.bpt_isco_radius chi <= 6)
  /\ (chi <= 0 -> 6 <= Spec.bpt_isco_radius chi).
Proof.
  intros Hchi.
  pose proof (Z1_bounds chi Hchi) as Hx.
  assert (Hy : 0 <= Spec.Z2 chi) by apply sqrt_pos.
  pose proof (Z1_Z2_curve chi Hchi) as Hc.
  destruct (isco_curve_bounds _ _ Hx Hy Hc) as (Hy23 & Hxy & H1 & H9).
  unfold Spec.bpt_isco_radius. cbv zeta.
  set (x := Spec.Z1 chi) in *. set (y := Spec.Z2 chi) in *.
  set (root := R_sqrt.sqrt ((3 - x) * (3 + x + 2 * y))).
  assert (Hr0 : 0 <= root) by apply sqrt_pos.
  destruct (Rle_dec 0 chi) as [Hpos | Hneg].
  - assert (Hr : root <= 2 + y) by (apply sqrt_le_of_sqr; nra).
    split; [lra |]. split; [lra |].
    intros Hle. assert (chi = 0) by lra. subst chi.
    unfold root, x. rewrite Z1_0.
    replace ((3 - 3) * (3 + 3 + 2 * y)) with 0 by ring. rewrite sqrt_0.
    unfold y. rewrite Z2_0. lra.
  - assert (Hr : root <= 6 - y) by (apply sqrt_le_of_sqr; nra).
    assert (Hr' : 3 - y <= root) by (apply sqrt_ge_of_sqr; nra).
    split; [lra |]. split; [lra |]. lra.
Qed.

(** X11: for a spin between -1 and 1 the radius [isco_radius] computes lies
    between 1 and 9; it is at most 6 for a spin that is not negative (a
    prograde orbit) and at least 6 for a spin that is not positive (a
    retrograde one). *)
Theorem isco_radius_range :
  forall (self : object) (chi : R),
    -1 <= chi <= 1 ->
    self !! "chi_eff" = Some (VFloat (Some chi)) ->
    exists risco : R,
      OneComponentNSBH.isco_radius self = Ok (Some risco)
      /\ 1 <= risco <= 9
      /\ (0 <= chi -> risco <= 6)
      /\ (chi <= 0 -> 6 <= risco).
Proof.
  intros self chi Hchi Hself. exists (Spec.bpt_isco_radius chi).
  split; [by apply isco_radius_fin |].
  by apply bpt_isco_radius_range.
Qed.

Lemma isco_radius_range_witness :
  exists risco : R,
    OneComponentNSBH.isco_radius
      (OneComponentNSBH.init_attrs (Some 5) (Some 1.4) (Some 0.5) (Some 400))
    = Ok (Some risco)
    /\ 1 <= risco <= 9
    /\ (0 <= 0.5 -> risco <= 6)
    /\ (0.5 <= 0 -> 6 <= risco).
Proof.
  apply (isco_radius_range _ 0.5).
  - lra.
  - reflexivity.
Defined.

End IscoFacts.

(** ** The compactness from mass and radius *)

Module CompactnessFacts.

Import Num EjectaRelationsSI NumFacts.
Open Scope R_scope.

Section Constants.
Variables M G c : R.
Hypothesis HM : 0 < M.
Hypothesis HG : 0 < G.
Hypothesis Hc : 0 < c.




End Constants.


End CompactnessFacts.

(** ** Paths *)

Module PathFacts.
Import World PyLib.

Lemma split_path_cur (p cur : string) : cur <> "" -> split_path cur p <> [].
Proof.
  revert cur. induction p as [| c p IH]; intros cur Hcur; simpl.
  - destruct (decide (cur = "")); [contradiction | discriminate].
  - destruct (decide (c = slash)).
    + destruct (decide (cur = "")); [contradiction | discriminate].
    + apply IH. destruct cur; discriminate.
Qed.

Lemma split_path_app (a b : string) :
  (forall cur, split_path cur b <> []) -> forall cur, split_path cur (a +:+ b) <> [].
Proof.
  intros Hb. induction a as [| c a IH]; intros cur; simpl.
  - apply Hb.
  - destruct (decide (c = slash)).
    + intros H. apply app_eq_nil in H as [_ H]. by apply IH in H.
    + apply IH.
Qed.

Lemma split_path_GRB (rest : string) :
  forall cur, split_path cur ("/GRB" +:+ rest) <> [].
Proof.
  intros cur. simpl.
  intros H. apply app_eq_nil in H as [_ H]. revert H. apply split_path_cur. discriminate.
Qed.

Lemma normpath_in_with_parents (p : string) :
  split_path "" p <> [] -> normpath p ∈ with_parents p.
Proof.
  intros Hne. unfold with_parents, normpath. cbv zeta.
  apply list_elem_of_fmap. exists (length (split_path "" p)). split.
  - by rewrite firstn_all.
  - apply elem_of_seq. destruct (split_path "" p); [done | simpl; lia].
Qed.

Lemma normpath_GRB (a rest : string) :
  normpath (a +:+ "/GRB" +:+ rest) ∈ with_parents (a +:+ "/GRB" +:+ rest).
Proof.
  apply normpath_in_with_parents. apply split_path_app. apply split_path_GRB.
Qed.

End PathFacts.


(** ** The fitting functions, from the call to the stored result *)

Module SamplerMoreFacts.
Import World PyLib Sampler FitTerms PathFacts SamplerFacts.
Open Scope world_scope.

Section Environment.
Variable dirname : string.
Variable all_models_dict : gmap string Model.
Variable sampling : run_sampler_args -> PriorDict -> result float.

Lemma run_sampler_clash lik priors label sampler nlive outdir walks resume maxmcmc
  meta save kwargs (w : world) (k : string) :
  k ∈ run_sampler_keywords -> is_Some (kwargs !! k) ->
  run_sampler sampling lik priors label sampler nlive outdir walks resume
    maxmcmc meta save kwargs w
  = (Err (TypeError "run_sampler() got multiple values for keyword argument"), w).
Proof.
  intros Hk Hsome. unfold run_sampler.
  rewrite bool_decide_eq_true_2; [reflexivity |].
  apply Exists_exists. eauto.
Qed.

Lemma bind_ret_r {A : Type} (m : M A) (w : world) : (x <- m;; ret x) w = m w.
Proof. unfold bind, ret. by destruct (m w) as [[a | e] w']. Qed.

Lemma fit_kilonova_unfold name t model outdir sampler nlive prior walks flag data_mode
  resume save model_kwargs kwargs (w : world) :
  _fit_kilonova sampling name t model outdir sampler nlive prior walks flag data_mode
    resume save model_kwargs kwargs w
  = run_sampler sampling
      (kwargs_get kwargs "likelihood" (KwLikelihood (gaussian_likelihood t model model_kwargs)))
      prior (photon_label data_mode flag) sampler nlive
      (outdir +:+ "/" +:+ name +:+ "/" +:+ __name__ model) walks resume (10 * walks)
      (make_meta_data model (lower (class_name t)) t model_kwargs) save kwargs
      (made (outdir +:+ "/" +:+ name +:+ "/" +:+ __name__ model) w).
Proof.
  unfold _fit_kilonova, gaussian_likelihood, fit_data, photon_label, made.
  destruct (if flux_density_data t || photometry_data t
            then get_filtered_data t else (x t, x_err t, y t, y_err t))
    as [[[dx dxe] dy] dye].
  unfold bind at 1. unfold Path_mkdir_parents_exist_ok, modify. simpl.
  apply bind_ret_r.
Qed.

Lemma fit_prompt_unfold name t model outdir irf sampler nlive prior walks flag data_mode
  resume save model_kwargs kwargs (w : world) :
  _fit_prompt sampling name t model outdir irf sampler nlive prior walks flag data_mode
    resume save model_kwargs kwargs w
  = run_sampler sampling
      (KwLikelihood (PoissonLikelihood (x t) (y t) (bin_size t) model irf model_kwargs))
      prior (photon_label data_mode flag) sampler nlive
      (outdir +:+ "/GRB" +:+ name +:+ "/" +:+ __name__ model) walks resume (10 * walks)
      (make_meta_data model "prompt" t model_kwargs) save kwargs
      (made (outdir +:+ "/GRB" +:+ name +:+ "/" +:+ __name__ model) w).
Proof.
  unfold _fit_prompt, photon_label, made.
  unfold bind at 1. unfold Path_mkdir_parents_exist_ok, modify. simpl.
  apply bind_ret_r.
Qed.

Lemma fit_grb_unfold name t model outdir sampler nlive p walks flag data_mode
  resume save model_kwargs kwargs (w : world) :
  _fit_grb sampling name t model outdir sampler nlive (Some p) walks flag data_mode
    resume save model_kwargs kwargs w
  = run_sampler sampling
      (kwargs_get kwargs "likelihood" (KwLikelihood (gaussian_likelihood t model model_kwargs)))
      (Some p) (photon_label data_mode flag) sampler nlive
      (outdir +:+ "/GRB" +:+ name +:+ "/" +:+ __name__ model) walks resume (10 * walks)
      (make_meta_data model (lower (class_name t)) t model_kwargs) save kwargs
      (made (outdir +:+ "/GRB" +:+ name +:+ "/" +:+ __name__ model)
         (photon_prior_set t p flag w)).
Proof.
  unfold _fit_grb, gaussian_likelihood, fit_data, photon_label, made, photon_prior_set,
    alpha_1_prior.
  destruct (if flux_density_data t || photometry_data t
            then get_filtered_data t else (x t, x_err t, y t, y_err t))
    as [[[dx dxe] dy] dye].
  destruct flag; [destruct (photon_index t <? 0)%float |];
    unfold bind at 1; unfold bind at 1;
    unfold prior_setitem, logger_info, Path_mkdir_parents_exist_ok, modify, ret, bind at 1; simpl;
    apply bind_ret_r.
Qed.


Lemma run_sampler_outcome lik priors label sampler nlive outdir walks resume maxmcmc
  meta save kwargs (w : world) :
  let out := run_sampler sampling lik priors label sampler nlive outdir walks resume
               maxmcmc meta save kwargs w in
  match out.1 with
  | Ok r =>
      res_label r = label /\ res_outdir r = outdir /\ res_meta_data r = meta
      /\ result_files out.2
         = <[outdir +:+ "/" +:+ label +:+ "_result." +:+ save := r]> (result_files w)
      /\ exists a pd, sampler_runs out.2 = sampler_runs w ++ [(a, pd)]
                      /\ sampling a pd = Ok (log_evidence r)
  | Err e =>
      result_files out.2 = result_files w
      /\ (sampler_runs out.2 = sampler_runs w
          \/ exists a pd, sampler_runs out.2 = sampler_runs w ++ [(a, pd)]
                          /\ sampling a pd = Err e)
  end.
Proof.
  cbv zeta. unfold run_sampler.
  repeat case_match; simplify_eq/=; eauto 10.
Qed.


Ltac sampler_call :=
  match goal with
  | |- context [run_sampler ?s ?a ?b ?c ?d ?e ?f ?g ?h ?i ?j ?k ?l ?w] =>
      pose proof (run_sampler_outcome a b c d e f g h i j k l w) as Hout;
      pose proof (run_sampler_frame s a b c d e f g h i j k l w) as (_ & Hdirs & _);
      cbv zeta in Hout, Hdirs;
      destruct (run_sampler s a b c d e f g h i j k l w) as [[r | e'] w2];
      simpl in *
  end.

Lemma fit_kilonova_outcome name t model outdir sampler nlive prior walks flag data_mode
  resume save model_kwargs kwargs (w : world) :
  fit_outcome sampling (outdir +:+ "/" +:+ name +:+ "/" +:+ __name__ model)
    (photon_label data_mode flag) save w
    (_fit_kilonova sampling name t model outdir sampler nlive prior walks flag data_mode
       resume save model_kwargs kwargs w).
Proof.
  rewrite fit_kilonova_unfold. unfold fit_outcome, made.
  sampler_call; [| done].
  destruct Hout as (? & ? & ? & ? & ?). by rewrite Hdirs.
Qed.

Lemma fit_prompt_outcome name t model outdir irf sampler nlive prior walks flag data_mode
  resume save model_kwargs kwargs (w : world) :
  fit_outcome sampling (outdir +:+ "/GRB" +:+ name +:+ "/" +:+ __name__ model)
    (photon_label data_mode flag) save w
    (_fit_prompt sampling name t model outdir irf sampler nlive prior walks flag data_mode
       resume save model_kwargs kwargs w).
Proof.
  rewrite fit_prompt_unfold. unfold fit_outcome, made.
  sampler_call; [| done].
  destruct Hout as (? & ? & ? & ? & ?). by rewrite Hdirs.
Qed.

Lemma photon_prior_set_frame t p flag (w : world) :
  dirs (photon_prior_set t p flag w) = dirs w
  /\ result_files (photon_prior_set t p flag w) = result_files w
  /\ sampler_runs (photon_prior_set t p flag w) = sampler_runs w
  /\ prior_files (photon_prior_set t p flag w) = prior_files w.
Proof.
  unfold photon_prior_set. destruct flag; [destruct (photon_index t <? 0)%float |]; done.
Qed.

Lemma fit_grb_outcome name t model outdir sampler nlive prior walks flag data_mode
  resume save model_kwargs kwargs (w : world) :
  fit_outcome sampling (outdir +:+ "/GRB" +:+ name +:+ "/" +:+ __name__ model)
    (photon_label data_mode flag) save w
    (_fit_grb sampling name t model outdir sampler nlive prior walks flag data_mode
       resume save model_kwargs kwargs w).
Proof.
  destruct prior as [p |].
  - rewrite fit_grb_unfold. unfold fit_outcome, made.
    destruct (photon_prior_set_frame t p flag w) as (Hd & Hf & Hr & _).
    sampler_call.
    + destruct Hout as (? & ? & ? & ? & ?). rewrite Hdirs, <- Hd, <- Hf, <- Hr. done.
    + rewrite <- Hf, <- Hr. done.
  - unfold fit_outcome, _fit_grb.
    destruct (if flux_density_data t || photometry_data t
              then get_filtered_data t else (x t, x_err t, y t, y_err t))
      as [[[dx dxe] dy] dye].
    destruct flag; [destruct (photon_index t <? 0)%float |];
      unfold bind, prior_setitem, logger_info, Path_mkdir_parents_exist_ok, modify, ret,
        raise; simpl; auto.
    sampler_call; [| done].
    destruct Hout as (? & ? & ? & ? & ?). by rewrite Hdirs.
Qed.


Lemma fit_model_after_lookup name t model m outdir sampler nlive prior walks truncate
  flag truncate_method data_mode resume save model_kwargs kwargs (w : world) :
  resolves all_models_dict model m ->
  let out := fit_model dirname all_models_dict sampling name t model outdir sampler
               nlive prior walks truncate flag truncate_method data_mode resume save
               model_kwargs kwargs w in
  match out.1 with
  | Ok (Some r) =>
      res_label r = photon_label data_mode flag
      /\ res_outdir r = fit_directory t outdir name m
      /\ result_files out.2
         = <[fit_directory t outdir name m +:+ "/" +:+ photon_label data_mode flag
             +:+ "_result." +:+ save := r]> (result_files w)
      /\ dirs out.2 = dirs w ∪ list_to_set (with_parents (fit_directory t outdir name m))
      /\ exists a pd, sampler_runs out.2 = sampler_runs w ++ [(a, pd)]
                      /\ sampling a pd = Ok (log_evidence r)
  | Ok None =>
      result_files out.2 = result_files w /\ sampler_runs out.2 = sampler_runs w
      /\ dirs out.2 = dirs w
  | Err e =>
      result_files out.2 = result_files w
      /\ (sampler_runs out.2 = sampler_runs w
          \/ exists a pd, sampler_runs out.2 = sampler_runs w ++ [(a, pd)]
                          /\ sampling a pd = Err e)
  end.
Proof.
  intros Hm out.
  assert (Hlook : forall (w : world),
            match model with
            | ModelName s => match all_models_dict !! s with
                             | Some m => ret m
                             | None => raise (KeyError s)
                             end
            | ModelFunction m => ret m
            end w = (Ok m, w)).
  { intros w'. destruct Hm as [-> | (s & -> & Hs)]; [| rewrite Hs]; reflexivity. }
  assert (Hprior : exists (pr : option loc) (w0 : world),
            (match prior with
             | Some l => ret (Some l)
             | None => l <- PriorDict_from_file
                              (dirname +:+ "/Priors/" +:+ model_repr m +:+ ".prior");;
                       ret (Some l)
             end w = (Ok pr, w0)
             /\ result_files w0 = result_files w /\ sampler_runs w0 = sampler_runs w
             /\ dirs w0 = dirs w)
            \/ exists e, match prior with
                         | Some l => ret (Some l)
                         | None => l <- PriorDict_from_file
                                          (dirname +:+ "/Priors/" +:+ model_repr m
                                           +:+ ".prior");;
                                   ret (Some l)
                         end w = (Err e, w)).
  { destruct prior as [l |].
    - exists (Some l), w. left. done.
    - unfold bind, PriorDict_from_file, ret.
      destruct (prior_files w !! _) as [d |] eqn:Hd.
      + eexists _, _. left. split; [reflexivity | done].
      + exists None, w. right. eauto. }
  assert (E : out = fit_model dirname all_models_dict sampling name t model outdir
                      sampler nlive prior walks truncate flag truncate_method data_mode
                      resume save model_kwargs kwargs w) by reflexivity.
  clearbody out.
  unfold fit_model in E. unfold bind at 1 in E. rewrite Hlook in E.
  unfold bind at 1 in E.
  destruct Hprior as (pr & w0 & [(Hp & Hf & Hr & Hd) | [e He]]).
  2:{ rewrite He in E. subst out. simpl. split; [done | by left]. }
  rewrite Hp in E. unfold fit_directory.
  destruct (isinstance t "Afterglow").
  { unfold bind at 1 in E. revert E.
    match goal with
    | |- context [_fit_grb ?s ?a ?b ?c ?d ?e ?f ?g ?h ?i ?j ?k ?l ?mk ?kw ?w] =>
        pose proof (fit_grb_outcome a b c d e f g h i j k l mk kw w) as Hout;
        unfold fit_outcome in Hout;
        destruct (_fit_grb s a b c d e f g h i j k l mk kw w) as [[r | e'] w2]
    end; simpl in *; intros ->; simpl; rewrite <- Hf, <- Hr, <- ?Hd; done. }
  destruct (isinstance t "Kilonova").
  { unfold bind at 1 in E. revert E.
    match goal with
    | |- context [_fit_kilonova ?s ?a ?b ?c ?d ?e ?f ?g ?h ?i ?j ?k ?l ?mk ?kw ?w] =>
        pose proof (fit_kilonova_outcome a b c d e f g h i j k l mk kw w) as Hout;
        unfold fit_outcome in Hout;
        destruct (_fit_kilonova s a b c d e f g h i j k l mk kw w) as [[r | e'] w2]
    end; simpl in *; intros ->; simpl; rewrite <- Hf, <- Hr, <- ?Hd; done. }
  destruct (isinstance t "PromptTimeSeries").
  { unfold bind at 1 in E. revert E.
    match goal with
    | |- context [_fit_prompt ?s ?a ?b ?c ?d ?ir ?e ?f ?g ?h ?i ?j ?k ?l ?mk ?kw ?w] =>
        pose proof (fit_prompt_outcome a b c d ir e f g h i j k l mk kw w) as Hout;
        unfold fit_outcome in Hout;
        destruct (_fit_prompt s a b c d ir e f g h i j k l mk kw w) as [[r | e'] w2]
    end; simpl in *; intros ->; simpl; rewrite <- Hf, <- Hr, <- ?Hd; done. }
  destruct (isinstance t "Supernova"); [subst out; simpl; auto |].
  destruct (isinstance t "TDE"); subst out; simpl; auto.
Qed.


Lemma made_frame dir (w : world) :
  dirs (made dir w) = dirs w ∪ list_to_set (with_parents dir)
  /\ result_files (made dir w) = result_files w
  /\ sampler_runs (made dir w) = sampler_runs w.
Proof. done. Qed.

(** X18: for an afterglow, a kilonova or a prompt time series, a keyword of
    the call of [run_sampler] that is also passed through the keyword
    arguments of [fit_model] (such as a likelihood of the caller's own) makes
    the fit fail with the [TypeError] of a keyword given twice: the sampler
    does not run and no result is written, though the output directory has
    been made. *)
Theorem fit_model_duplicate_keyword :
  forall name t m outdir sampler nlive p walks truncate flag truncate_method data_mode
         resume save model_kwargs kwargs (w : world) (k : string),
    isinstance t "Afterglow" = true \/ isinstance t "Kilonova" = true
    \/ isinstance t "PromptTimeSeries" = true ->
    k ∈ run_sampler_keywords -> is_Some (kwargs !! k) ->
    let out := fit_model dirname all_models_dict sampling name t (ModelFunction m)
                 outdir sampler nlive (Some p) walks truncate flag truncate_method
                 data_mode resume save model_kwargs kwargs w in
    out.1 = Err (TypeError "run_sampler() got multiple values for keyword argument")
    /\ sampler_runs out.2 = sampler_runs w
    /\ result_files out.2 = result_files w
    /\ dirs out.2 = dirs w ∪ list_to_set (with_parents (fit_directory t outdir name m)).
Proof.
  intros name t m outdir sampler nlive p walks truncate flag truncate_method data_mode
    resume save model_kwargs kwargs w k Hkind Hk Hsome out.
  assert (Hsome' : is_Some ((<["truncate_method" := KwStr truncate_method]>
                               (<["truncate" := KwBool truncate]> kwargs)) !! k)).
  { rewrite !lookup_insert_is_Some.
    destruct (decide ("truncate_method" = k)); [by left | right; split; [done |]].
    destruct (decide ("truncate" = k)); [by left | by right]. }
  assert (Hsome'' : is_Some (delete "integrated_rate_function" kwargs !! k)).
  { apply lookup_delete_is_Some. split; [| done].
    intros <-. unfold run_sampler_keywords in Hk.
    repeat (apply elem_of_cons in Hk as [Hk | Hk]; [discriminate Hk |]).
    by apply elem_of_nil in Hk. }
  assert (Hout : out = (Err (TypeError "run_sampler() got multiple values for keyword argument"),
                        made (fit_directory t outdir name m)
                          (if isinstance t "Afterglow" then photon_prior_set t p flag w
                           else w))).
  { unfold out, fit_model, fit_directory. unfold bind, ret. cbv beta iota.
    destruct (isinstance t "Afterglow").
    { rewrite fit_grb_unfold.
      by rewrite (run_sampler_clash _ _ _ _ _ _ _ _ _ _ _ _ _ k Hk Hsome'). }
    destruct (isinstance t "Kilonova").
    { rewrite fit_kilonova_unfold.
      by rewrite (run_sampler_clash _ _ _ _ _ _ _ _ _ _ _ _ _ k Hk Hsome'). }
    destruct (isinstance t "PromptTimeSeries").
    { rewrite fit_prompt_unfold.
      by rewrite (run_sampler_clash _ _ _ _ _ _ _ _ _ _ _ _ _ k Hk Hsome''). }
    destruct Hkind as [? | [? | ?]]; discriminate. }
  rewrite Hout. cbn [fst snd].
  destruct (made_frame (fit_directory t outdir name m)
              (if isinstance t "Afterglow" then photon_prior_set t p flag w else w))
    as (Hd' & Hf' & Hr').
  rewrite Hd', Hf', Hr'.
  destruct (photon_prior_set_frame t p flag w) as (Hd & Hf & Hr & _).
  destruct (isinstance t "Afterglow"); [by rewrite Hd, Hf, Hr | done].
Qed.

(** X19: [fit_model] fails before it looks at the transient: for a model
    name that is not registered with the [KeyError] of that name, and, when
    no prior is passed in and the default prior file of the model is missing,
    with the error of reading that file; the world is left as it was. *)
Theorem fit_model_fails_before_dispatch :
  forall name t model outdir sampler nlive prior walks truncate flag truncate_method
         data_mode resume save model_kwargs kwargs (w : world),
    let out := fit_model dirname all_models_dict sampling name t model outdir sampler
                 nlive prior walks truncate flag truncate_method data_mode resume save
                 model_kwargs kwargs w in
    (forall s, model = ModelName s -> all_models_dict !! s = None ->
               out = (Err (KeyError s), w))
    /\ (forall m, resolves all_models_dict model m -> prior = None ->
          prior_files w !! (dirname +:+ "/Priors/" +:+ model_repr m +:+ ".prior") = None ->
          out = (Err (IOError (dirname +:+ "/Priors/" +:+ model_repr m +:+ ".prior")), w)).
Proof.
  intros name t model outdir sampler nlive prior walks truncate flag truncate_method
    data_mode resume save model_kwargs kwargs w out.
  split.
  - intros s -> Hs. unfold out, fit_model, bind at 1. by rewrite Hs.
  - intros m Hm -> Hfile. unfold out, fit_model, bind at 1.
    destruct Hm as [-> | (s & -> & Hs)]; [| rewrite Hs];
      unfold ret at 1, bind at 1, bind at 1, PriorDict_from_file; by rewrite Hfile.
Qed.

(** X20: [_fit_kilonova] and [_fit_prompt] leave every prior dictionary and
    every prior file as they were, whatever [use_photon_index_prior] is: only
    [_fit_grb] installs a prior on [alpha_1]. *)
Theorem kilonova_and_prompt_fits_keep_priors :
  forall name t model outdir irf sampler nlive prior walks flag data_mode resume save
         model_kwargs kwargs (w : world),
    let wk := (_fit_kilonova sampling name t model outdir sampler nlive prior walks flag
                 data_mode resume save model_kwargs kwargs w).2 in
    let wp := (_fit_prompt sampling name t model outdir irf sampler nlive prior walks flag
                 data_mode resume save model_kwargs kwargs w).2 in
    (heap wk = heap w /\ prior_files wk = prior_files w)
    /\ (heap wp = heap w /\ prior_files wp = prior_files w).
Proof.
  intros name t model outdir irf sampler nlive prior walks flag data_mode resume save
    model_kwargs kwargs w. cbv zeta.
  rewrite fit_kilonova_unfold, fit_prompt_unfold.
  split.
  - match goal with
    | |- context [run_sampler ?s ?a ?b ?c ?d ?e ?f ?g ?h ?i ?j ?k ?l ?w] =>
        pose proof (run_sampler_frame s a b c d e f g h i j k l w) as (Hh & _ & Hp)
    end. cbv zeta in Hh, Hp. by rewrite Hh, Hp.
  - match goal with
    | |- context [run_sampler ?s ?a ?b ?c ?d ?e ?f ?g ?h ?i ?j ?k ?l ?w] =>
        pose proof (run_sampler_frame s a b c d e f g h i j k l w) as (Hh & _ & Hp)
    end. cbv zeta in Hh, Hp. by rewrite Hh, Hp.
Qed.

(** X21: when [fit_model] fails, no result file has been written or
    changed; either the sampler was not run at all, or it was run once and
    the error is the one the sampler raised. *)
Theorem fit_model_failure_writes_no_result :
  forall name t model outdir sampler nlive prior walks truncate flag truncate_method
         data_mode resume save model_kwargs kwargs (w : world) (e : exn),
    let out := fit_model dirname all_models_dict sampling name t model outdir sampler
                 nlive prior walks truncate flag truncate_method data_mode resume save
                 model_kwargs kwargs w in
    out.1 = Err e ->
    result_files out.2 = result_files w
    /\ (sampler_runs out.2 = sampler_runs w
        \/ exists a pd, sampler_runs out.2 = sampler_runs w ++ [(a, pd)]
                        /\ sampling a pd = Err e).
Proof.
  intros name t model outdir sampler nlive prior walks truncate flag truncate_method
    data_mode resume save model_kwargs kwargs w e out Herr.
  assert (Hcases : (exists m, resolves all_models_dict model m)
                   \/ exists s, model = ModelName s /\ all_models_dict !! s = None).
  { destruct model as [s | m].
    - destruct (all_models_dict !! s) as [m |] eqn:Hs.
      + left. exists m. right. eauto.
      + right. eauto.
    - left. exists m. by left. }
  destruct Hcases as [[m Hm] | (s & -> & Hs)].
  - pose proof (fit_model_after_lookup name t model m outdir sampler nlive prior walks
                  truncate flag truncate_method data_mode resume save model_kwargs
                  kwargs w Hm) as H.
    cbv zeta in H. fold out in H. rewrite Herr in H. exact H.
  - assert (Hout : out = (Err (KeyError s), w)).
    { unfold out, fit_model, bind. by rewrite Hs. }
    rewrite Hout. simpl. split; [done | by left].
Qed.

(** X22: when [fit_model] returns a result, the model was resolved, the
    sampler was run exactly once and arrived at the log-evidence of the
    result, the result carries the label and the output directory of the
    branch taken, it is stored under [<outdir>/<label>_result.<save>], and
    the output directory exists with its parents. *)
Theorem fit_model_result_is_persisted :
  forall name t model outdir sampler nlive prior walks truncate flag truncate_method
         data_mode resume save model_kwargs kwargs (w : world) (r : Result),
    let out := fit_model dirname all_models_dict sampling name t model outdir sampler
                 nlive prior walks truncate flag truncate_method data_mode resume save
                 model_kwargs kwargs w in
    out.1 = Ok (Some r) ->
    exists m : Model,
      resolves all_models_dict model m
      /\ res_label r = photon_label data_mode flag
      /\ res_outdir r = fit_directory t outdir name m
      /\ result_files out.2
         = <[fit_directory t outdir name m +:+ "/" +:+ photon_label data_mode flag
             +:+ "_result." +:+ save := r]> (result_files w)
      /\ dirs out.2 = dirs w ∪ list_to_set (with_parents (fit_directory t outdir name m))
      /\ exists a pd, sampler_runs out.2 = sampler_runs w ++ [(a, pd)]
                      /\ sampling a pd = Ok (log_evidence r).
Proof.
  intros name t model outdir sampler nlive prior walks truncate flag truncate_method
    data_mode resume save model_kwargs kwargs w r out Hok.
  assert (Hm : exists m, resolves all_models_dict model m).
  { destruct model as [s | m].
    - destruct (all_models_dict !! s) as [m |] eqn:Hs.
      + exists m. right. eauto.
      + assert (Hout : out = (Err (KeyError s), w)).
        { unfold out, fit_model, bind. by rewrite Hs. }
        rewrite Hout in Hok. discriminate.
    - exists m. by left. }
  destruct Hm as [m Hm]. exists m. split; [done |].
  pose proof (fit_model_after_lookup name t model m outdir sampler nlive prior walks
                truncate flag truncate_method data_mode resume save model_kwargs
                kwargs w Hm) as H.
  cbv zeta in H. fold out in H. rewrite Hok in H. exact H.
Qed.

End Environment.

Lemma fit_model_duplicate_keyword_witness :
  (fit_model "/redback" Examples.registry Examples.sampling "140903A" Examples.grb
     (ModelFunction Examples.tophat) "." "dynesty" 2000 (Some 1%positive) 200 true
     false "prompt_time_error" "flux" true "json" None MoreExamples.own_likelihood
     Examples.fresh_world).1
  = Err (TypeError "run_sampler() got multiple values for keyword argument").
Proof.
  pose proof (fit_model_duplicate_keyword "/redback" Examples.registry
                Examples.sampling "140903A" Examples.grb Examples.tophat "." "dynesty"
                2000 1%positive 200 true false "prompt_time_error" "flux" true "json"
                None MoreExamples.own_likelihood Examples.fresh_world "likelihood") as H.
  cbv zeta in H. destruct H as [H _].
  - left. reflexivity.
  - unfold run_sampler_keywords. set_solver.
  - eexists. reflexivity.
  - exact H.
Defined.

Lemma fit_model_fails_before_dispatch_witness :
  fit_model "/redback" Examples.registry Examples.sampling "140903A" Examples.grb
    (ModelName "no_such_model") "." "dynesty" 2000 (Some 1%positive) 200 true false
    "prompt_time_error" "flux" true "json" None ∅ Examples.fresh_world
  = (Err (KeyError "no_such_model"), Examples.fresh_world).
Proof.
  pose proof (fit_model_fails_before_dispatch "/redback" Examples.registry
                Examples.sampling "140903A" Examples.grb (ModelName "no_such_model") "."
                "dynesty" 2000 (Some 1%positive) 200 true false "prompt_time_error"
                "flux" true "json" None ∅ Examples.fresh_world) as H.
  cbv zeta in H. destruct H as [H _].
  apply (H "no_such_model"); reflexivity.
Defined.

Lemma fit_model_failure_writes_no_result_witness :
  result_files
    (fit_model "/redback" Examples.registry MoreExamples.failing_sampling "140903A"
       Examples.grb (ModelName "tophat") "." "dynesty" 2000 (Some 1%positive) 200 true
       false "prompt_time_error" "flux" true "json" None ∅ Examples.fresh_world).2
  = ∅.
Proof.
  pose proof (fit_model_failure_writes_no_result "/redback" Examples.registry
                MoreExamples.failing_sampling "140903A" Examples.grb (ModelName "tophat")
                "." "dynesty" 2000 (Some 1%positive) 200 true false "prompt_time_error"
                "flux" true "json" None ∅ Examples.fresh_world
                (ValueError "sampler did not converge")) as H.
  cbv zeta in H. destruct H as [H _].
  - vm_compute. reflexivity.
  - exact H.
Defined.

Lemma fit_model_result_is_persisted_witness :
  exists m : Model,
    resolves Examples.registry (ModelName "tophat") m
    /\ res_label (MoreExamples.fitted "flux") = photon_label "flux" false
    /\ res_outdir (MoreExamples.fitted "flux") = fit_directory Examples.grb "." "140903A" m.
Proof.
  pose proof (fit_model_result_is_persisted "/redback" Examples.registry
                Examples.sampling "140903A" Examples.grb (ModelName "tophat") "."
                "dynesty" 2000 (Some 1%positive) 200 true false "prompt_time_error"
                "flux" true "json" None ∅ Examples.fresh_world
                (MoreExamples.fitted "flux")) as H.
  cbv zeta in H. destruct H as (m & Hm & Hl & Hd & _).
  - vm_compute. reflexivity.
  - exists m. split; [exact Hm |]. split; [exact Hl | exact Hd].
Defined.

End SamplerMoreFacts.

(** ** Subtraction of binary64 numbers *)

Module FloatMoreFacts.

Lemma binary_round_aux_opp (s : bool) (m e : Z) (l : SpecFloat.location) :
  SpecFloat.binary_round_aux prec emax (negb s) m e l
  = SFopp (SpecFloat.binary_round_aux prec emax s m e l).
Proof.
  unfold SpecFloat.binary_round_aux.
  destruct (SpecFloat.shr_fexp prec emax m e l) as [mrs' e'].
  destruct (SpecFloat.shr_fexp prec emax _ e' SpecFloat.loc_Exact) as [mrs'' e''].
  destruct (SpecFloat.shr_m mrs''); [reflexivity | | reflexivity].
  destruct (e'' <=? emax - prec)%Z; reflexivity.
Qed.

Lemma binary_round_opp (s : bool) (m : positive) (e : Z) :
  SpecFloat.binary_round prec emax (negb s) m e
  = SFopp (SpecFloat.binary_round prec emax s m e).
Proof.
  unfold SpecFloat.binary_round.
  destruct (SpecFloat.shl_align m e _) as [mz ez]. apply binary_round_aux_opp.
Qed.

Lemma SFeqb_opp_opp (x : spec_float) : SFeqb x x = true -> SFeqb (SFopp x) (SFopp x) = true.
Proof.
  destruct x as [s | s | | s m e]; simpl; try done.
  - unfold SFeqb, SFcompare. by destruct s.
  - unfold SFeqb, SFcompare. destruct s; simpl; rewrite Z.compare_refl;
      by rewrite Pos.compare_cont_refl.
Qed.

Lemma SFsub_antisym (x y : spec_float) :
  SFeqb (SF64sub x y) (SF64sub x y) = true ->
  SFeqb (SF64sub y x) (SFopp (SF64sub x y)) = true.
Proof.
  unfold SF64sub.
  destruct x as [sx | sx | | sx mx ex], y as [sy | sy | | sy my ey];
    try (by destruct sx, sy); try (by destruct sx); try (by destruct sy); try done.
  - simpl. intros _. unfold SFeqb, SFcompare. rewrite Z.compare_refl.
    destruct sy; simpl; by rewrite Pos.compare_cont_refl.
  - simpl. intros _. unfold SFeqb, SFcompare. rewrite Z.compare_refl.
    destruct sx; simpl; by rewrite Pos.compare_cont_refl.
  - unfold SFsub. cbv zeta. rewrite (Z.min_comm ey ex).
    set (ez := Z.min ex ey).
    set (a := SpecFloat.cond_Zopp sx (Z.pos (SpecFloat.shl_align mx ex ez).1)).
    set (b := SpecFloat.cond_Zopp sy (Z.pos (SpecFloat.shl_align my ey ez).1)).
    replace (b - a)%Z with (- (a - b))%Z by lia.
    destruct (a - b)%Z as [| p | p]; simpl.
    + done.
    + intros H. pose proof (binary_round_opp false p ez) as Hopp.
      cbn [negb] in Hopp. rewrite Hopp. by apply SFeqb_opp_opp.
    + intros H. pose proof (binary_round_opp false p ez) as Hopp.
      cbn [negb] in Hopp. rewrite Hopp in *.
      assert (Hinv : forall z, SFopp (SFopp z) = z) by (intros [[]|[]| |[] ? ?]; done).
      rewrite Hinv. apply SFeqb_opp_opp in H. by rewrite Hinv in H.
Qed.

Lemma sub_antisym (x y : float) :
  is_nan (x - y) = false -> (y - x =? - (x - y))%float = true.
Proof.
  unfold is_nan. intros Hnan. apply negb_false_iff in Hnan.
  rewrite FloatAxioms.eqb_spec, sub_spec in Hnan.
  rewrite FloatAxioms.eqb_spec, opp_spec, !sub_spec.
  by apply SFsub_antisym.
Qed.

End FloatMoreFacts.


(** ** Strings *)

Module StringFacts.

Lemma str_app_assoc (a b c : string) : (a +:+ b) +:+ c = a +:+ (b +:+ c).
Proof.
  induction a as [| x a IH]; [done |].
  change (String x ((a +:+ b) +:+ c) = String x (a +:+ (b +:+ c))). by f_equal.
Qed.

Lemma str_length_app (a b : string) :
  String.length (a +:+ b) = (String.length a + String.length b)%nat.
Proof.
  induction a as [| x a IH]; [done |].
  change (S (String.length (a +:+ b)) = S (String.length a + String.length b)).
  by f_equal.
Qed.

End StringFacts.


(** ** More on reading results *)

Module AnalysisMoreFacts.
Import World PyLib Analysis FloatFacts FloatMoreFacts PathFacts StringFacts
  AnalysisFacts.
Open Scope world_scope.

Section Environment.
Variable dirname : string.
Variable load : string -> string -> bool -> result Data.

Lemma read_result_eq model GRB path truncate flag (w : world) :
  read_result dirname load model GRB path truncate flag w
  = let result_path := path +:+ "/GRB" +:+ GRB +:+ "/" +:+ model +:+ "/" in
    let w1 := if bool_decide (normpath result_path ∈ dirs w)
                 || bool_decide (is_Some (result_files w !! result_path))
              then w
              else set_dirs (fun d => d ∪ list_to_set (with_parents result_path)) w in
    match result_files w !! result_file path GRB model flag with
    | None => (Err (ResultNotFound (result_file path GRB model flag)), w1)
    | Some r =>
        match load GRB (find_path dirname path) truncate with
        | Ok d => (Ok (r, d), w1)
        | Err e => (Err e, w1)
        end
    end.
Proof.
  unfold read_result, result_file, bind, os_path_exists, os_makedirs, modify, ret,
    read_in_result, load_data, raise. cbv zeta.
  destruct flag; simpl; repeat case_match; unfold ret, raise in *; simplify_eq/=;
    try reflexivity; congruence.
Qed.


(** X25: reading a result a second time, in the world the first call left,
    gives the same outcome and changes nothing more: the directory the first
    call may have made is not made again. *)
Theorem read_result_twice :
  forall model GRB path truncate flag (w : world),
    let out := read_result dirname load model GRB path truncate flag w in
    read_result dirname load model GRB path truncate flag out.2 = out.
Proof.
  intros model GRB path truncate flag w out.
  unfold out. rewrite (read_result_eq model GRB path truncate flag w). cbv zeta.
  set (result_path := path +:+ "/GRB" +:+ GRB +:+ "/" +:+ model +:+ "/").
  remember (if bool_decide (normpath result_path ∈ dirs w)
               || bool_decide (is_Some (result_files w !! result_path))
            then w
            else set_dirs (fun d => d ∪ list_to_set (with_parents result_path)) w)
    as w1 eqn:Hw1def.
  assert (Hf : result_files w1 = result_files w).
  { rewrite Hw1def. by case_match. }
  assert (Hw1 : (if bool_decide (normpath result_path ∈ dirs w1)
                    || bool_decide (is_Some (result_files w1 !! result_path))
                 then w1
                 else set_dirs (fun d => d ∪ list_to_set (with_parents result_path)) w1)
                = w1).
  { destruct (bool_decide (normpath result_path ∈ dirs w)
              || bool_decide (is_Some (result_files w !! result_path))) eqn:Hfound.
    - subst w1. by rewrite Hfound.
    - assert (Hin : normpath result_path ∈ dirs w1).
      { subst w1. simpl. apply elem_of_union_r, elem_of_list_to_set.
        apply normpath_GRB. }
      by rewrite (bool_decide_eq_true_2 _ Hin). }
  clear Hw1def.
  assert (E : forall A (x : A) (w' : world), (x, w').2 = w') by done.
  destruct (result_files w !! result_file path GRB model flag) as [r |] eqn:Hr.
  - destruct (load GRB (find_path dirname path) truncate) as [d | e] eqn:Hl;
      rewrite E, read_result_eq; cbv zeta; fold result_path;
      rewrite Hw1, Hf, Hr, Hl; reflexivity.
  - rewrite E, read_result_eq. cbv zeta. fold result_path.
    rewrite Hw1, Hf, Hr. reflexivity.
Qed.

(** X26: with both results stored and the data found, the Bayes factor of
    the models in the other order is the negation of the Bayes factor, as
    binary64 numbers, unless the Bayes factor is NaN. *)
Theorem calculate_BF_antisymmetric :
  forall model1 model2 GRB path flag (w : world) r1 r2 d,
    result_files w !! result_file path GRB model1 flag = Some r1 ->
    result_files w !! result_file path GRB model2 flag = Some r2 ->
    load GRB (find_path dirname path) true = Ok d ->
    exists b12 b21 : float,
      (calculate_BF dirname load model1 model2 GRB path flag w).1 = Ok b12
      /\ (calculate_BF dirname load model2 model1 GRB path flag w).1 = Ok b21
      /\ (is_nan b12 = false -> (b21 =? - b12)%float = true).
Proof.
  intros model1 model2 GRB path flag w r1 r2 d H1 H2 Hd.
  exists (log_evidence r1 - log_evidence r2)%float,
         (log_evidence r2 - log_evidence r1)%float.
  split; [by apply calculate_BF_found with (d := d) |].
  split; [by apply calculate_BF_found with (d := d) |].
  apply sub_antisym.
Qed.

End Environment.

Lemma calculate_BF_antisymmetric_witness :
  exists b12 b21 : float,
    (calculate_BF "/grb_bilby/analysis" Examples.load "magnetar_only" "full_magnetar"
       "140903A" "." false Examples.two_results).1 = Ok b12
    /\ (calculate_BF "/grb_bilby/analysis" Examples.load "full_magnetar" "magnetar_only"
          "140903A" "." false Examples.two_results).1 = Ok b21
    /\ (is_nan b12 = false -> (b21 =? - b12)%float = true).
Proof.
  apply (calculate_BF_antisymmetric "/grb_bilby/analysis" Examples.load "magnetar_only"
           "full_magnetar" "140903A" "." false Examples.two_results
           (Examples.stored (-12.5)) (Examples.stored (-10))
           {| data_name := "140903A"; data_path := "." |}).
  - reflexivity.
  - reflexivity.
  - reflexivity.
Defined.

End AnalysisMoreFacts.


(** ** From a fit to the result read back *)

Module RoundTripFacts.
Import World PyLib Sampler Analysis FitTerms PathFacts StringFacts SamplerMoreFacts
  AnalysisFacts.
Open Scope world_scope.

Lemma result_file_eq (path GRB model : string) (flag : bool) :
  result_file path GRB model flag
  = (path +:+ "/GRB" +:+ GRB +:+ "/" +:+ model) +:+ "/"
    +:+ (if flag then "photon_index_result.json" else "result_result.json").
Proof.
  unfold result_file. rewrite !str_app_assoc. reflexivity.
Qed.

Lemma photon_label_mismatch (dm save : string) :
  (dm +:+ "_photon_index") +:+ "_result." +:+ save <> "photon_index_result.json".
Proof.
  intros H. pose proof (f_equal String.length H) as Hlen.
  rewrite !str_length_app in Hlen. simpl in Hlen.
  destruct dm as [| c1 [| c2 [| c3 [| c4 dm]]]]; simpl in Hlen; try lia;
    cbn in H; simplify_eq.
Qed.

Section Environment.
Variable dirname_s : string.
Variable all_models_dict : gmap string Model.
Variable sampling : run_sampler_args -> PriorDict -> result float.
Variable dirname_a : string.
Variable load : string -> string -> bool -> result Data.

(** X23: a result [fit_model] returns for a transient of the GRB branches
    (an afterglow, or anything that is not a kilonova), fitted with data mode
    [result], saved as [json] and without the photon-index prior, is the
    result [read_result] reads back for the name of the model function and
    the same burst and output directory, once the data are found. *)
Theorem fit_then_read_result :
  forall name t model m outdir sampler nlive prior walks truncate truncate_method resume
         model_kwargs kwargs (w : world) (r : Result) (d : Data) (tr : bool),
    isinstance t "Afterglow" = true \/ isinstance t "Kilonova" = false ->
    resolves all_models_dict model m ->
    let out := fit_model dirname_s all_models_dict sampling name t model outdir sampler
                 nlive prior walks truncate false truncate_method "result" resume "json"
                 model_kwargs kwargs w in
    out.1 = Ok (Some r) ->
    load name (find_path dirname_a outdir) tr = Ok d ->
    (read_result dirname_a load (__name__ m) name outdir tr false out.2).1 = Ok (r, d).
Proof.
  intros name t model m outdir sampler nlive prior walks truncate truncate_method resume
    model_kwargs kwargs w r d tr Hkind Hm out Hok Hload.
  pose proof (fit_model_after_lookup dirname_s all_models_dict sampling name t model m
                outdir sampler nlive prior walks truncate false truncate_method "result"
                resume "json" model_kwargs kwargs w Hm) as H.
  cbv zeta in H. fold out in H. rewrite Hok in H.
  destruct H as (_ & _ & Hfiles & _).
  apply read_result_found; [| done].
  rewrite Hfiles, result_file_eq.
  assert (Hdir : fit_directory t outdir name m
                 = outdir +:+ "/GRB" +:+ name +:+ "/" +:+ __name__ m).
  { unfold fit_directory. destruct Hkind as [-> | Hk]; [done |].
    rewrite Hk. by destruct (isinstance t "Afterglow"). }
  rewrite Hdir. apply lookup_insert_eq.
Qed.


(** X24: a fit with the photon-index prior is never what [read_result]
    reads: whatever the data mode and the format, the file [read_result]
    looks for with the photon-index flag is left as it was by the fit, and
    [read_result] gives what it gave before the fit. *)
Theorem photon_index_fit_is_not_read :
  forall name t model m outdir sampler nlive prior walks truncate truncate_method
         data_mode resume save model_kwargs kwargs (w : world) (r : Result) (tr : bool),
    isinstance t "Afterglow" = true \/ isinstance t "Kilonova" = false ->
    resolves all_models_dict model m ->
    let out := fit_model dirname_s all_models_dict sampling name t model outdir sampler
                 nlive prior walks truncate true truncate_method data_mode resume save
                 model_kwargs kwargs w in
    out.1 = Ok (Some r) ->
    result_files out.2 !! result_file outdir name (__name__ m) true
    = result_files w !! result_file outdir name (__name__ m) true
    /\ (read_result dirname_a load (__name__ m) name outdir tr true out.2).1
       = (read_result dirname_a load (__name__ m) name outdir tr true w).1.
Proof.
  intros name t model m outdir sampler nlive prior walks truncate truncate_method
    data_mode resume save model_kwargs kwargs w r tr Hkind Hm out Hok.
  pose proof (fit_model_after_lookup dirname_s all_models_dict sampling name t model m
                outdir sampler nlive prior walks truncate true truncate_method data_mode
                resume save model_kwargs kwargs w Hm) as H.
  cbv zeta in H. fold out in H. rewrite Hok in H.
  destruct H as (_ & _ & Hfiles & _).
  assert (Hdir : fit_directory t outdir name m
                 = outdir +:+ "/GRB" +:+ name +:+ "/" +:+ __name__ m).
  { unfold fit_directory. destruct Hkind as [-> | Hk]; [done |].
    rewrite Hk. by destruct (isinstance t "Afterglow"). }
  assert (Hsame : result_files out.2 !! result_file outdir name (__name__ m) true
                  = result_files w !! result_file outdir name (__name__ m) true).
  { rewrite Hfiles, result_file_eq, Hdir. apply lookup_insert_ne.
    intros Heq. apply String.app_inj in Heq.
    change ("/" +:+ photon_label data_mode true +:+ "_result." +:+ save)
      with (String "/" (photon_label data_mode true +:+ "_result." +:+ save)) in Heq.
    injection Heq as Heq. by apply photon_label_mismatch in Heq. }
  split; [done |].
  rewrite !AnalysisMoreFacts.read_result_eq. cbv zeta. rewrite Hsame.
  destruct (result_files w !! result_file outdir name (__name__ m) true); [| done].
  by destruct (load name (find_path dirname_a outdir) tr).
Qed.

End Environment.

Lemma fit_then_read_result_witness :
  (read_result "/grb_bilby/analysis" Examples.load "tophat" "140903A" "." true false
     (fit_model "/redback" Examples.registry Examples.sampling "140903A" Examples.grb
        (ModelName "tophat") "." "dynesty" 2000 (Some 1%positive) 200 true false
        "prompt_time_error" "result" true "json" None ∅ Examples.fresh_world).2).1
  = Ok (MoreExamples.fitted "result",
        {| data_name := "140903A"; data_path := find_path "/grb_bilby/analysis" "." |}).
Proof.
  apply (fit_then_read_result "/redback" Examples.registry Examples.sampling
           "/grb_bilby/analysis" Examples.load "140903A" Examples.grb
           (ModelName "tophat") Examples.tophat "." "dynesty" 2000 (Some 1%positive) 200
           true "prompt_time_error" true None ∅ Examples.fresh_world
           (MoreExamples.fitted "result")).
  - left. reflexivity.
  - right. exists "tophat". split; reflexivity.
  - vm_compute. reflexivity.
  - reflexivity.
Defined.

Lemma photon_index_fit_is_not_read_witness :
  result_files
    (fit_model "/redback" Examples.registry Examples.sampling "140903A" Examples.grb
       (ModelName "tophat") "." "dynesty" 2000 (Some 1%positive) 200 true true
       "prompt_time_error" "flux" true "json" None ∅ Examples.fresh_world).2
    !! result_file "." "140903A" "tophat" true
  = None.
Proof.
  pose proof (photon_index_fit_is_not_read "/redback" Examples.registry
                Examples.sampling "/grb_bilby/analysis" Examples.load "140903A"
                Examples.grb (ModelName "tophat") Examples.tophat "." "dynesty" 2000
                (Some 1%positive) 200 true "prompt_time_error" "flux" true "json" None ∅
                Examples.fresh_world (MoreExamples.fitted "flux_photon_index") true) as H.
  cbv zeta in H. destruct H as [H _].
  - left. reflexivity.
  - right. exists "tophat". split; reflexivity.
  - vm_compute. reflexivity.
  - exact H.
Defined.

End RoundTripFacts.

(** ** The meta data of a fit *)

Module MetaDataFacts.
Import World PyLib Sampler PyDict.

Section Lookup.
Context {V : Type}.
Implicit Types (d : dict V) (k : string) (v : V).

Lemma get_set_eq k v d : dict_get k (dict_set k v d) = Some v.
Proof.
  induction d as [| [k' v'] d IH]; simpl.
  - by rewrite decide_True.
  - destruct (decide (k = k')) as [-> | Hne]; simpl.
    + by rewrite decide_True.
    + by rewrite decide_False.
Qed.

Lemma get_set_ne k k' v d : k <> k' -> dict_get k (dict_set k' v d) = dict_get k d.
Proof.
  intros Hne. induction d as [| [k'' v''] d IH]; simpl.
  - by rewrite decide_False.
  - destruct (decide (k' = k'')) as [-> | Hne']; simpl.
    + by rewrite !decide_False.
    + destruct (decide (k = k'')); [done | apply IH].
Qed.

Lemma get_app k (a b : dict V) :
  dict_get k (a ++ b)
  = match dict_get k a with Some v => Some v | None => dict_get k b end.
Proof.
  induction a as [| [k' v'] a IH]; simpl; [done |].
  destruct (decide (k = k')); [done | apply IH].
Qed.

Lemma get_fold_set {W : Type} (g : string -> string) (h : W -> V) k
  (l : dict W) (acc : dict V) :
  dict_get k (fold_left (fun acc kv => dict_set (g kv.1) (h kv.2) acc) l acc)
  = match dict_get k (rev ((fun kv => (g kv.1, h kv.2)) <$> l)) with
    | Some v => Some v
    | None => dict_get k acc
    end.
Proof.
  revert acc. induction l as [| [k' v'] l IH]; intros acc; simpl; [done |].
  rewrite IH, get_app. clear IH.
  destruct (dict_get k (rev _)) as [v |]; [done |]. simpl.
  destruct (decide (k = g k')) as [-> | Hne].
  - apply get_set_eq.
  - by apply get_set_ne.
Qed.

Lemma get_rev_none k d : dict_get k (rev d) = None <-> dict_get k d = None.
Proof.
  induction d as [| [k' v'] d IH]; simpl; [done |].
  rewrite get_app. simpl.
  destruct (decide (k = k')) as [-> | Hne].
  - split; [| done]. by destruct (dict_get k' (rev d)).
  - rewrite <- IH. by destruct (dict_get k (rev d)).
Qed.

Lemma get_none_keys k d : dict_get k d = None <-> k ∉ d.*1.
Proof.
  induction d as [| [k' v'] d IH]; simpl.
  - split; [intros _; apply not_elem_of_nil | done].
  - destruct (decide (k = k')) as [-> | Hne].
    + split; [done |]. intros Hn. exfalso. apply Hn. by left.
    + rewrite IH. rewrite not_elem_of_cons. tauto.
Qed.

Lemma keys_set_in k v d : k ∈ d.*1 -> (dict_set k v d).*1 = d.*1.
Proof.
  induction d as [| [k' v'] d IH]; simpl; intros Hin.
  - by apply elem_of_nil in Hin.
  - destruct (decide (k = k')) as [-> | Hne]; simpl; [done |].
    f_equal. apply IH. apply elem_of_cons in Hin as [? | ?]; done.
Qed.

Lemma keys_set_notin k v d : k ∉ d.*1 -> (dict_set k v d).*1 = d.*1 ++ [k].
Proof.
  induction d as [| [k' v'] d IH]; simpl; intros Hnin; [done |].
  apply not_elem_of_cons in Hnin as [Hne Hnin].
  rewrite decide_False by done. simpl. f_equal. by apply IH.
Qed.

Lemma nodup_set k v d : NoDup d.*1 -> NoDup (dict_set k v d).*1.
Proof.
  intros Hnd. destruct (decide (k ∈ d.*1)) as [Hin | Hnin].
  - by rewrite keys_set_in.
  - rewrite keys_set_notin by done.
    apply NoDup_app. split; [done |]. split; [| apply NoDup_singleton].
    intros x Hx Hx'. apply list_elem_of_singleton in Hx'. by subst.
Qed.

Lemma nodup_fold {W : Type} (g : string -> string) (h : W -> V)
  (l : dict W) (acc : dict V) :
  NoDup acc.*1 ->
  NoDup (fold_left (fun acc kv => dict_set (g kv.1) (h kv.2) acc) l acc).*1.
Proof.
  revert acc. induction l as [| kv l IH]; intros acc Hacc; simpl; [done |].
  apply IH. by apply nodup_set.
Qed.

Lemma nodup_get_rev k d : NoDup d.*1 -> dict_get k (rev d) = dict_get k d.
Proof.
  induction d as [| [k' v'] d IH]; simpl; [done |].
  intros Hnd. apply NoDup_cons in Hnd as [Hnin Hnd].
  rewrite get_app, (IH Hnd). simpl.
  destruct (decide (k = k')) as [-> | Hne].
  - apply get_none_keys in Hnin. by rewrite Hnin.
  - by destruct (dict_get k d).
Qed.

End Lookup.

(** The attributes of a transient as the meta data hold them. *)
Lemma make_meta_data_get model tt t mk k :
  dict_get k (make_meta_data model tt t mk)
  = if decide (k = "model_kwargs") then Some (MetaKwargs mk)
    else match dict_get k (rev ((fun kv => (lstrip_underscore kv.1, MetaStr kv.2))
                                  <$> __dict__ t)) with
         | Some v => Some v
         | None => dict_get k [("model", MetaStr (__name__ model));
                               ("transient_type", MetaStr tt)]
         end.
Proof.
  unfold make_meta_data. cbv zeta.
  destruct (decide (k = "model_kwargs")) as [-> | Hne].
  - apply get_set_eq.
  - rewrite get_set_ne by done. unfold dict_update.
    rewrite (get_fold_set (fun s => s) (fun v => v)).
    set (tk := fold_left _ (__dict__ t) []).
    assert (Htk : forall k, dict_get k tk
                  = dict_get k (rev ((fun kv => (lstrip_underscore kv.1, MetaStr kv.2))
                                       <$> __dict__ t))).
    { intros k0. unfold tk. rewrite (get_fold_set lstrip_underscore MetaStr). simpl.
      by destruct (dict_get k0 _). }
    rewrite <- Htk.
    replace ((fun kv : string * meta_value => (kv.1, kv.2)) <$> tk) with tk.
    2:{ clear. induction tk as [| [a b] tk IH]; simpl; [done | by f_equal]. }
    rewrite nodup_get_rev; [done |].
    unfold tk. apply (nodup_fold lstrip_underscore MetaStr). apply NoDup_nil_2.
Qed.

Lemma get_stripped_none key (d : dict string) :
  (forall k v, (k, v) ∈ d -> lstrip_underscore k <> key) ->
  dict_get key (rev ((fun kv => (lstrip_underscore kv.1, MetaStr kv.2)) <$> d)) = None.
Proof.
  intros Hd. apply get_rev_none, get_none_keys.
  intros Hin. apply list_elem_of_fmap in Hin as ([k' v'] & -> & Hin).
  apply list_elem_of_fmap in Hin as ([k v] & [= -> ->] & Hin).
  by apply (Hd k v).
Qed.

(** X28: what [make_meta_data] records: under [model_kwargs], always the model
    keyword arguments themselves; an attribute of the transient under its
    name without leading underscores, and of several attributes with the same
    stripped name the last one; the name of the model and the kind of
    transient unless an attribute of the transient takes their key. *)
Theorem meta_data_entries :
  forall (model : Model) (transient_type : string) (t : Transient)
         (model_kwargs : option (gmap string string)),
    let meta := make_meta_data model transient_type t model_kwargs in
    dict_get "model_kwargs" meta = Some (MetaKwargs model_kwargs)
    /\ (forall d1 k v d2,
          __dict__ t = d1 ++ (k, v) :: d2 ->
          (forall k' v', (k', v') ∈ d2 -> lstrip_underscore k' <> lstrip_underscore k) ->
          lstrip_underscore k <> "model_kwargs" ->
          dict_get (lstrip_underscore k) meta = Some (MetaStr v))
    /\ ((forall k v, (k, v) ∈ __dict__ t -> lstrip_underscore k <> "model") ->
          dict_get "model" meta = Some (MetaStr (__name__ model)))
    /\ ((forall k v, (k, v) ∈ __dict__ t -> lstrip_underscore k <> "transient_type") ->
          dict_get "transient_type" meta = Some (MetaStr transient_type)).
Proof.
  intros model tt t mk meta. unfold meta.
  split; [| split; [| split]].
  - by rewrite make_meta_data_get.
  - intros d1 k v d2 Hd Hlast Hne.
    rewrite make_meta_data_get, decide_False by done.
    rewrite Hd, fmap_app, fmap_cons, rev_app_distr. simpl.
    rewrite <- app_assoc, get_app, (get_stripped_none _ d2 Hlast). simpl.
    by rewrite decide_True.
  - intros Hno. rewrite make_meta_data_get, decide_False by done.
    by rewrite (get_stripped_none _ _ Hno).
  - intros Hno. rewrite make_meta_data_get, decide_False by done.
    by rewrite (get_stripped_none _ _ Hno).
Qed.

Lemma meta_data_entries_witness :
  dict_get "name"
    (make_meta_data Examples.tophat "afterglow" Examples.grb (Some {[ "p" := "2.2" ]}))
  = Some (MetaStr "140903A")
  /\ dict_get "model_kwargs"
       (make_meta_data Examples.tophat "afterglow" Examples.grb (Some {[ "p" := "2.2" ]}))
     = Some (MetaKwargs (Some {[ "p" := "2.2" ]})).
Proof.
  pose proof (meta_data_entries Examples.tophat "afterglow" Examples.grb
                (Some {[ "p" := "2.2" ]})) as H.
  cbv zeta in H. destruct H as (Hkw & H & _).
  split; [| exact Hkw].
  apply (H [] "_name" "140903A" []).
  - reflexivity.
  - intros k' v' Hin. by apply elem_of_nil in Hin.
  - discriminate.
Defined.

End MetaDataFacts.

(** ** Which curves [plot_models] draws *)

Module PlotFacts.
Import Num AnalysisPlots PlotModels.
Open Scope R_scope.

Section Environment.
Variable mm : string -> list R -> gmap string num -> result (list num).
Variable gca : string.
Variable plot_accepts : plot_call -> result unit.

Lemma plot_models_unknown parameters model axes colour alpha ls lw (s : list event) :
  model ∉ known_models.*1 ->
  plot_models mm gca plot_accepts parameters model axes colour alpha ls lw s
  = (inr (UnboundLocalError "lightcurve"), s).
Proof.
  intros Hnot. unfold plot_models. cbv zeta.
  repeat (unfold bind at 1;
          match goal with
          | |- context [decide (model = ?n)] =>
              destruct (decide (model = n)) as [-> | _];
              [exfalso; apply Hnot; unfold known_models; set_solver |]
          end;
          unfold ret at 1; cbv beta iota).
  reflexivity.
Qed.


Ltac known_model_cases H :=
  unfold known_models in H;
  repeat (apply elem_of_cons in H as [H | H]; [injection H as -> -> |]);
  [.. | by apply elem_of_nil in H].

Lemma plot_models_known parameters model function axes colour alpha ls lw
  (s : list event) (c : list num) :
  (model, function) ∈ known_models -> model ∉ with_magnetar_curve ->
  let call := {| pc_axes := default gca axes; pc_x := logspace (-4) 7 100; pc_y := c;
                 pc_color := colour; pc_ls := ls; pc_lw := lw; pc_alpha := alpha;
                 pc_zorder := -32; pc_linestyle := None |} in
  mm function (logspace (-4) 7 100) parameters = Ok c ->
  plot_accepts call = Ok tt ->
  plot_models mm gca plot_accepts parameters model axes colour alpha ls lw s
  = (inl tt, s ++ [Evaluated function parameters; Plotted call]).
Proof.
  intros Hin Hnot call Hmm Hplot. unfold call in *. clear call.
  unfold plot_models. cbv zeta.
  set (time := logspace (-4) 7 100) in *. clearbody time.
  assert (Hax : match axes with Some a => a | None => gca end = default gca axes)
    by (by destruct axes).
  rewrite Hax.
  known_model_cases Hin;
    try (exfalso; apply Hnot; unfold with_magnetar_curve; set_solver);
    unfold bind, ret, call_mm, ax_plot; simpl; rewrite Hmm; simpl; rewrite Hplot;
    by rewrite <- app_assoc.
Qed.


Lemma plot_models_dashed_refused parameters model axes colour alpha ls lw
  (s : list event) (c magnetar : list num) (e : exn) :
  model ∈ with_magnetar_curve ->
  mm model (logspace (-4) 7 100) parameters = Ok c ->
  mm "magnetar_only" (logspace (-4) 7 100) parameters = Ok magnetar ->
  plot_accepts {| pc_axes := default gca axes; pc_x := logspace (-4) 7 100;
                  pc_y := magnetar; pc_color := colour; pc_ls := ls; pc_lw := lw;
                  pc_alpha := alpha; pc_zorder := -32; pc_linestyle := Some "--" |}
  = Err e ->
  plot_models mm gca plot_accepts parameters model axes colour alpha ls lw s
  = (inr (Raised e),
     s ++ [Evaluated model parameters; Evaluated "magnetar_only" parameters]).
Proof.
  intros Hin Hmm Hmag Hdash.
  unfold plot_models. cbv zeta.
  set (time := logspace (-4) 7 100) in *. clearbody time.
  assert (Hax : match axes with Some a => a | None => gca end = default gca axes)
    by (by destruct axes).
  rewrite Hax.
  unfold with_magnetar_curve in Hin.
  repeat (apply elem_of_cons in Hin as [-> | Hin]); [| | by apply elem_of_nil in Hin];
    unfold bind, ret, call_mm, ax_plot; simpl; rewrite Hmm; simpl; rewrite Hmag; simpl;
    rewrite Hdash; simpl; by rewrite <- !app_assoc.
Qed.

(** X27: [plot_models] on a model name it does not know fails with the
    [UnboundLocalError] of [lightcurve], having evaluated and drawn nothing;
    on a name it knows, other than the two radiative-losses models that show
    the magnetar, it evaluates the model function of that name once on 100
    times from 10^-4 to 10^7 and draws one curve on the given axes (the
    current ones when none are given).  For those two models it evaluates the
    model and then [magnetar_only], and asks for the magnetar curve with the
    line style given twice, as [ls] and as [linestyle = '--']: when the
    plotting library refuses that call, [plot_models] fails with the
    library's error and no curve is drawn, the one of the model neither. *)
Theorem plot_models_dispatch :
  forall parameters model axes colour alpha ls lw (s : list event),
    let time := logspace (-4) 7 100 in
    let curve := fun (y : list num) (style : option string) =>
      {| pc_axes := default gca axes; pc_x := time; pc_y := y; pc_color := colour;
         pc_ls := ls; pc_lw := lw; pc_alpha := alpha; pc_zorder := -32;
         pc_linestyle := style |} in
    let out := plot_models mm gca plot_accepts parameters model axes colour alpha ls lw s in
    (model ∉ known_models.*1 -> out = (inr (UnboundLocalError "lightcurve"), s))
    /\ (forall function c,
          (model, function) ∈ known_models -> model ∉ with_magnetar_curve ->
          mm function time parameters = Ok c ->
          plot_accepts (curve c None) = Ok tt ->
          out = (inl tt, s ++ [Evaluated function parameters; Plotted (curve c None)]))
    /\ (forall c magnetar e,
          model ∈ with_magnetar_curve ->
          mm model time parameters = Ok c ->
          mm "magnetar_only" time parameters = Ok magnetar ->
          plot_accepts (curve magnetar (Some "--")) = Err e ->
          out = (inr (Raised e),
                 s ++ [Evaluated model parameters;
                       Evaluated "magnetar_only" parameters])).
Proof.
  intros parameters model axes colour alpha ls lw s time curve out.
  split; [| split].
  - apply plot_models_unknown.
  - intros function c Hin Hnot Hmm Hplot. by apply plot_models_known.
  - intros c magnetar e Hin Hmm Hmag Hdash.
    by apply plot_models_dashed_refused with (c := c) (magnetar := magnetar).
Qed.

End Environment.

Lemma plot_models_dispatch_witness :
  plot_models MoreExamples.mm "current" MoreExamples.plot_accepts ∅ "no_such_model" None
    "r" 1 "-" 4 []
  = (inr (UnboundLocalError "lightcurve"), [])
  /\ plot_models MoreExamples.mm "current" MoreExamples.plot_accepts ∅ "magnetar_only"
       (Some "given") "r" 1 "-" 4 []
     = (inl tt,
        [Evaluated "magnetar_only" ∅;
         Plotted {| pc_axes := "given"; pc_x := logspace (-4) 7 100; pc_y := [];
                    pc_color := "r"; pc_ls := "-"; pc_lw := 4; pc_alpha := 1;
                    pc_zorder := -32; pc_linestyle := None |}])
  /\ plot_models MoreExamples.mm "current" MoreExamples.plot_accepts ∅ "radiative_losses"
       (Some "given") "r" 1 "-" 4 []
     = (inr (Raised (TypeError
                       "Got both 'ls' and 'linestyle', which are aliases of one another")),
        [Evaluated "radiative_losses" ∅; Evaluated "magnetar_only" ∅]).
Proof.
  split; [| split].
  - pose proof (plot_models_dispatch MoreExamples.mm "current" MoreExamples.plot_accepts
                  ∅ "no_such_model" None "r" 1 "-" 4 []) as H.
    cbv zeta in H. destruct H as [H _]. apply H.
    unfold known_models. intros Hin. simpl in Hin.
    repeat (apply elem_of_cons in Hin as [Hin | Hin]; [discriminate Hin |]).
    by apply elem_of_nil in Hin.
  - pose proof (plot_models_dispatch MoreExamples.mm "current" MoreExamples.plot_accepts
                  ∅ "magnetar_only" (Some "given") "r" 1 "-" 4 []) as H.
    cbv zeta in H. destruct H as (_ & H & _).
    apply (H "magnetar_only" []).
    + unfold known_models. apply elem_of_cons. by left.
    + unfold with_magnetar_curve. intros Hin.
      repeat (apply elem_of_cons in Hin as [Hin | Hin]; [discriminate Hin |]).
      by apply elem_of_nil in Hin.
    + reflexivity.
    + reflexivity.
  - pose proof (plot_models_dispatch MoreExamples.mm "current" MoreExamples.plot_accepts
                  ∅ "radiative_losses" (Some "given") "r" 1 "-" 4 []) as H.
    cbv zeta in H. destruct H as (_ & _ & H).
    apply (H [] []).
    + unfold with_magnetar_curve. apply elem_of_cons. right. apply elem_of_cons. by left.
    + reflexivity.
    + reflexivity.
    + reflexivity.
Defined.

End PlotFacts.

(** ** The afterglow models *)

Module AfterglowFacts.
Import Num AfterglowModels.
Open Scope R_scope.

Section Environment.
Variable afterglowpy : bool.
Variable luminosity_distance : num -> result num.
Variable fluxDensity : list num -> cfg -> gmap string zval -> result (list num).

Ltac each_model H :=
  unfold the_models in H;
  repeat (apply elem_of_cons in H as [H | H]; [injection H as -> -> |]);
  [.. | by apply elem_of_nil in H].

Ltac run_model :=
  unfold cocoon, kn_afterglow, cone_afterglow, gaussiancore, gaussian, smoothpowerlaw,
    powerlawcore, tophat, getitem, jettype_dict, afterglow_fluxDensity.

(** X29: each of the eight afterglow models fails before it reaches the
    solver, and with the same error as the others: what the luminosity
    distance raised; or else the [KeyError] of the first of [spread],
    [latres], [tres] the configuration lacks; or else, without afterglowpy,
    the [NameError] of [jettype_dict]; or else the [KeyError] of the first of
    [spectype], [frequency] it lacks. *)
Theorem afterglow_models_fail_early :
  forall time redshift thv loge0 thw thc beta logn0 p logepse logepsb ksin g0 umax umin
         k mej (f : gmap string cfg -> outcome (list num)) (j : jet)
         (kwargs : gmap string cfg),
    (f, j) ∈ the_models afterglowpy luminosity_distance fluxDensity time redshift thv
               loge0 thw thc beta logn0 p logepse logepsb ksin g0 umax umin k mej ->
    (forall e, luminosity_distance redshift = Err e -> f kwargs = Fail (Raised e))
    /\ (forall dl e, luminosity_distance redshift = Ok dl ->
          config_error afterglowpy kwargs = Some e -> f kwargs = Fail e).
Proof.
  intros time redshift thv loge0 thw thc beta logn0 p logepse logepsb ksin g0 umax umin
    k mej f j kwargs Hin.
  split.
  - intros e He. each_model Hin; run_model; by rewrite He.
  - intros dl e Hdl. unfold config_error, first_missing.
    cbn [List.find].
    each_model Hin; run_model; rewrite Hdl; cbn [mbind outcome_bind lift];
      (destruct (kwargs !! "spread");
       [| rewrite bool_decide_eq_true_2 by done; by intros [= <-]]);
      rewrite bool_decide_eq_false_2 by done; cbn [mbind outcome_bind];
      (destruct (kwargs !! "latres");
       [| rewrite bool_decide_eq_true_2 by done; by intros [= <-]]);
      rewrite bool_decide_eq_false_2 by done; cbn [mbind outcome_bind];
      (destruct (kwargs !! "tres");
       [| rewrite bool_decide_eq_true_2 by done; by intros [= <-]]);
      rewrite bool_decide_eq_false_2 by done; cbn [mbind outcome_bind];
      (destruct afterglowpy; [| by intros [= <-]]);
      cbn [mbind outcome_bind];
      (destruct (kwargs !! "spectype");
       [| rewrite bool_decide_eq_true_2 by done; by intros [= <-]]);
      rewrite bool_decide_eq_false_2 by done; cbn [mbind outcome_bind];
      (destruct (kwargs !! "frequency");
       [| rewrite bool_decide_eq_true_2 by done; by intros [= <-]]);
      rewrite bool_decide_eq_false_2 by done; done.
Qed.


Lemma jettype_dict_entries :
  jettype_dict_table !! "tophat" = Some TopHat
  /\ jettype_dict_table !! "gaussian" = Some Gaussian
  /\ jettype_dict_table !! "powerlaw_w_core" = Some PowerLawCore
  /\ jettype_dict_table !! "gaussian_w_core" = Some GaussianCore
  /\ jettype_dict_table !! "cocoon" = Some Spherical
  /\ jettype_dict_table !! "smooth_power_law" = Some PowerLaw
  /\ jettype_dict_table !! "cone" = Some Cone.
Proof. repeat split; vm_compute; reflexivity. Qed.

Lemma bind_done {A : Type} (m : outcome A) : (x ← m; Done x) = m.
Proof. by destruct m. Qed.

Lemma models_reach_solver :
  forall time redshift thv loge0 thw thc beta logn0 p logepse logepsb ksin g0 umax umin
         k mej (f : gmap string cfg -> outcome (list num)) (j : jet)
         (kwargs : gmap string cfg) (dl : num) (spread latres tres spectype frequency : cfg),
    (f, j) ∈ the_models afterglowpy luminosity_distance fluxDensity time redshift thv
               loge0 thw thc beta logn0 p logepse logepsb ksin g0 umax umin k mej ->
    afterglowpy = true ->
    luminosity_distance redshift = Ok dl ->
    kwargs !! "spread" = Some spread -> kwargs !! "latres" = Some latres ->
    kwargs !! "tres" = Some tres -> kwargs !! "spectype" = Some spectype ->
    kwargs !! "frequency" = Some frequency ->
    exists Z : gmap string zval,
      f kwargs = lift (fluxDensity time frequency Z)
      /\ Z !! "jetType" = Some (ZJet j)
      /\ Z !! "specType" = Some (ZCfg spectype)
      /\ Z !! "d_L" = Some (ZNum dl) /\ Z !! "z" = Some (ZNum redshift)
      /\ Z !! "n0" = Some (ZNum (10 ** logn0)%num)
      /\ Z !! "epsilon_e" = Some (ZNum (10 ** logepse)%num)
      /\ Z !! "epsilon_B" = Some (ZNum (10 ** logepsb)%num)
      /\ Z !! "L0" = Some (ZNum 0) /\ Z !! "q" = Some (ZNum 0)
      /\ Z !! "ts" = Some (ZNum 0)
      /\ Z !! "spread" = Some (ZCfg spread) /\ Z !! "latRes" = Some (ZCfg latres)
      /\ Z !! "tRes" = Some (ZCfg tres).
Proof.
  intros time redshift thv loge0 thw thc beta logn0 p logepse logepsb ksin g0 umax umin
    k mej f j kwargs dl spread latres tres spectype frequency Hin Hpy Hdl H1 H2 H3 H4 H5.
  destruct jettype_dict_entries as (J1 & J2 & J3 & J4 & J5 & J6 & J7).
  each_model Hin; run_model;
    rewrite Hpy, Hdl, H1, H2, H3, H4, H5, ?J1, ?J2, ?J3, ?J4, ?J5, ?J6, ?J7;
    cbn [mbind outcome_bind lift]; rewrite bind_done; eexists;
    (split; [reflexivity |]);
    repeat split; vm_compute; reflexivity.
Qed.

(** X30: with afterglowpy, the luminosity distance, a complete
    configuration and the four logarithms [loge0], [logn0], [logepse] and
    [logepsb] between -300 and 300 (their powers of ten are within the range
    of the floats), each of the eight afterglow models returns what the
    solver gives for the times, the frequency and a record that holds the jet
    structure of the model, the spectrum type, the luminosity distance, the
    redshift, the density [10^logn0], the fractions [10^logepse] and
    [10^logepsb], zero energy injection ([L0], [q], [ts]) and the resolution
    settings of the configuration. *)
Theorem afterglow_models_reach_solver :
  forall time redshift thv (loge0 : R) thw thc beta (logn0 : R) p (logepse logepsb : R)
         ksin g0 umax umin k mej (f : gmap string cfg -> outcome (list num)) (j : jet)
         (kwargs : gmap string cfg) (dl : num) (spread latres tres spectype frequency : cfg),
    (f, j) ∈ the_models afterglowpy luminosity_distance fluxDensity time redshift thv
               (Some loge0) thw thc beta (Some logn0) p (Some logepse) (Some logepsb)
               ksin g0 umax umin k mej ->
    -300 <= loge0 <= 300 -> -300 <= logn0 <= 300 ->
    -300 <= logepse <= 300 -> -300 <= logepsb <= 300 ->
    afterglowpy = true ->
    luminosity_distance redshift = Ok dl ->
    kwargs !! "spread" = Some spread -> kwargs !! "latres" = Some latres ->
    kwargs !! "tres" = Some tres -> kwargs !! "spectype" = Some spectype ->
    kwargs !! "frequency" = Some frequency ->
    exists Z : gmap string zval,
      f kwargs = lift (fluxDensity time frequency Z)
      /\ Z !! "jetType" = Some (ZJet j)
      /\ Z !! "specType" = Some (ZCfg spectype)
      /\ Z !! "d_L" = Some (ZNum dl) /\ Z !! "z" = Some (ZNum redshift)
      /\ Z !! "n0" = Some (ZNum (Some (Rpower 10 logn0)))
      /\ Z !! "epsilon_e" = Some (ZNum (Some (Rpower 10 logepse)))
      /\ Z !! "epsilon_B" = Some (ZNum (Some (Rpower 10 logepsb)))
      /\ Z !! "L0" = Some (ZNum 0) /\ Z !! "q" = Some (ZNum 0)
      /\ Z !! "ts" = Some (ZNum 0)
      /\ Z !! "spread" = Some (ZCfg spread) /\ Z !! "latRes" = Some (ZCfg latres)
      /\ Z !! "tRes" = Some (ZCfg tres).
Proof.
  intros time redshift thv loge0 thw thc beta logn0 p logepse logepsb ksin g0 umax umin
    k mej f j kwargs dl spread latres tres spectype frequency Hin _ _ _ _
    Hpy Hdl H1 H2 H3 H4 H5.
  destruct (models_reach_solver time redshift thv (Some loge0) thw thc beta
              (Some logn0) p (Some logepse) (Some logepsb) ksin g0 umax umin k mej f j
              kwargs dl spread latres tres spectype frequency Hin Hpy Hdl H1 H2 H3 H4 H5)
    as (Z & HZ & Hjet & Hspec & HdL & Hz & Hn0 & Hepse & Hepsb & Hrest).
  assert (Hpow : forall x : R, (10 ** Some x)%num = Some (Rpower 10 x)).
  { intros x. unfold pow, fin. apply NumFacts.Rpow_pos. lra. }
  rewrite Hpow in Hn0, Hepse, Hepsb.
  exists Z. repeat (split; [assumption |]). exact Hrest.
Qed.

End Environment.

Lemma afterglow_models_fail_early_witness :
  tophat true MoreExamples.luminosity_distance MoreExamples.fluxDensity [] (Some 0.1)
    (Some 0.2) (Some 52) (Some 0.1) (Some 0) (Some 2.2) (Some (-1)) (Some (-2)) (Some 1)
    (Some 1000) ∅
  = Fail (Raised (KeyError "spread")).
Proof.
  pose proof (afterglow_models_fail_early true MoreExamples.luminosity_distance
                MoreExamples.fluxDensity [] (Some 0.1) (Some 0.2) (Some 52) (Some 2)
                (Some 0.1) (Some 1) (Some 0) (Some 2.2) (Some (-1)) (Some (-2)) (Some 1)
                (Some 1000) (Some 1) (Some 1) (Some 1) (Some 1)
                (tophat true MoreExamples.luminosity_distance MoreExamples.fluxDensity []
                   (Some 0.1) (Some 0.2) (Some 52) (Some 0.1) (Some 0) (Some 2.2)
                   (Some (-1)) (Some (-2)) (Some 1) (Some 1000))
                TopHat ∅) as H.
  destruct H as [_ H].
  - unfold the_models. do 7 (apply elem_of_cons; right). apply elem_of_cons. by left.
  - apply (H (Some 1)); reflexivity.
Defined.

Lemma afterglow_models_reach_solver_witness :
  exists Z : gmap string zval,
    tophat true MoreExamples.luminosity_distance MoreExamples.fluxDensity [] (Some 0.1)
      (Some 0.2) (Some 52) (Some 0.1) (Some 0) (Some 2.2) (Some (-1)) (Some (-2))
      (Some 1) (Some 1000) MoreExamples.config
    = lift (MoreExamples.fluxDensity [] (CNum (Some 1e9)) Z)
    /\ Z !! "jetType" = Some (ZJet TopHat)
    /\ Z !! "n0" = Some (ZNum (Some (Rpower 10 0))).
Proof.
  destruct (afterglow_models_reach_solver true MoreExamples.luminosity_distance
              MoreExamples.fluxDensity [] (Some 0.1) (Some 0.2) 52 (Some 2)
              (Some 0.1) (Some 1) 0 (Some 2.2) (-1) (-2) (Some 1)
              (Some 1000) (Some 1) (Some 1) (Some 1) (Some 1)
              (tophat true MoreExamples.luminosity_distance MoreExamples.fluxDensity []
                 (Some 0.1) (Some 0.2) (Some 52) (Some 0.1) (Some 0) (Some 2.2)
                 (Some (-1)) (Some (-2)) (Some 1) (Some 1000))
              TopHat MoreExamples.config (Some 1) (CBool false) (CInt 2) (CInt 100)
              (CInt 0) (CNum (Some 1e9)))
    as (Z & HZ & Hjet & _ & _ & _ & Hn0 & _).
  - unfold the_models. do 7 (apply elem_of_cons; right). apply elem_of_cons. by left.
  - lra.
  - lra.
  - lra.
  - lra.
  - reflexivity.
  - reflexivity.
  - vm_compute. reflexivity.
  - vm_compute. reflexivity.
  - vm_compute. reflexivity.
  - vm_compute. reflexivity.
  - vm_compute. reflexivity.
  - exists Z. split; [exact HZ |]. split; [exact Hjet | exact Hn0].
Defined.

End AfterglowFacts.
